(** * Multi-agent collaboration orchestrator: a shallow embedding

    The development embeds the collaboration core of the repository:
    - [backend/agents/multi_agent.py]: [MultiAgentCoordinator], its four
      collaboration protocols, the scoring helpers and the convergence test;
    - [backend/domain/agent_domain.py]: the business rules of
      [AgentDomainService.orchestrate_collaboration];
    - [ai-service/multi-agent/agent_coordinator.py]: the registration path
      of [AgentCoordinator].

    Around this core it embeds the rest of [AgentDomainService] with the
    repository methods it calls, the conversations of [AgentCoordinator]
    with [PaperAgent.query] of the ai-service, the [AgentFactory] that sits
    in front of [MultiAgentCoordinator], and the conversation memory of the
    backend [PaperAgent].

    Python values are modelled as the code has them. A [float] is an
    IEEE-754 binary64 number (Rocq's primitive floats: the format and the
    rounding of CPython's [float]); an [int] is a [Z]; a [str] is the
    [string] of its UTF-8 bytes, and [len] and the slices count code points,
    not bytes; a [dict] used as a map is a [gmap]; exceptions are values of
    [exn], threaded with the state of the coordinator object through a
    state-and-error monad.

    The environment is explicit. An agent is a deterministic function of
    the calls issued so far and of its arguments, which says how long the
    call takes and whether it returns a dictionary or raises. The
    coordinator state carries the list of calls issued, a clock in seconds
    and the log. It also carries the two float operations of the scoring
    helpers that the interpreter and its C library leave open, and about
    which the coordinator's model assumes nothing: [sum] over floats, which
    adds from left to right up to CPython 3.11 and carries a compensation
    term from 3.12 on, and [x ** 2], which CPython hands to the C library's
    [pow], where most squares are rounded correctly but not all of them. *)

From Stdlib Require Import ZArith QArith Qabs String Ascii List Floats.
From Stdlib Require Uint63.
From stdpp Require Import base option list gmap strings pretty.

Set Warnings "-inexact-float".

Open Scope string_scope.

(* ===================================================================== *)
(** ** Python primitives used by the coordinator                          *)
(* ===================================================================== *)

Module Py.

(** The [ValueError]s of the repository, with the value their message
    interpolates as payload. *)
Inductive ValueErrorMsg :=
| AgentsNotAvailable (missing_agents : list string)
    (* f"Agents not available: {missing_agents}" *)
| CollaborationTimedOut (timeout : Z)
    (* f"Collaboration timed out after {task.timeout} seconds" *)
| UnsupportedMode (text : string)
    (* f"Unsupported collaboration mode: {task.mode}", with [str(task.mode)] *)
| AgentNotFound (agent_id : string)
    (* f"Agent {agent_id} not found" *)
| AgentNotSuitable (agent_id : string)
    (* f"Agent {agent_id} is not suitable for collaboration" *)
| AtLeastTwoAgents
    (* "At least 2 agents required for collaboration" *)
| MaximumFiveAgents.
    (* "Maximum 5 agents allowed for collaboration" *)

(** Exceptions (subclasses of [Exception]) that can travel through the
    coordinator. [AgentFailure] stands for whatever an agent's
    [process_query] raises. *)
Inductive exn :=
| ValueError (msg : ValueErrorMsg)
| KeyError (key : string)
| AttributeError (attribute : string)
| ZeroDivisionError
| TimeoutError                     (* asyncio.TimeoutError *)
| AgentFailure (detail : string).

Inductive result (A : Type) :=
| Ok (a : A)
| Raise (e : exn).
Arguments Ok {A} a.
Arguments Raise {A} e.

Definition is_ok {A} (r : result A) : bool :=
  match r with Ok _ => true | Raise _ => false end.

(** [float(n)] for an [int]; exact for the magnitudes a string length or a
    participant count can take (below 2^53). *)
Definition float_of_int (n : Z) : float :=
  PrimFloat.of_uint63 (Uint63.of_Z n).

(** [a / b] on floats: Python raises instead of producing inf or nan. *)
Definition truediv (a b : float) : result float :=
  if PrimFloat.eqb b 0%float then Raise ZeroDivisionError
  else Ok (PrimFloat.div a b).

(** [a / b] on ints (true division, correctly rounded). *)
Definition int_truediv (a b : Z) : result float :=
  if Z.eqb b 0%Z then Raise ZeroDivisionError
  else Ok (PrimFloat.div (float_of_int a) (float_of_int b)).

(** [sum(xs)] over floats as CPython up to 3.11 computes it: it starts from
    the int [0] and adds left to right. *)
Definition sum_float (xs : list float) : float :=
  fold_left PrimFloat.add xs (float_of_int 0%Z).

(** [sum(ns)] over ints. *)
Definition sum_int (ns : list Z) : Z := fold_left Z.add ns 0%Z.

(** [max(a, b)] and [min(a, b)]: the first argument is kept unless the
    second compares strictly greater (resp. smaller). *)
Definition fmax (a b : float) : float := if PrimFloat.ltb a b then b else a.
Definition fmin (a b : float) : float := if PrimFloat.ltb b a then b else a.

(** A [str] is held as its UTF-8 bytes: a code point is one byte that is
    not of the form [10xxxxxx], followed by its continuation bytes, which
    are of that form. *)
Definition continuation_byte (b : ascii) : bool :=
  match b with
  | Ascii _ _ _ _ _ _ b6 b7 => b7 && negb b6
  end.

(** [len(s)] as an int: the number of code points. *)
Fixpoint len_str (s : string) : Z :=
  match s with
  | EmptyString => 0
  | String b rest => if continuation_byte b then len_str rest else 1 + len_str rest
  end.

Definition len {A} (l : list A) : Z := Z.of_nat (length l).

(** [s[:n]]: the first [n] code points, each with its continuation bytes. *)
Fixpoint str_prefix (n : nat) (s : string) : string :=
  match s with
  | EmptyString => EmptyString
  | String b rest =>
    if continuation_byte b then String b (str_prefix n rest)
    else match n with
         | O => EmptyString
         | S n => String b (str_prefix n rest)
         end
  end.

(** [l[-n:]]; for [n = 0] Python reads [l[-0:]] as [l[0:]], the whole list. *)
Definition last_n {A} (n : nat) (l : list A) : list A :=
  match n with
  | O => l
  | _ => drop (length l - n) l
  end.

(** [len(set(xs))] for strings. *)
Definition count_distinct (xs : list string) : Z :=
  Z.of_nat (size (list_to_set xs : gset string)).

(** The newline of the f-strings. *)
Definition nl : string := String (ascii_of_nat 10) EmptyString.

(** [str(n)] for a non-negative int. *)
Definition str_of_nat (n : nat) : string := pretty n.

End Py.
Export Py.

(* ===================================================================== *)
(** ** Data model of [multi_agent.py]                                     *)
(* ===================================================================== *)

(** [class CollaborationMode(Enum)]. The dataclass does not check what it
    is given as [mode]: [OtherMode] is any other object, none of the four
    members. It may have an attribute [value] (a member of the homonymous
    enum of [agent_domain.py] has one) or none (a plain string, [None]);
    [text] is what [str] makes of it in an f-string. *)
Inductive CollaborationMode :=
| SEQUENTIAL
| PARALLEL
| DEBATE
| CONSENSUS
| OtherMode (value : option string) (text : string).

(** [task.mode.value]. *)
Definition mode_value (m : CollaborationMode) : result string :=
  match m with
  | SEQUENTIAL => Ok "sequential"
  | PARALLEL => Ok "parallel"
  | DEBATE => Ok "debate"
  | CONSENSUS => Ok "consensus"
  | OtherMode (Some v) _ => Ok v
  | OtherMode None _ => Raise (AttributeError "value")
  end.

(** [@dataclass CollaborationTask]. *)
Record CollaborationTask := {
  task_id : string;
  task_type : string;
  query : string;
  agents : list string;
  mode : CollaborationMode;
  max_iterations : Z;      (* default 3 *)
  timeout : Z              (* seconds, default 300 *)
}.

Definition Metadata := list (string * string).

(** [@dataclass AgentResponse]; [timestamp] is the coordinator's clock
    reading ([datetime.utcnow()]) in seconds. *)
Record AgentResponse := {
  agent_id : string;
  content : string;
  confidence : float;
  metadata : Metadata;
  timestamp : Z
}.

(** The [collaboration_context] dictionary handed to an agent, one shape per
    call site. *)
Inductive Context :=
| CtxSequential (position total_agents : nat) (previous_responses : list AgentResponse)
| CtxParallel (total_agents : nat)
| CtxDebateInitial (iteration : Z) (total_agents : nat)
| CtxDebate (iteration : Z) (other_responses : list string)
| CtxConsensusInitial (iteration : Z) (goal : string)
| CtxConsensus (iteration : Z) (current_consensus_score : float)
               (team_responses : list string).

(** The dictionary an agent's [process_query] returns; a key may be absent. *)
Record ResponseDict := {
  get_content : option string;            (* response["content"] *)
  get_confidence_score : option float;    (* response.get("confidence_score", 0.8) *)
  get_metadata : option Metadata          (* response.get("metadata", {}) *)
}.

Inductive Outcome :=
| Returns (response : ResponseDict)
| Raises (e : exn).

(** One awaited [process_query]: how long it suspends the caller (seconds)
    and how it ends. *)
Record QueryRun := {
  duration : Z;
  outcome : Outcome
}.

(** A call the coordinator issued to an agent. *)
Record Call := {
  callee : string;
  prompt : string;
  context : Context
}.

(** [PaperAgent], seen from the coordinator: [process_query(query, context)]
    is a deterministic function of the calls issued so far (the agent's
    conversation memory) and of its arguments. *)
Record PaperAgent := {
  process_query : list Call -> string -> Context -> QueryRun
}.

Inductive LogEntry :=
| LogEvent (event : string) (subject : string)
| LogError (e : exn) (operation : string) (subject : string).

(** What the interpreter and its C library decide in the arithmetic of the
    scoring helpers: [sum] over floats and [x ** 2] for a float [x]. *)
Record Platform := {
  float_sum : list float -> float;
  float_pow2 : float -> float
}.

(** [MultiAgentCoordinator]: its two dictionaries, together with the
    environment: the calls made to agents, the clock, the log of
    [LoggerMixin], and the platform the coordinator runs on. *)
Record Coordinator := {
  active_agents : gmap string PaperAgent;
  active_collaborations : gmap string CollaborationTask;
  calls : list Call;
  clock : Z;
  log : list LogEntry;
  platform : Platform
}.

(** The dictionary a protocol returns. Keys present in only some modes are
    optional fields. *)
Record CollaborationResult := {
  res_task_id : string;
  res_mode : string;
  synthesized_response : string;
  individual_responses : gmap string string;
  collaboration_quality : float;
  consensus_score : float;
  total_iterations : Z;
  participating_agents : list string;
  debate_rounds : option Z;
  key_agreements : option (list string);
  key_disagreements : option (list string);
  consensus_achieved : option bool
}.

(* ===================================================================== *)
(** ** The coordinator monad: state of the object, plus exceptions        *)
(* ===================================================================== *)

Definition M (A : Type) : Type := Coordinator -> result A * Coordinator.

Definition ret {A} (a : A) : M A := fun s => (Ok a, s).

Definition raise {A} (e : exn) : M A := fun s => (Raise e, s).

Definition bind {A B} (c : M A) (k : A -> M B) : M B :=
  fun s => match c s with
           | (Ok a, s') => k a s'
           | (Raise e, s') => (Raise e, s')
           end.

Notation "'let*' x ':=' c 'in' k" := (bind c (fun x => k))
  (at level 10, x pattern, c at level 100, k at level 200).

(** [try: c  except Exception as e: h e]. *)
Definition try_except {A} (c : M A) (h : exn -> M A) : M A :=
  fun s => match c s with
           | (Ok a, s') => (Ok a, s')
           | (Raise e, s') => h e s'
           end.

(** A pure computation that may raise. *)
Definition lift {A} (r : result A) : M A := fun s => (r, s).

Definition gets {A} (f : Coordinator -> A) : M A := fun s => (Ok (f s), s).

Definition set_active_agents (m : gmap string PaperAgent) (s : Coordinator) : Coordinator :=
  {| active_agents := m; active_collaborations := active_collaborations s;
     calls := calls s; clock := clock s; log := log s;
     platform := platform s |}.

Definition set_active_collaborations (m : gmap string CollaborationTask) (s : Coordinator)
  : Coordinator :=
  {| active_agents := active_agents s; active_collaborations := m;
     calls := calls s; clock := clock s; log := log s;
     platform := platform s |}.

Definition add_calls (cs : list Call) (s : Coordinator) : Coordinator :=
  {| active_agents := active_agents s; active_collaborations := active_collaborations s;
     calls := calls s ++ cs; clock := clock s; log := log s;
     platform := platform s |}.

Definition advance_clock (d : Z) (s : Coordinator) : Coordinator :=
  {| active_agents := active_agents s; active_collaborations := active_collaborations s;
     calls := calls s; clock := (clock s + d)%Z; log := log s;
     platform := platform s |}.

Definition add_log (e : LogEntry) (s : Coordinator) : Coordinator :=
  {| active_agents := active_agents s; active_collaborations := active_collaborations s;
     calls := calls s; clock := clock s; log := log s ++ [e];
     platform := platform s |}.

Definition modify (f : Coordinator -> Coordinator) : M unit := fun s => (Ok tt, f s).

(** [self.log_event(...)] and [self.log_error(...)] of [LoggerMixin]. *)
Definition log_event (event subject : string) : M unit :=
  modify (add_log (LogEvent event subject)).

Definition log_error (e : exn) (operation subject : string) : M unit :=
  modify (add_log (LogError e operation subject)).

(* ===================================================================== *)
(** ** Scoring helpers and the convergence test                           *)
(* ===================================================================== *)

Definition lengths_of (responses : list AgentResponse) : list Z :=
  map (fun r => len_str (content r)) responses.

(** [_calculate_collaboration_quality], on platform [p]. *)
Definition _calculate_collaboration_quality (p : Platform) (responses : list AgentResponse)
  : float :=
  match responses with
  | [] => 0%float
  | _ =>
    let avg_confidence :=
      PrimFloat.div (float_sum p (map confidence responses))
                    (float_of_int (len responses)) in
    let response_diversity :=
      PrimFloat.div
        (float_of_int (count_distinct (map (fun r => str_prefix 100 (content r)) responses)))
        (float_of_int (len responses)) in
    let quality_score :=
      PrimFloat.add (PrimFloat.mul avg_confidence 0.6%float)
                    (PrimFloat.mul response_diversity 0.4%float) in
    fmin quality_score 1%float
  end.

(** [_calculate_consensus_score], on platform [p]. The divisions that
    Python can refuse are explicit: [variance / (avg_length ** 2)] raises
    [ZeroDivisionError] when the power is zero. *)
Definition _calculate_consensus_score (p : Platform)
    (responses : list AgentResponse) : result float :=
  if (length responses <? 2)%nat then Ok 1%float
  else
    let lengths := lengths_of responses in
    match int_truediv (sum_int lengths) (len lengths) with
    | Raise e => Raise e
    | Ok avg_length =>
      let variance :=
        PrimFloat.div
          (float_sum p
             (map (fun l => float_pow2 p (PrimFloat.sub (float_of_int l) avg_length))
                  lengths))
          (float_of_int (len lengths)) in
      match truediv variance (float_pow2 p avg_length) with
      | Raise e => Raise e
      | Ok ratio =>
        let consensus_score := fmax 0%float (PrimFloat.sub 1%float ratio) in
        Ok (fmin consensus_score 1%float)
      end
    end.

(** [_check_debate_convergence]. *)
Definition _check_debate_convergence (current_responses previous_responses : list AgentResponse)
  : result bool :=
  match current_responses, previous_responses with
  | [], _ | _, [] => Ok false
  | _, _ =>
    match int_truediv (sum_int (lengths_of current_responses)) (len current_responses) with
    | Raise e => Raise e
    | Ok current_avg_length =>
      match int_truediv (sum_int (lengths_of previous_responses)) (len previous_responses) with
      | Raise e => Raise e
      | Ok previous_avg_length =>
        match truediv (PrimFloat.abs (PrimFloat.sub current_avg_length previous_avg_length))
                      previous_avg_length with
        | Raise e => Raise e
        | Ok length_change => Ok (PrimFloat.ltb length_change 0.1%float)
        end
      end
    end
  end.

(** Placeholder extractors: constants of the source. *)
Definition _extract_agreements (responses : list AgentResponse) : list string :=
  ["Core methodology approach"; "Problem definition accuracy"; "Implementation feasibility"].

Definition _extract_disagreements (responses : list AgentResponse) : list string :=
  ["Optimal parameter settings"; "Performance evaluation metrics"; "Scalability considerations"].

Definition _extract_common_themes (responses : list AgentResponse) : list string :=
  ["Importance of data quality"; "Need for proper validation";
   "Consideration of computational resources"].

(* ===================================================================== *)
(** ** Response synthesis                                                 *)
(* ===================================================================== *)

(** [f"{x:.1%}"]: the float is multiplied by 100, then printed with one
    decimal, rounding the exact binary value half-to-even. *)
Definition round_half_even (num den : Z) : Z :=
  let q := (num / den)%Z in
  let r := (num mod den)%Z in
  if (den <? 2 * r)%Z then (q + 1)%Z
  else if (2 * r =? den)%Z then (if Z.even q then q else (q + 1)%Z)
  else q.

Definition format_tenths (t : Z) : string :=
  pretty (Z.to_nat (t / 10)) ++ "." ++ pretty (Z.to_nat (t mod 10)).

Definition format_percent1 (x : float) : string :=
  match Prim2SF (PrimFloat.mul x 100%float) with
  | S754_zero sign => (if sign then "-" else "") ++ "0.0%"
  | S754_infinity sign => (if sign then "-" else "") ++ "inf%"
  | S754_nan => "nan%"
  | S754_finite sign m e =>
    let tenths :=
      if (0 <=? e)%Z then (Z.pos m * 2 ^ e * 10)%Z
      else round_half_even (Z.pos m * 10) (2 ^ (- e)) in
    (if sign then "-" else "") ++ format_tenths tenths ++ "%"
  end.

Definition bullet_lines (items : list string) : string :=
  fold_left (fun synthesis item => synthesis ++ "• " ++ item ++ nl) items "".

(** [_synthesize_sequential_responses]. *)
Definition _synthesize_sequential_responses
    (responses : list AgentResponse) (task : CollaborationTask) : string :=
  let synthesis := "Based on sequential analysis by " ++ str_of_nat (length responses)
                   ++ " specialized agents:" ++ nl ++ nl in
  let synthesis :=
    fst (fold_left
           (fun '(synthesis, i) response =>
              (synthesis ++ "Agent " ++ str_of_nat i ++ " Analysis: "
                 ++ str_prefix 200 (content response) ++ "..." ++ nl ++ nl, S i))
           responses (synthesis, 1%nat)) in
  let synthesis := synthesis ++ "Integrated Conclusion: " in
  let synthesis := synthesis
    ++ "The sequential analysis reveals a comprehensive understanding that builds from " in
  synthesis ++ "initial insights to a refined conclusion addressing: " ++ query task.

(** [_synthesize_parallel_responses]. *)
Definition _synthesize_parallel_responses
    (responses : list AgentResponse) (task : CollaborationTask) : string :=
  let synthesis := "Parallel analysis by " ++ str_of_nat (length responses)
                   ++ " specialized agents reveals:" ++ nl ++ nl in
  let high_confidence :=
    List.filter (fun r => PrimFloat.ltb 0.8%float (confidence r)) responses in
  let medium_confidence :=
    List.filter (fun r => PrimFloat.leb 0.6%float (confidence r)
                          && PrimFloat.leb (confidence r) 0.8%float) responses in
  let excerpt r := str_prefix 150 (content r) ++ "..." in
  let synthesis :=
    match high_confidence with
    | [] => synthesis
    | _ => synthesis ++ "High Confidence Insights:" ++ nl
             ++ bullet_lines (map excerpt high_confidence) ++ nl
    end in
  let synthesis :=
    match medium_confidence with
    | [] => synthesis
    | _ => synthesis ++ "Additional Considerations:" ++ nl
             ++ bullet_lines (map excerpt medium_confidence) ++ nl
    end in
  let synthesis := synthesis
    ++ "Unified Conclusion: The parallel analysis provides multiple perspectives that " in
  synthesis ++ "collectively address the query: " ++ query task.

(** [_synthesize_debate_responses]; [len(responses) // len(task.agents)]
    raises [ZeroDivisionError] for an empty participant list. *)
Definition _synthesize_debate_responses
    (responses : list AgentResponse) (task : CollaborationTask) : result string :=
  match agents task with
  | [] => Raise ZeroDivisionError
  | _ =>
    let rounds := (length responses / length (agents task))%nat in
    let synthesis := "After " ++ str_of_nat rounds ++ " rounds of debate:" ++ nl ++ nl in
    let agreements := _extract_agreements responses in
    let disagreements := _extract_disagreements responses in
    let synthesis :=
      match agreements with
      | [] => synthesis
      | _ => synthesis ++ "Points of Agreement:" ++ nl ++ bullet_lines agreements ++ nl
      end in
    let synthesis :=
      match disagreements with
      | [] => synthesis
      | _ => synthesis ++ "Remaining Disagreements:" ++ nl ++ bullet_lines disagreements ++ nl
      end in
    let synthesis := synthesis
      ++ "Balanced Conclusion: Through rigorous debate, the agents have explored " in
    Ok (synthesis ++ "multiple facets of: " ++ query task)
  end.

(** [_synthesize_consensus_responses]. *)
Definition _synthesize_consensus_responses (p : Platform)
    (responses : list AgentResponse) (task : CollaborationTask) : result string :=
  match _calculate_consensus_score p responses with
  | Raise e => Raise e
  | Ok consensus_score =>
    let synthesis := "Consensus Analysis (Agreement Level: "
                     ++ format_percent1 consensus_score ++ "):" ++ nl ++ nl in
    let common_themes := _extract_common_themes responses in
    let synthesis :=
      match common_themes with
      | [] => synthesis
      | _ => synthesis ++ "Agreed-Upon Points:" ++ nl ++ bullet_lines common_themes ++ nl
      end in
    let synthesis := synthesis ++ "Consensus Conclusion: The agents have reached " in
    let synthesis :=
      if PrimFloat.ltb 0.8%float consensus_score then synthesis ++ "strong consensus"
      else if PrimFloat.ltb 0.6%float consensus_score then synthesis ++ "moderate consensus"
      else synthesis ++ "partial consensus" in
    Ok (synthesis ++ " on the key aspects of: " ++ query task)
  end.

(* ===================================================================== *)
(** ** Talking to agents                                                  *)
(* ===================================================================== *)

(** [agent = self.active_agents[agent_id]]. *)
Definition lookup_agent (agent_id : string) : M PaperAgent :=
  fun s => match active_agents s !! agent_id with
           | Some agent => (Ok agent, s)
           | None => (Raise (KeyError agent_id), s)
           end.

(** [await agent.process_query(query, context)], awaited on its own: the
    call is recorded, the clock advances by the call's duration, and the
    agent's exception, if any, is raised in the coordinator. *)
Definition await_process_query (agent_id : string) (agent : PaperAgent)
    (q : string) (ctx : Context) : M ResponseDict :=
  fun s =>
    let run := process_query agent (calls s) q ctx in
    let s' := advance_clock (duration run)
                (add_calls [{| callee := agent_id; prompt := q; context := ctx |}] s) in
    match outcome run with
    | Returns response => (Ok response, s')
    | Raises e => (Raise e, s')
    end.

(** [AgentResponse(agent_id=agent_id, content=response["content"],
    confidence=response.get("confidence_score", 0.8),
    metadata=response.get("metadata", {}), timestamp=datetime.utcnow())]. *)
Definition make_agent_response (agent_id : string) (response : ResponseDict) : M AgentResponse :=
  fun s =>
    match get_content response with
    | None => (Raise (KeyError "content"), s)
    | Some c =>
      (Ok {| agent_id := agent_id;
             content := c;
             confidence := default 0.8%float (get_confidence_score response);
             metadata := default [] (get_metadata response);
             timestamp := clock s |}, s)
    end.

(** [{r.agent_id: r.content for r in responses}]: a later response of the
    same agent replaces an earlier one. *)
Definition responses_by_agent (responses : list AgentResponse) : gmap string string :=
  fold_left (fun d r => <[agent_id r := content r]> d) responses ∅.

(** [asyncio.wait_for] around [asyncio.gather] of the agent tasks with
    [return_exceptions=True], awaited under [timeout]. All calls start together on
    the same history; the gather finishes with the slowest call. An empty
    gather is already done; a non-positive timeout cancels the calls before
    they start; otherwise the timer wins unless every call finishes strictly
    before it. *)
Definition gather_wait_for (agent_tasks : list (string * PaperAgent))
    (q : string) (ctx : Context) (timeout : Z) : M (list Outcome) :=
  fun s =>
    match agent_tasks with
    | [] => (Ok [], s)
    | _ =>
      if (timeout <=? 0)%Z then (Raise TimeoutError, s)
      else
        let runs := map (fun t => process_query (snd t) (calls s) q ctx) agent_tasks in
        let started :=
          add_calls (map (fun t => {| callee := fst t; prompt := q; context := ctx |})
                         agent_tasks) s in
        let finish := fold_right Z.max 0%Z (map duration runs) in
        if (finish <? timeout)%Z
        then (Ok (map outcome runs), advance_clock finish started)
        else (Raise TimeoutError, advance_clock timeout started)
    end.

(* ===================================================================== *)
(** ** SEQUENTIAL                                                         *)
(* ===================================================================== *)

(** The [for i, agent_id in enumerate(task.agents)] loop of
    [_sequential_collaboration]; [i] counts the agents already visited. *)
Fixpoint sequential_loop (task : CollaborationTask) (remaining : list string) (i : nat)
    (responses : list AgentResponse) (current_context : string) : M (list AgentResponse) :=
  match remaining with
  | [] => ret responses
  | agent_id :: rest =>
    let* agent := lookup_agent agent_id in
    let ctx := CtxSequential (i + 1) (length (agents task)) (last_n 3 responses) in
    let* response := await_process_query agent_id agent current_context ctx in
    let* agent_response := make_agent_response agent_id response in
    let responses := (responses ++ [agent_response])%list in
    let current_context :=
      query task ++ nl ++ nl ++ "Previous agent (" ++ agent_id ++ ") responded: "
        ++ str_prefix 200 (content agent_response) ++ "..." in
    sequential_loop task rest (S i) responses current_context
  end.

(** [_sequential_collaboration]. *)
Definition _sequential_collaboration (task : CollaborationTask) : M CollaborationResult :=
  let* responses := sequential_loop task (agents task) 0 [] (query task) in
  let synthesized_response := _synthesize_sequential_responses responses task in
  let* value := lift (mode_value (mode task)) in
  let* p := gets platform in
  let* score := lift (_calculate_consensus_score p responses) in
  ret {| res_task_id := task_id task;
         res_mode := value;
         synthesized_response := synthesized_response;
         individual_responses := responses_by_agent responses;
         collaboration_quality := _calculate_collaboration_quality p responses;
         consensus_score := score;
         total_iterations := 1;
         participating_agents := agents task;
         debate_rounds := None;
         key_agreements := None;
         key_disagreements := None;
         consensus_achieved := None |}.

(* ===================================================================== *)
(** ** PARALLEL                                                           *)
(* ===================================================================== *)

(** The first loop of [_parallel_collaboration]: one coroutine object per
    participant (creating it does not start the call). *)
Fixpoint create_agent_tasks (remaining : list string) : M (list (string * PaperAgent)) :=
  match remaining with
  | [] => ret []
  | agent_id :: rest =>
    let* agent := lookup_agent agent_id in
    let* agent_tasks := create_agent_tasks rest in
    ret ((agent_id, agent) :: agent_tasks)
  end.

(** The [for i, response_data in enumerate(responses_data)] loop: an
    exception is logged and skipped. *)
Fixpoint process_responses (responses_data : list (string * Outcome))
    (responses : list AgentResponse) : M (list AgentResponse) :=
  match responses_data with
  | [] => ret responses
  | (agent_id, Raises e) :: rest =>
    let* _ := log_error e "parallel_collaboration" agent_id in
    process_responses rest responses
  | (agent_id, Returns response_data) :: rest =>
    let* agent_response := make_agent_response agent_id response_data in
    process_responses rest (responses ++ [agent_response])
  end.

(** [_parallel_collaboration]. *)
Definition _parallel_collaboration (task : CollaborationTask) : M CollaborationResult :=
  let* agent_tasks := create_agent_tasks (agents task) in
  let ctx := CtxParallel (length (agents task)) in
  let* responses_data :=
    try_except (gather_wait_for agent_tasks (query task) ctx (timeout task))
      (fun e => match e with
                | TimeoutError => raise (ValueError (CollaborationTimedOut (timeout task)))
                | _ => raise e
                end) in
  let* responses := process_responses (zip (agents task) responses_data) [] in
  let synthesized_response := _synthesize_parallel_responses responses task in
  let* value := lift (mode_value (mode task)) in
  let* p := gets platform in
  let* score := lift (_calculate_consensus_score p responses) in
  ret {| res_task_id := task_id task;
         res_mode := value;
         synthesized_response := synthesized_response;
         individual_responses := responses_by_agent responses;
         collaboration_quality := _calculate_collaboration_quality p responses;
         consensus_score := score;
         total_iterations := 1;
         participating_agents := map agent_id responses;
         debate_rounds := None;
         key_agreements := None;
         key_disagreements := None;
         consensus_achieved := None |}.

(* ===================================================================== *)
(** ** DEBATE                                                             *)
(* ===================================================================== *)

(** The initial round of [_debate_collaboration]. *)
Fixpoint debate_initial_round (task : CollaborationTask) (remaining : list string)
    (initial_responses : list AgentResponse) : M (list AgentResponse) :=
  match remaining with
  | [] => ret initial_responses
  | agent_id :: rest =>
    let* agent := lookup_agent agent_id in
    let ctx := CtxDebateInitial 1 (length (agents task)) in
    let* response := await_process_query agent_id agent (query task) ctx in
    let* agent_response := make_agent_response agent_id response in
    debate_initial_round task rest (initial_responses ++ [agent_response])
  end.

(** The prompt of a debate round for one agent. *)
Definition debate_query_for (task : CollaborationTask) (other_responses : list AgentResponse)
  : string :=
  let debate_query := "Original query: " ++ query task ++ nl ++ nl in
  let debate_query := debate_query ++ "Other agents have responded:" ++ nl in
  let debate_query :=
    fold_left (fun debate_query other_response =>
                 debate_query ++ "- " ++ agent_id other_response ++ ": "
                   ++ str_prefix 150 (content other_response) ++ "..." ++ nl)
              other_responses debate_query in
  debate_query ++ nl ++ "Please provide your counter-argument or refined response:".

(** [[r for r in initial_responses if r.agent_id != agent_id]]. *)
Definition responses_of_others (initial_responses : list AgentResponse) (current_agent : string)
  : list AgentResponse :=
  List.filter (fun r => negb (String.eqb (agent_id r) current_agent)) initial_responses.

(** One debate round: the [for i, agent_id in enumerate(task.agents)] loop
    inside the [while]. *)
Fixpoint debate_round (task : CollaborationTask) (remaining : list string)
    (current_iteration : Z) (initial_responses round_responses : list AgentResponse)
  : M (list AgentResponse) :=
  match remaining with
  | [] => ret round_responses
  | agent_id :: rest =>
    let* agent := lookup_agent agent_id in
    let other_responses := responses_of_others initial_responses agent_id in
    let debate_query := debate_query_for task other_responses in
    let ctx := CtxDebate (current_iteration + 1) (map content other_responses) in
    let* response := await_process_query agent_id agent debate_query ctx in
    let* agent_response := make_agent_response agent_id response in
    debate_round task rest current_iteration initial_responses
                 (round_responses ++ [agent_response])
  end.

(** The [while current_iteration < task.max_iterations] loop. [rounds_left]
    bounds the iterations still possible; [max_iterations - current_iteration]
    is always enough, since every iteration increments [current_iteration]. *)
Fixpoint debate_loop (task : CollaborationTask) (rounds_left : nat) (current_iteration : Z)
    (initial_responses all_responses : list AgentResponse) : M (Z * list AgentResponse) :=
  match rounds_left with
  | O => ret (current_iteration, all_responses)
  | S rounds_left =>
    if (current_iteration <? max_iterations task)%Z then
      let* round_responses :=
        debate_round task (agents task) current_iteration initial_responses [] in
      let all_responses := (all_responses ++ round_responses)%list in
      let current_iteration := (current_iteration + 1)%Z in
      let* converged := lift (_check_debate_convergence round_responses initial_responses) in
      if (converged : bool) then ret (current_iteration, all_responses)
      else debate_loop task rounds_left current_iteration round_responses all_responses
    else ret (current_iteration, all_responses)
  end.

(** [_debate_collaboration]. *)
Definition _debate_collaboration (task : CollaborationTask) : M CollaborationResult :=
  let* initial_responses := debate_initial_round task (agents task) [] in
  let all_responses := initial_responses in
  let current_iteration := 1%Z in
  let* (current_iteration, all_responses) :=
    debate_loop task (Z.to_nat (max_iterations task - current_iteration))
                  current_iteration initial_responses all_responses in
  let* synthesized_response := lift (_synthesize_debate_responses all_responses task) in
  let* value := lift (mode_value (mode task)) in
  let latest := last_n (length (agents task)) all_responses in
  let* p := gets platform in
  let* score := lift (_calculate_consensus_score p latest) in
  ret {| res_task_id := task_id task;
         res_mode := value;
         synthesized_response := synthesized_response;
         individual_responses := responses_by_agent latest;
         collaboration_quality := _calculate_collaboration_quality p all_responses;
         consensus_score := score;
         total_iterations := current_iteration;
         participating_agents := agents task;
         debate_rounds := Some current_iteration;
         key_agreements := Some (_extract_agreements all_responses);
         key_disagreements := Some (_extract_disagreements all_responses);
         consensus_achieved := None |}.

(* ===================================================================== *)
(** ** CONSENSUS                                                          *)
(* ===================================================================== *)

(** The initial round of [_consensus_collaboration]. *)
Fixpoint consensus_initial_round (task : CollaborationTask) (remaining : list string)
    (current_responses : list AgentResponse) : M (list AgentResponse) :=
  match remaining with
  | [] => ret current_responses
  | agent_id :: rest =>
    let* agent := lookup_agent agent_id in
    let ctx := CtxConsensusInitial 1 "work towards consensus" in
    let* response := await_process_query agent_id agent (query task) ctx in
    let* agent_response := make_agent_response agent_id response in
    consensus_initial_round task rest (current_responses ++ [agent_response])
  end.

(** The consensus-building prompt of a round. *)
Definition consensus_query_for (task : CollaborationTask) (current_responses : list AgentResponse)
  : string :=
  let consensus_query := "Original query: " ++ query task ++ nl ++ nl in
  let consensus_query := consensus_query ++ "Current responses from the team:" ++ nl in
  let consensus_query :=
    fold_left (fun consensus_query response =>
                 consensus_query ++ "- " ++ agent_id response ++ ": "
                   ++ str_prefix 150 (content response) ++ "..." ++ nl)
              current_responses consensus_query in
  consensus_query ++ nl
    ++ "Please work towards a consensus by finding common ground and addressing differences:".

(** One consensus round: the [for agent_id in task.agents] loop inside the
    [while]. *)
Fixpoint consensus_round (task : CollaborationTask) (remaining : list string)
    (current_iteration : Z) (consensus_score : float) (consensus_query : string)
    (current_responses round_responses : list AgentResponse) : M (list AgentResponse) :=
  match remaining with
  | [] => ret round_responses
  | agent_id :: rest =>
    let* agent := lookup_agent agent_id in
    let ctx := CtxConsensus (current_iteration + 1) consensus_score
                            (map content current_responses) in
    let* response := await_process_query agent_id agent consensus_query ctx in
    let* agent_response := make_agent_response agent_id response in
    consensus_round task rest current_iteration consensus_score consensus_query
                    current_responses (round_responses ++ [agent_response])
  end.

(** The [while current_iteration < task.max_iterations] loop of
    [_consensus_collaboration]; [rounds_left] as in [debate_loop]. It
    returns [(current_iteration, current_responses, all_responses)]. *)
Fixpoint consensus_loop (task : CollaborationTask) (rounds_left : nat) (current_iteration : Z)
    (current_responses all_responses : list AgentResponse)
  : M (Z * list AgentResponse * list AgentResponse) :=
  match rounds_left with
  | O => ret (current_iteration, current_responses, all_responses)
  | S rounds_left =>
    if (current_iteration <? max_iterations task)%Z then
      let* p := gets platform in
      let* consensus_score := lift (_calculate_consensus_score p current_responses) in
      if PrimFloat.ltb 0.8%float consensus_score
      then ret (current_iteration, current_responses, all_responses)
      else
        let consensus_query := consensus_query_for task current_responses in
        let* round_responses :=
          consensus_round task (agents task) current_iteration consensus_score
                          consensus_query current_responses [] in
        let all_responses := (all_responses ++ round_responses)%list in
        let current_responses := round_responses in
        let current_iteration := (current_iteration + 1)%Z in
        consensus_loop task rounds_left current_iteration current_responses all_responses
    else ret (current_iteration, current_responses, all_responses)
  end.

(** [_consensus_collaboration]. *)
Definition _consensus_collaboration (task : CollaborationTask) : M CollaborationResult :=
  let* current_responses := consensus_initial_round task (agents task) [] in
  let all_responses := current_responses in
  let current_iteration := 1%Z in
  let* (current_iteration, current_responses, all_responses) :=
    consensus_loop task (Z.to_nat (max_iterations task - current_iteration))
                     current_iteration current_responses all_responses in
  let* p := gets platform in
  let* final_consensus_score := lift (_calculate_consensus_score p current_responses) in
  let* synthesized_response :=
    lift (_synthesize_consensus_responses p current_responses task) in
  let* value := lift (mode_value (mode task)) in
  ret {| res_task_id := task_id task;
         res_mode := value;
         synthesized_response := synthesized_response;
         individual_responses := responses_by_agent current_responses;
         collaboration_quality := _calculate_collaboration_quality p all_responses;
         consensus_score := final_consensus_score;
         total_iterations := current_iteration;
         participating_agents := agents task;
         debate_rounds := None;
         key_agreements := None;
         key_disagreements := None;
         consensus_achieved := Some (PrimFloat.ltb 0.8%float final_consensus_score) |}.

(* ===================================================================== *)
(** ** The coordinator's public methods                                   *)
(* ===================================================================== *)

(** [register_agent]: a plain dictionary store. *)
Definition register_agent (agent_id : string) (agent : PaperAgent) : M unit :=
  let* _ := modify (fun s => set_active_agents (<[agent_id := agent]> (active_agents s)) s) in
  log_event "agent_registered" agent_id.

(** [unregister_agent]. *)
Definition unregister_agent (agent_id : string) : M unit :=
  let* registered := gets (fun s => bool_decide (is_Some (active_agents s !! agent_id))) in
  if (registered : bool) then
    let* _ := modify (fun s => set_active_agents (delete agent_id (active_agents s)) s) in
    log_event "agent_unregistered" agent_id
  else ret tt.

(** [[agent_id for agent_id in task.agents if agent_id not in self.active_agents]]. *)
Definition missing_agents_of (task : CollaborationTask) (s : Coordinator) : list string :=
  List.filter (fun agent_id => negb (bool_decide (is_Some (active_agents s !! agent_id))))
              (agents task).

(** [self.active_collaborations[task.task_id] = task]. *)
Definition enter_collaboration (task : CollaborationTask) (s : Coordinator) : Coordinator :=
  set_active_collaborations (<[task_id task := task]> (active_collaborations s)) s.

(** [start_collaboration]. *)
Definition start_collaboration (task : CollaborationTask) : M CollaborationResult :=
  try_except
    (let* _ := modify (enter_collaboration task) in
     (* Validate all agents are available *)
     let* missing_agents := gets (missing_agents_of task) in
     match missing_agents with
     | _ :: _ => raise (ValueError (AgentsNotAvailable missing_agents))
     | [] =>
       (* the arguments of [log_event] come first: [mode=task.mode.value] *)
       let* _ := lift (mode_value (mode task)) in
       let* _ := log_event "collaboration_started" (task_id task) in
       (* Route to appropriate collaboration method *)
       let* result :=
         match mode task with
         | SEQUENTIAL => _sequential_collaboration task
         | PARALLEL => _parallel_collaboration task
         | DEBATE => _debate_collaboration task
         | CONSENSUS => _consensus_collaboration task
         | OtherMode _ text => raise (ValueError (UnsupportedMode text))
         end in
       (* Clean up *)
       let* present :=
         gets (fun s => bool_decide (is_Some (active_collaborations s !! task_id task))) in
       let* _ :=
         if (present : bool)
         then modify (fun s =>
                set_active_collaborations (delete (task_id task) (active_collaborations s)) s)
         else ret tt in
       let* _ := log_event "collaboration_completed" (task_id task) in
       ret result
     end)
    (fun e =>
       let* _ := log_error e "start_collaboration" (task_id task) in
       raise e).

(** [get_active_collaborations]: a copy of the dictionary. *)
Definition get_active_collaborations (s : Coordinator) : gmap string CollaborationTask :=
  active_collaborations s.

(* ===================================================================== *)
(** ** [agent_domain.py]: the collaboration business rules                *)
(* ===================================================================== *)

Module AgentDomain.

Inductive AgentCapability :=
| QUESTION_ANSWERING
| CODE_GENERATION
| METHODOLOGY_ANALYSIS
| IMPLEMENTATION_GUIDE
| MULTI_AGENT_COLLABORATION.

Definition capability_value (c : AgentCapability) : string :=
  match c with
  | QUESTION_ANSWERING => "question_answering"
  | CODE_GENERATION => "code_generation"
  | METHODOLOGY_ANALYSIS => "methodology_analysis"
  | IMPLEMENTATION_GUIDE => "implementation_guide"
  | MULTI_AGENT_COLLABORATION => "multi_agent_collaboration"
  end.

(** The module's own [CollaborationMode] enum. *)
Inductive CollaborationMode := SEQUENTIAL | PARALLEL | DEBATE | CONSENSUS.

Definition mode_value (m : CollaborationMode) : string :=
  match m with
  | SEQUENTIAL => "sequential"
  | PARALLEL => "parallel"
  | DEBATE => "debate"
  | CONSENSUS => "consensus"
  end.

(** [@dataclass AgentDomainModel]; the database row it is built from has
    the same attributes, so [_to_domain_model] is the identity on them. *)
Record AgentDomainModel := {
  id : string;
  paper_id : string;
  agent_type : string;
  model_name : string;
  specialization : option string;
  status : string;
  conversation_count : Z;
  response_time_avg : option float;
  user_rating_avg : option float;
  capabilities : option (list string)
}.

Definition _to_domain_model (agent : AgentDomainModel) : AgentDomainModel :=
  {| id := id agent; paper_id := paper_id agent; agent_type := agent_type agent;
     model_name := model_name agent; specialization := specialization agent;
     status := status agent; conversation_count := conversation_count agent;
     response_time_avg := response_time_avg agent;
     user_rating_avg := user_rating_avg agent; capabilities := capabilities agent |}.

Definition is_active (a : AgentDomainModel) : bool := String.eqb (status a) "active".

Definition is_experienced (a : AgentDomainModel) : bool := (10 <=? conversation_count a)%Z.

Definition has_capability (a : AgentDomainModel) (capability : AgentCapability) : bool :=
  existsb (String.eqb (capability_value capability)) (default [] (capabilities a)).

Definition is_suitable_for_collaboration (a : AgentDomainModel) : bool :=
  is_active a && is_experienced a && has_capability a MULTI_AGENT_COLLABORATION.

(** The payload of the ["agent.collaboration_started"] event. *)
Record CollaborationStarted := {
  ev_collaboration_id : string;
  ev_agent_ids : list string;
  ev_task : string;
  ev_mode : string
}.

(** The dictionary [orchestrate_collaboration] returns. *)
Record Initiated := {
  collaboration_id : string;
  participating_agents : list string;
  collaboration_mode : string;
  task : string;
  status_ : string
}.

(** The validation loop: every id must resolve in the repository to an
    agent suitable for collaboration. *)
Fixpoint validate_agents (repository : gmap string AgentDomainModel)
    (agent_ids : list string) (agents : list AgentDomainModel)
  : result (list AgentDomainModel) :=
  match agent_ids with
  | [] => Ok agents
  | agent_id :: rest =>
    match repository !! agent_id with
    | None => Raise (ValueError (AgentNotFound agent_id))
    | Some agent =>
      let domain_agent := _to_domain_model agent in
      if is_suitable_for_collaboration domain_agent
      then validate_agents repository rest (agents ++ [domain_agent])%list
      else Raise (ValueError (AgentNotSuitable agent_id))
    end
  end.

(** [orchestrate_collaboration]. [now] is the formatted current time,
    [bus] the events published so far. No agent is ever queried here: the
    method only validates and announces. *)
Definition orchestrate_collaboration (repository : gmap string AgentDomainModel)
    (now : string) (agent_ids : list string) (task : string) (mode : CollaborationMode)
    (bus : list CollaborationStarted) : result Initiated * list CollaborationStarted :=
  match validate_agents repository agent_ids [] with
  | Raise e => (Raise e, bus)
  | Ok agents =>
    (* Business rule: Minimum 2 agents for collaboration *)
    if (length agents <? 2)%nat then (Raise (ValueError AtLeastTwoAgents), bus)
    (* Business rule: Maximum 5 agents to avoid complexity *)
    else if (5 <? length agents)%nat then (Raise (ValueError MaximumFiveAgents), bus)
    else
      let collaboration_id := "collab_" ++ now in
      (Ok {| collaboration_id := collaboration_id;
             participating_agents := agent_ids;
             collaboration_mode := mode_value mode;
             task := task;
             status_ := "initiated" |},
       (bus ++ [{| ev_collaboration_id := collaboration_id; ev_agent_ids := agent_ids;
                   ev_task := task; ev_mode := mode_value mode |}])%list)
  end.

End AgentDomain.

(* ===================================================================== *)
(** ** [agent_coordinator.py] (ai-service): the registration path         *)
(* ===================================================================== *)

Module AgentCoordinator.

(** The keys of [paper_data] the registration reads. *)
Record PaperData := {
  pd_id : option string;
  pd_title : option string;
  pd_abstract : option string
}.

Record PaperContext := {
  paper_id : string;
  title : string;
  abstract : string
}.

Record PaperAgent := {
  paper_context : PaperContext;
  model_name : string
}.

(** [PaperAgentFactory.create_agent]. *)
Definition create_agent (paper_data : PaperData) : PaperAgent :=
  {| paper_context := {| paper_id := default "" (pd_id paper_data);
                         title := default "" (pd_title paper_data);
                         abstract := default "" (pd_abstract paper_data) |};
     model_name := "gpt-3.5-turbo" |}.

Record State := {
  active_agents : gmap string PaperAgent;
  agent_relationships : gmap string (gset string);
  infos : list string;
  errors : list exn
}.

(** [AgentCoordinator.register_agent]. *)
Definition register_agent (paper_data : PaperData) (s : State) : result string * State :=
  match pd_id paper_data with
  | None =>
    (Raise (KeyError "id"),
     {| active_agents := active_agents s; agent_relationships := agent_relationships s;
        infos := infos s; errors := errors s ++ [KeyError "id"] |})
  | Some paper_id =>
    if bool_decide (is_Some (active_agents s !! paper_id)) then
      (Ok paper_id,
       {| active_agents := active_agents s; agent_relationships := agent_relationships s;
          infos := infos s ++ ["Agent " ++ paper_id ++ " already registered"];
          errors := errors s |})
    else
      let agent := create_agent paper_data in
      (Ok paper_id,
       {| active_agents := <[paper_id := agent]> (active_agents s);
          agent_relationships := <[paper_id := ∅]> (agent_relationships s);
          infos := infos s ++ ["Registered agent for paper: " ++ paper_id];
          errors := errors s |})
  end.

End AgentCoordinator.
(* ===================================================================== *)
(** ** The specification's formulas                                       *)
(* ===================================================================== *)

(** The definitions of this module follow the words of the specification
    (sections 4.2 to 4.4), on the numbers of the standard library alone;
    the theorems compare them with the functions of the source. The
    specification writes a sum and [^2] and leaves their rounding open: the
    formulas take them as parameters, [total] and [square], for which
    [left_to_right] and [rounded_square] are the plain readings. *)
Module Spec.

(** A character is a code point. In the UTF-8 text of a string the bytes
    from 128 to 191 continue a character; every other byte begins one. *)
Definition begins_character (b : ascii) : bool :=
  (N_of_ascii b <? 128)%N || (192 <=? N_of_ascii b)%N.

(** The length of a text in characters. *)
Definition character_count (s : string) : nat :=
  length (List.filter begins_character (list_ascii_of_string s)).

(** "character lengths of the responses". *)
Definition character_lengths (responses : list AgentResponse) : list nat :=
  map (fun r => character_count (content r)) responses.

(** The number of bytes before the character of index [n], or the number
    of all bytes when the text has [n] characters or fewer. *)
Fixpoint character_offset (n : nat) (bytes : list ascii) : nat :=
  match bytes with
  | [] => 0
  | b :: rest =>
    if begins_character b then
      match n with
      | O => 0
      | S n => S (character_offset n rest)
      end
    else S (character_offset n rest)
  end.

(** "first-100-characters", for 100. *)
Definition first_characters (n : nat) (s : string) : string :=
  substring 0 (character_offset n (list_ascii_of_string s)) s.

(** A count as a float; exact below 2^53. *)
Definition of_count (n : nat) : float := PrimFloat.of_uint63 (Uint63.of_Z (Z.of_nat n)).

(** The sum of floats, added one after the other. *)
Definition left_to_right (xs : list float) : float := fold_left PrimFloat.add xs 0%float.

(** The square, rounded to the nearest float. *)
Definition rounded_square (x : float) : float := PrimFloat.mul x x.

(** "average confidence". *)
Definition average_confidence (total : list float -> float) (confidences : list float)
  : float :=
  PrimFloat.div (total confidences) (of_count (length confidences)).

(** "count of distinct first-100-characters". *)
Definition distinct_prefixes (contents : list string) : list string :=
  remove_dups (map (first_characters 100) contents).

(** "diversity = (count of distinct first-100-characters) / (count of
    responses)". *)
Definition diversity (contents : list string) : float :=
  PrimFloat.div (of_count (length (distinct_prefixes contents)))
                (of_count (length contents)).

(** [min(1, x)], read as "x, capped at 1". *)
Definition capped_at_one (x : float) : float :=
  if PrimFloat.ltb 1%float x then 1%float else x.


(** "weighted combination of average confidence (weight 0.6) and
    response-content diversity (weight 0.4)". *)
Definition collaborationQuality (total : list float -> float)
    (responses : list AgentResponse) : float :=
  capped_at_one
    (PrimFloat.add
       (PrimFloat.mul 0.6%float (average_confidence total (map confidence responses)))
       (PrimFloat.mul 0.4%float (diversity (map content responses)))).

(** Mean and variance of the character lengths of a round. *)
Definition mean_length (lengths : list nat) : float :=
  PrimFloat.div (of_count (fold_right Nat.add 0%nat lengths)) (of_count (length lengths)).

(** The deviations of the lengths from their mean. *)
Definition deviations (lengths : list nat) : list float :=
  map (fun l => PrimFloat.sub (of_count l) (mean_length lengths)) lengths.

Definition variance (total : list float -> float) (square : float -> float)
    (lengths : list nat) : float :=
  PrimFloat.div (total (map square (deviations lengths))) (of_count (length lengths)).



(** The mean response length of a round as an exact rational. *)
Definition exact_mean_length (responses : list AgentResponse) : Q :=
  Qdiv (inject_Z (Z.of_nat (fold_right Nat.add 0%nat (character_lengths responses))))
       (inject_Z (Z.of_nat (length responses))).

(** "true iff both rounds are non-empty and the relative change in mean
    response length is below a 10% threshold", in exact arithmetic. The
    relative change is undefined, hence not below the threshold, when the
    previous mean is zero. *)
Definition hasConverged (currentRound previousRound : list AgentResponse) : bool :=
  match currentRound, previousRound with
  | [], _ | _, [] => false
  | _, _ =>
    let current := exact_mean_length currentRound in
    let previous := exact_mean_length previousRound in
    negb (Qeq_bool previous 0)
    && negb (Qle_bool (1 # 10) (Qdiv (Qabs (Qminus current previous)) previous))
  end.

End Spec.

(* ===================================================================== *)
(** ** Stages of [start_collaboration]                                    *)
(* ===================================================================== *)

(** The coordinator once the task is recorded, the registry check has
    passed, the mode has given its [value] and ["collaboration_started"] is
    logged. *)
Definition started (task : CollaborationTask) (s : Coordinator) : Coordinator :=
  add_log (LogEvent "collaboration_started" (task_id task)) (enter_collaboration task s).

(** The routing step. *)
Definition route (task : CollaborationTask) : M CollaborationResult :=
  match mode task with
  | SEQUENTIAL => _sequential_collaboration task
  | PARALLEL => _parallel_collaboration task
  | DEBATE => _debate_collaboration task
  | CONSENSUS => _consensus_collaboration task
  | OtherMode _ text => raise (ValueError (UnsupportedMode text))
  end.

(** The clean-up after a protocol has returned. *)
Definition completed (task : CollaborationTask) (s : Coordinator) : Coordinator :=
  add_log (LogEvent "collaboration_completed" (task_id task))
    (if bool_decide (is_Some (active_collaborations s !! task_id task))
     then set_active_collaborations (delete (task_id task) (active_collaborations s)) s
     else s).

(** The [except] clause after a protocol has raised. *)
Definition failed (task : CollaborationTask) (e : exn) (s : Coordinator) : Coordinator :=
  add_log (LogError e "start_collaboration" (task_id task)) s.

(* ===================================================================== *)
(** ** The parallel fan-out, seen from outside                            *)
(* ===================================================================== *)

(** The registered participants of a list of ids, with their handles. *)
Definition agent_tasks_of (s : Coordinator) (ids : list string) : list (string * PaperAgent) :=
  omap (fun id => pair id <$> active_agents s !! id) ids.

(** What each participant's query does when the fan-out starts in [s]. *)
Definition parallel_runs (task : CollaborationTask) (s : Coordinator)
  : list (string * QueryRun) :=
  map (fun t => (fst t, process_query (snd t) (calls s) (query task)
                          (CtxParallel (length (agents task)))))
      (agent_tasks_of s (agents task)).

(** A participant is successful when its query returns instead of raising. *)
Definition returned (run : string * QueryRun) : bool :=
  match outcome (snd run) with
  | Returns _ => true
  | Raises _ => false
  end.

Definition successful_ids (task : CollaborationTask) (s : Coordinator) : list string :=
  map fst (List.filter returned (parallel_runs task s)).

(** The instant at which the gather completes. *)
Definition gathered_at (task : CollaborationTask) (s : Coordinator) : Z :=
  (clock s + fold_right Z.max 0 (map (fun run => duration (snd run)) (parallel_runs task s)))%Z.

Definition response_of (now : Z) (id : string) (d : ResponseDict) : AgentResponse :=
  {| agent_id := id;
     content := default "" (get_content d);
     confidence := default 0.8%float (get_confidence_score d);
     metadata := default [] (get_metadata d);
     timestamp := now |}.

(** The responses built from the outcomes that are not exceptions. *)
Definition responses_at (now : Z) (data : list (string * Outcome)) : list AgentResponse :=
  omap (fun item => match snd item with
                    | Returns d => Some (response_of now (fst item) d)
                    | Raises _ => None
                    end) data.

Definition parallel_responses (task : CollaborationTask) (s : Coordinator)
  : list AgentResponse :=
  responses_at (gathered_at task s)
               (map (fun run => (fst run, outcome (snd run))) (parallel_runs task s)).

(** The same task under another timeout. *)
Definition with_timeout (t : Z) (task : CollaborationTask) : CollaborationTask :=
  {| task_id := task_id task; task_type := task_type task; query := query task;
     agents := agents task; mode := mode task; max_iterations := max_iterations task;
     timeout := t |}.

(* ===================================================================== *)
(** ** Test doubles and scenarios                                         *)
(* ===================================================================== *)

Module Scenarios.

(** An agent that always answers [c] with confidence [conf] after [d]
    seconds. *)
Definition replies (c : string) (conf : float) (d : Z) : PaperAgent :=
  {| process_query := fun _ _ _ =>
       {| duration := d;
          outcome := Returns {| get_content := Some c;
                                get_confidence_score := Some conf;
                                get_metadata := None |} |} |}.

(** An agent whose query always raises after [d] seconds. *)
Definition fails (detail : string) (d : Z) : PaperAgent :=
  {| process_query := fun _ _ _ =>
       {| duration := d; outcome := Raises (AgentFailure detail) |} |}.

(** An agent whose answer has no ["content"]. *)
Definition speechless (d : Z) : PaperAgent :=
  {| process_query := fun _ _ _ =>
       {| duration := d;
          outcome := Returns {| get_content := None;
                                get_confidence_score := Some 0.5%float;
                                get_metadata := None |} |} |}.

(** An agent that answers [first] in the initial round and [later] in
    every following round. *)
Definition replies_by_round (first later : string) : PaperAgent :=
  {| process_query := fun _ _ ctx =>
       {| duration := 1;
          outcome := Returns {| get_content :=
                                  Some (match ctx with
                                        | CtxDebate _ _ | CtxConsensus _ _ _ => later
                                        | _ => first
                                        end);
                                get_confidence_score := None;
                                get_metadata := None |} |} |}.

(** The square, rounded to the nearest float. *)
Definition rounded_square (x : float) : float := PrimFloat.mul x x.

(** A platform that sums from left to right, as CPython does up to 3.11,
    and rounds every square correctly. *)
Definition plain_platform : Platform :=
  {| float_sum := sum_float; float_pow2 := rounded_square |}.

Definition idle : Coordinator :=
  {| active_agents := ∅; active_collaborations := ∅; calls := []; clock := 0; log := [];
     platform := plain_platform |}.

Definition coordinator_with (registry : list (string * PaperAgent)) : Coordinator :=
  set_active_agents (list_to_map registry) idle.

Definition task_for (ids : list string) (m : CollaborationMode)
    (max_iterations timeout : Z) : CollaborationTask :=
  {| task_id := "task-1"; task_type := "compare_architectures";
     query := "Compare approach X"; agents := ids; mode := m;
     max_iterations := max_iterations; timeout := timeout |}.

(** Three participants, the second of which fails. *)
Definition one_failing : Coordinator :=
  coordinator_with [("p1", replies "A" 0.9 1); ("p2", fails "boom" 1);
                    ("p3", replies "C" 0.7 1)].

(** Two participants, the second of which answers without ["content"]. *)
Definition one_speechless : Coordinator :=
  coordinator_with [("p1", replies "A" 0.9 1); ("p2", speechless 1)].

(** Two participants that need ten seconds per answer. *)
Definition two_slow : Coordinator :=
  coordinator_with [("p1", replies "A" 0.9 10); ("p2", replies "B" 0.7 10)].

Definition eleven_ids : list string :=
  ["a01"; "a02"; "a03"; "a04"; "a05"; "a06"; "a07"; "a08"; "a09"; "a10"; "a11"].

Definition eleven_agents : Coordinator :=
  coordinator_with (map (fun id => (id, replies ("answer of " ++ id) 0.9 1)) eleven_ids).

(** A repository with one agent that is suitable for collaboration. *)
Definition repository : gmap string AgentDomain.AgentDomainModel :=
  {[ "a1" := {| AgentDomain.id := "a1"; AgentDomain.paper_id := "paper-1";
                AgentDomain.agent_type := "collaboration";
                AgentDomain.model_name := "gpt-4";
                AgentDomain.specialization := Some "coordinator";
                AgentDomain.status := "active";
                AgentDomain.conversation_count := 12;
                AgentDomain.response_time_avg := None;
                AgentDomain.user_rating_avg := None;
                AgentDomain.capabilities :=
                  Some ["multi_agent_collaboration"; "question_answering"] |} ]}.

Definition paper (id title : string) : AgentCoordinator.PaperData :=
  {| AgentCoordinator.pd_id := Some id; AgentCoordinator.pd_title := Some title;
     AgentCoordinator.pd_abstract := None |}.

(** The ai-service coordinator after registering paper ["p1"]. *)
Definition one_paper : AgentCoordinator.State :=
  snd (AgentCoordinator.register_agent (paper "p1" "old title")
         {| AgentCoordinator.active_agents := ∅;
            AgentCoordinator.agent_relationships := ∅;
            AgentCoordinator.infos := []; AgentCoordinator.errors := [] |}).

(** Three debaters: answers of lengths 3, 3, 4 in the first round and of
    lengths 4, 4, 3 afterwards. *)
Definition debaters : Coordinator :=
  coordinator_with [("p1", replies_by_round "aaa" "bbbb");
                    ("p2", replies_by_round "aaa" "bbbb");
                    ("p3", replies_by_round "aaaa" "bbb")].

Definition round_of (answers : list (string * string)) : list AgentResponse :=
  map (fun a => {| agent_id := fst a; content := snd a; confidence := 0.8;
                   metadata := []; timestamp := 0 |}) answers.

Definition first_round : list AgentResponse :=
  round_of [("p1", "aaa"); ("p2", "aaa"); ("p3", "aaaa")].

Definition second_round : list AgentResponse :=
  round_of [("p1", "bbbb"); ("p2", "bbbb"); ("p3", "bbb")].

Definition silent_round : list AgentResponse :=
  round_of [("p1", ""); ("p2", ""); ("p3", "")].

(** Thirty-four bullets: 34 characters, 102 bytes. *)
Definition bullets : string :=
  "••••••••••••••••••••••••••••••••••".


(** Two participants whose answers have the same length. *)
Definition two_agree : Coordinator :=
  coordinator_with [("p1", replies "alpha" 0.8 0); ("p2", replies "gamma" 0.8 0)].

(** Two participants whose queries both raise. *)
Definition all_failing : Coordinator :=
  coordinator_with [("p1", fails "e1" 1); ("p2", fails "e2" 1)].

(** Two debaters that say nothing in the first round. *)
Definition late_talkers : Coordinator :=
  coordinator_with [("p1", replies_by_round "" "bbbb"); ("p2", replies_by_round "" "bbbb")].

End Scenarios.

Definition result_to_option {A} (r : result A) : option A :=
  match r with Ok a => Some a | Raise _ => None end.



(* ===================================================================== *)
(** ** Observing the calls of a round                                     *)
(* ===================================================================== *)

(** What one pass over the participants leaves in the list of calls. *)
Definition round_trace (ids : list string) (accumulated : list AgentResponse)
    (s : Coordinator) (run : result (list AgentResponse) * Coordinator)
    (shape : Call -> Prop) : Prop :=
  exists cs,
    calls (snd run) = (calls s ++ cs)%list
    /\ (exists k, map callee cs = take k ids)
    /\ Forall shape cs
    /\ (forall rs, fst run = Ok rs ->
          map callee cs = ids /\ map agent_id rs = (map agent_id accumulated ++ ids)%list).


(** A result record to read through when a run has raised. *)
Definition no_result : CollaborationResult :=
  {| res_task_id := ""; res_mode := ""; synthesized_response := "";
     individual_responses := ∅; collaboration_quality := 0; consensus_score := 0;
     total_iterations := 0; participating_agents := []; debate_rounds := None;
     key_agreements := None; key_disagreements := None; consensus_achieved := None |}.

Definition result_of (run : result CollaborationResult * Coordinator) : CollaborationResult :=
  match fst run with
  | Ok r => r
  | Raise _ => no_result
  end.

(** Further situations used to illustrate the properties of the code. *)
Module Cases.

(** A fast participant and one that needs ten seconds. *)
Definition one_slow : Coordinator :=
  Scenarios.coordinator_with
    [("p1", Scenarios.replies "A" 0.9 1); ("p2", Scenarios.replies "B" 0.7 10)].

(** What the three debaters of [Scenarios.debaters] end with. *)
Definition debate_result : CollaborationResult :=
  result_of (start_collaboration (Scenarios.task_for ["p1"; "p2"; "p3"] DEBATE 3 300)
                                 Scenarios.debaters).

(** Two participants whose answers keep very different lengths. *)
Definition never_agreeing : Coordinator :=
  Scenarios.coordinator_with
    [("p1", Scenarios.replies "a" 0.9 1);
     ("p2", Scenarios.replies "a much, much longer answer than the other one" 0.7 1)].

Definition consensus_result : CollaborationResult :=
  result_of (start_collaboration (Scenarios.task_for ["p1"; "p2"] CONSENSUS 3 300)
                                 never_agreeing).

End Cases.

(* ===================================================================== *)
(** ** [agent_domain.py]: the rest of [AgentDomainService]                *)
(* ===================================================================== *)

(** [d.get(key, fallback)] on a dict literal. *)
Fixpoint dict_get {V} (d : list (string * V)) (key : string) (fallback : V) : V :=
  match d with
  | [] => fallback
  | (k, v) :: rest => if String.eqb k key then v else dict_get rest key fallback
  end.

Module AgentDomainService.
Import AgentDomain.

(** [AgentDomainModel.get_performance_rating]. [not rating] holds for
    [None] and for a rating equal to zero. *)
Definition get_performance_rating (a : AgentDomainModel) : string :=
  match user_rating_avg a with
  | None => "unrated"
  | Some rating =>
    if PrimFloat.eqb rating 0%float then "unrated"
    else if PrimFloat.leb 4.5%float rating then "excellent"
    else if PrimFloat.leb 4.0%float rating then "good"
    else if PrimFloat.leb 3.0%float rating then "average"
    else "needs_improvement"
  end.

Definition _get_valid_specializations (agent_type : string) : list string :=
  dict_get
    [("interactive", ["general"; "beginner_friendly"; "expert_level"]);
     ("implementation", ["pytorch"; "tensorflow"; "huggingface"; "general"]);
     ("analysis", ["methodology"; "impact"; "comparison"; "trends"]);
     ("collaboration", ["coordinator"; "synthesizer"; "facilitator"])]
    agent_type ["general"].

Definition _get_capabilities_for_type (agent_type : string) : list string :=
  dict_get
    [("interactive", [capability_value QUESTION_ANSWERING;
                      capability_value METHODOLOGY_ANALYSIS]);
     ("implementation", [capability_value CODE_GENERATION;
                         capability_value IMPLEMENTATION_GUIDE]);
     ("analysis", [capability_value METHODOLOGY_ANALYSIS]);
     ("collaboration", [capability_value MULTI_AGENT_COLLABORATION;
                        capability_value QUESTION_ANSWERING])]
    agent_type [capability_value QUESTION_ANSWERING].

(** The table of agents, by primary key. *)
Abbreviation Repository := (gmap string AgentDomainModel).

(** [AgentRepository.find_by_paper_and_type]: some row of that paper and
    type, if there is one. *)
Definition find_by_paper_and_type (repository : Repository)
    (paper agent_ty : string) : option AgentDomainModel :=
  head (filter (fun a => paper_id a = paper /\ agent_type a = agent_ty)
               (map snd (map_to_list repository))).

(** What the service raises: three [ValueError]s, and the database's error
    for a primary key that is taken. *)
Inductive DomainError :=
| AgentTypeExists (agent_ty : string)
| InvalidSpecialization (spec agent_ty : string)
| AgentNotFound
| IntegrityError.

(** The keys of [agent_data]. *)
Record AgentData := {
  data_paper_id : string;
  data_agent_type : string;
  data_model_name : string;
  data_specialization : string;
  data_capabilities : list string;
  data_status : string
}.

(** [SQLAlchemyRepository.create] on the agents table. [new_id] is the
    primary key the column default draws; the columns [agent_data] does not
    set take their defaults. *)
Definition create (repository : Repository) (new_id : string) (agent_data : AgentData)
  : option (AgentDomainModel * Repository) :=
  match repository !! new_id with
  | Some _ => None
  | None =>
    let entity :=
      {| id := new_id; paper_id := data_paper_id agent_data;
         agent_type := data_agent_type agent_data;
         model_name := data_model_name agent_data;
         specialization := Some (data_specialization agent_data);
         status := data_status agent_data;
         conversation_count := 0;
         response_time_avg := None;
         user_rating_avg := None;
         capabilities := Some (data_capabilities agent_data) |} in
    Some (entity, <[new_id := entity]> repository)
  end.

(** The payload of the ["agent.created"] event. *)
Record AgentCreated := {
  created_agent_id : string;
  created_paper_id : string;
  created_agent_type : string
}.

(** [create_specialized_agent]; [bus] holds the ["agent.created"] events
    published so far. The result is the error raised or the agent returned,
    with the repository and the bus as the call leaves them. *)
Definition create_specialized_agent (repository : Repository) (new_id : string)
    (paper agent_ty spec model : string) (bus : list AgentCreated)
  : (DomainError + AgentDomainModel) * Repository * list AgentCreated :=
  (* Business rule: One agent per type per paper *)
  let existing := find_by_paper_and_type repository paper agent_ty in
  if bool_decide (is_Some existing)
  then (inl (AgentTypeExists agent_ty), repository, bus)
  else
    (* Business rule: Validate specialization matches agent type *)
    let valid_specializations := _get_valid_specializations agent_ty in
    if negb (bool_decide (spec ∈ valid_specializations))
    then (inl (InvalidSpecialization spec agent_ty), repository, bus)
    else
      let capabilities := _get_capabilities_for_type agent_ty in
      let agent_data :=
        {| data_paper_id := paper; data_agent_type := agent_ty;
           data_model_name := model; data_specialization := spec;
           data_capabilities := capabilities; data_status := "initializing" |} in
      match create repository new_id agent_data with
      | None => (inl IntegrityError, repository, bus)
      | Some (agent, repository') =>
        (inr (_to_domain_model agent), repository',
         (bus ++ [{| created_agent_id := id agent; created_paper_id := paper;
                     created_agent_type := agent_ty |}])%list)
      end.

(** A row of the conversations table, as far as the metrics read it. *)
Record AgentConversation := {
  response_time : option float;
  user_rating : option Z
}.

(** The dictionary [get_performance_metrics] returns. *)
Record Metrics := {
  total_queries : Z;
  successful_queries : Z;
  failed_queries : Z;
  average_response_time : float;
  average_user_rating : float;
  user_satisfaction_rate : option float
}.

Definition truthy_float (x : option float) : option float :=
  match x with
  | Some v => if PrimFloat.eqb v 0%float then None else Some v
  | None => None
  end.

Definition truthy_int (n : option Z) : option Z :=
  match n with
  | Some v => if (v =? 0)%Z then None else Some v
  | None => None
  end.

(** [ConversationRepository.get_performance_metrics], from the rows
    [conversations] that the query for the agent and the period selects.
    The divisors are at least 1; the counts and sums stay in the range where
    [float_of_int] is the conversion Python makes; the response times are
    added from left to right. *)
Definition get_performance_metrics (conversations : list AgentConversation) : Metrics :=
  let total_queries := len conversations in
  let successful_queries :=
    len (filter (fun c => is_Some (response_time c)) conversations) in
  let failed_queries := (total_queries - successful_queries)%Z in
  let avg_response_time :=
    PrimFloat.div (sum_float (omap (fun c => truthy_float (response_time c)) conversations))
                  (float_of_int (Z.max successful_queries 1)) in
  let rated := omap (fun c => truthy_int (user_rating c)) conversations in
  let avg_rating :=
    PrimFloat.div (float_of_int (sum_int rated)) (float_of_int (Z.max (len rated) 1)) in
  {| total_queries := total_queries;
     successful_queries := successful_queries;
     failed_queries := failed_queries;
     average_response_time := avg_response_time;
     average_user_rating := avg_rating;
     user_satisfaction_rate :=
       if PrimFloat.eqb avg_rating 0%float then None
       else Some (PrimFloat.div avg_rating 5.0%float) |}.

Definition optimize_response_time : string :=
  "Optimize response time - consider model fine-tuning".
Definition improve_response_quality : string :=
  "Improve response quality - review training data".
Definition gain_more_experience : string :=
  "Gain more experience through user interactions".
Definition reduce_error_rate : string :=
  "Reduce error rate - improve error handling".

(** [_generate_improvement_recommendations]. The metrics dictionary has all
    its keys, so the defaults of [metrics.get] are not used. *)
Definition _generate_improvement_recommendations (agent : AgentDomainModel)
    (metrics : Metrics) : list string :=
  let recommendations := [] in
  let recommendations :=
    if PrimFloat.ltb 5.0%float (average_response_time metrics)
    then (recommendations ++ [optimize_response_time])%list else recommendations in
  let recommendations :=
    if PrimFloat.ltb (average_user_rating metrics) 3.5%float
    then (recommendations ++ [improve_response_quality])%list else recommendations in
  let recommendations :=
    if negb (is_experienced agent)
    then (recommendations ++ [gain_more_experience])%list else recommendations in
  let recommendations :=
    if PrimFloat.ltb (PrimFloat.mul (float_of_int (successful_queries metrics)) 0.1%float)
                     (float_of_int (failed_queries metrics))
    then (recommendations ++ [reduce_error_rate])%list else recommendations in
  recommendations.

(** The dictionary [evaluate_agent_performance] returns. *)
Record Evaluation := {
  eval_agent_id : string;
  performance_rating : string;
  experience_level : string;
  metrics : Metrics;
  recommendations : list string;
  is_collaboration_ready : bool
}.

(** [evaluate_agent_performance]; [conversations] are the agent's rows of
    the last 30 days. *)
Definition evaluate_agent_performance (repository : Repository)
    (conversations : list AgentConversation) (agent_id : string)
  : DomainError + Evaluation :=
  match repository !! agent_id with
  | None => inl AgentNotFound
  | Some agent =>
    let domain_agent := _to_domain_model agent in
    let metrics := get_performance_metrics conversations in
    let performance_rating := get_performance_rating domain_agent in
    let experience_level :=
      if is_experienced domain_agent then "experienced" else "novice" in
    let recommendations := _generate_improvement_recommendations domain_agent metrics in
    inr {| eval_agent_id := agent_id;
           performance_rating := performance_rating;
           experience_level := experience_level;
           metrics := metrics;
           recommendations := recommendations;
           is_collaboration_ready := is_suitable_for_collaboration domain_agent |}
  end.

Module Cases.

(** The agent of [Scenarios.repository]. *)
Definition coordinating_agent : AgentDomainModel :=
  {| id := "a1"; paper_id := "paper-1"; agent_type := "collaboration";
     model_name := "gpt-4"; specialization := Some "coordinator";
     status := "active"; conversation_count := 12;
     response_time_avg := None; user_rating_avg := None;
     capabilities := Some ["multi_agent_collaboration"; "question_answering"] |}.

(** Two answered conversations and a failed one, none of them rated. *)
Definition answered_unrated : list AgentConversation :=
  [{| response_time := Some 1.5%float; user_rating := None |};
   {| response_time := Some 7.25%float; user_rating := Some 0%Z |};
   {| response_time := None; user_rating := None |}].

Definition no_evaluation : Evaluation :=
  {| eval_agent_id := ""; performance_rating := ""; experience_level := "";
     metrics := get_performance_metrics []; recommendations := [];
     is_collaboration_ready := false |}.

Definition evaluation : Evaluation :=
  match evaluate_agent_performance Scenarios.repository answered_unrated "a1" with
  | inr ev => ev
  | inl _ => no_evaluation
  end.

End Cases.

(** The business rule of [create_specialized_agent], as a property of the
    table: no two rows share paper and type. *)
Definition one_agent_per_type (repository : Repository) : Prop :=
  forall i j a b,
    repository !! i = Some a -> repository !! j = Some b ->
    paper_id a = paper_id b -> agent_type a = agent_type b -> i = j.

End AgentDomainService.

(* ===================================================================== *)
(** ** [agent_coordinator.py]: conversations between paper agents         *)
(* ===================================================================== *)

(** A triple-quoted f-string whose lines all carry the indentation of the
    method body: a newline, the lines, and the indentation before the
    closing quotes. *)
Definition text_block (indent : string) (lines : list string) : string :=
  nl ++ String.concat "" (map (fun l => indent ++ l ++ nl) lines) ++ indent.

Module Conversations.

Inductive ConversationType := COMPARISON | SYNTHESIS | DEBATE | COLLABORATION.

Definition conversation_type_value (t : ConversationType) : string :=
  match t with
  | COMPARISON => "comparison"
  | SYNTHESIS => "synthesis"
  | DEBATE => "debate"
  | COLLABORATION => "collaboration"
  end.

(** The fields of [PaperContext] that the coordinator reads. *)
Record PaperContext := {
  paper_id : string;
  title : string;
  authors : list string
}.

Inductive BaseMessage :=
| HumanMessage (text : string)
| AIMessage (text : string).

(** One entry of the trace of queries made so far. *)
Record Asked := {
  asked_agent : string;
  asked_question : string
}.

(** What [agent_executor.invoke] does with a question: it gives a result
    with an ["output"], or something in the [try] block raises; either way
    after some seconds. *)
Inductive Invoked :=
| Output (output : string)
| Fails (error : string).

Record Invocation := {
  seconds : Z;
  invoked : Invoked
}.

(** A paper agent: its context, its conversation history, and its
    executor, which may depend on everything asked so far. *)
Record PaperAgent := {
  paper_context : PaperContext;
  conversation_history : list BaseMessage;
  agent_executor : list Asked -> list BaseMessage -> string -> Invocation
}.

(** The dictionary [PaperAgent.query] returns. *)
Record QueryResult := {
  response : string;
  result_paper_id : string;
  result_paper_title : option string;
  result_error : option string
}.

(** What the coordinator raises here: two [ValueError]s and the [KeyError]
    of a dictionary access. *)
Inductive Error :=
| AgentsNotFound (missing_agents : list string)
| ConversationNotFound (id : string)
| KeyError (key : string).

(** The lines of [logger.error]: three of the coordinator, and the one of
    [PaperAgent.query]. Both modules write to the same log. *)
Inductive ErrorLine :=
| FailedToStart (e : Error)
| FailedToSend (e : Error)
| FailedToRespond (agent : string) (e : string)
| QueryFailed (e : string).       (* f"Paper agent query failed: {e}" *)

(** What a call writes to the log with [logger.info] and with
    [logger.error]. *)
Record Logged := {
  info_lines : list string;
  error_lines : list ErrorLine
}.

Definition set_conversation_history (history : list BaseMessage) (agent : PaperAgent)
  : PaperAgent :=
  {| paper_context := paper_context agent;
     conversation_history := history;
     agent_executor := agent_executor agent |}.

(** The answer of [PaperAgent.query] when its [try] block has raised. *)
Definition apology (e : string) : string :=
  "I encountered an error while processing your question: " ++ e.

(** [PaperAgent.query]: the exception it could raise (left), or the
    dictionary it returns, with the agent after the call and with what the
    call has logged. Both branches of its [try] return. *)
Definition query (agent : PaperAgent) (trace : list Asked) (question : string)
  : (string + QueryResult) * PaperAgent * Logged :=
  let info := "Paper agent query: " ++ question in
  match invoked (agent_executor agent trace (conversation_history agent) question) with
  | Output output =>
    (* Update conversation history *)
    let history :=
      (conversation_history agent ++ [HumanMessage question; AIMessage output])%list in
    (* Keep history manageable *)
    let history := if (20 <? length history)%nat then last_n 20 history else history in
    (inr {| response := output;
            result_paper_id := paper_id (paper_context agent);
            result_paper_title := Some (title (paper_context agent));
            result_error := None |},
     set_conversation_history history agent,
     {| info_lines := [info]; error_lines := [] |})
  | Fails e =>
    (inr {| response := apology e;
            result_paper_id := paper_id (paper_context agent);
            result_paper_title := None;
            result_error := Some e |},
     agent,
     {| info_lines := [info]; error_lines := [QueryFailed e] |})
  end.

(** An entry of [conversation.messages]; [agent_id] is present in the
    messages of type ["agent"]. *)
Record Message := {
  type_ : string;
  agent_id : option string;
  content : string;
  timestamp : Z
}.

Record AgentConversation := {
  conversation_id : string;
  conversation_type : ConversationType;
  participating_agents : list string;
  topic : string;
  messages : list Message;
  status : string
}.

(** [AgentCoordinator] with its three dictionaries; then the trace of the
    queries made, the time of the event loop, and the log. *)
Record Coordinator := {
  active_agents : gmap string PaperAgent;
  conversations : gmap string AgentConversation;
  agent_relationships : gmap string (gset string);
  queries : list Asked;
  loop_time : Z;
  infos : list string;
  errors : list ErrorLine
}.

Definition set_active_agents (f : gmap string PaperAgent -> gmap string PaperAgent)
    (s : Coordinator) : Coordinator :=
  {| active_agents := f (active_agents s); conversations := conversations s;
     agent_relationships := agent_relationships s; queries := queries s;
     loop_time := loop_time s; infos := infos s; errors := errors s |}.

Definition set_conversations
    (f : gmap string AgentConversation -> gmap string AgentConversation)
    (s : Coordinator) : Coordinator :=
  {| active_agents := active_agents s; conversations := f (conversations s);
     agent_relationships := agent_relationships s; queries := queries s;
     loop_time := loop_time s; infos := infos s; errors := errors s |}.

Definition set_agent_relationships
    (f : gmap string (gset string) -> gmap string (gset string))
    (s : Coordinator) : Coordinator :=
  {| active_agents := active_agents s; conversations := conversations s;
     agent_relationships := f (agent_relationships s); queries := queries s;
     loop_time := loop_time s; infos := infos s; errors := errors s |}.

Definition log_info (line : string) (s : Coordinator) : Coordinator :=
  {| active_agents := active_agents s; conversations := conversations s;
     agent_relationships := agent_relationships s; queries := queries s;
     loop_time := loop_time s; infos := (infos s ++ [line])%list; errors := errors s |}.

Definition log_error (line : ErrorLine) (s : Coordinator) : Coordinator :=
  {| active_agents := active_agents s; conversations := conversations s;
     agent_relationships := agent_relationships s; queries := queries s;
     loop_time := loop_time s; infos := infos s; errors := (errors s ++ [line])%list |}.

(** The state after awaiting a query of [paper] that took [took] seconds,
    left the agent as [agent] and wrote [written] to the log. *)
Definition queried (paper question : string) (agent : PaperAgent) (took : Z)
    (written : Logged) (s : Coordinator) : Coordinator :=
  {| active_agents := <[paper := agent]> (active_agents s);
     conversations := conversations s;
     agent_relationships := agent_relationships s;
     queries := (queries s ++ [{| asked_agent := paper; asked_question := question |}])%list;
     loop_time := (loop_time s + took)%Z;
     infos := (infos s ++ info_lines written)%list;
     errors := (errors s ++ error_lines written)%list |}.

Definition set_messages (ms : list Message) (c : AgentConversation) : AgentConversation :=
  {| conversation_id := conversation_id c; conversation_type := conversation_type c;
     participating_agents := participating_agents c; topic := topic c;
     messages := ms; status := status c |}.

Definition set_status (st : string) (c : AgentConversation) : AgentConversation :=
  {| conversation_id := conversation_id c; conversation_type := conversation_type c;
     participating_agents := participating_agents c; topic := topic c;
     messages := messages c; status := st |}.

(** [conversation.messages.append(...)] on the conversation object stored
    under [ref]. *)
Definition append_message (ref : string) (m : Message) (s : Coordinator) : Coordinator :=
  set_conversations (alter (fun c => set_messages (messages c ++ [m])%list c) ref) s.

Definition system_message (text : string) (s : Coordinator) : Message :=
  {| type_ := "system"; agent_id := None; content := text; timestamp := loop_time s |}.

Definition user_message_of (text : string) (s : Coordinator) : Message :=
  {| type_ := "user"; agent_id := None; content := text; timestamp := loop_time s |}.

Definition agent_message (paper text : string) (s : Coordinator) : Message :=
  {| type_ := "agent"; agent_id := Some paper; content := text; timestamp := loop_time s |}.

(** The loop of [_start_comparison_conversation] over the participants. *)
Fixpoint paper_titles (participants : list string) (s : Coordinator)
  : Error + list string :=
  match participants with
  | [] => inr []
  | paper :: rest =>
    match active_agents s !! paper with
    | None => inl (KeyError paper)
    | Some agent =>
      match paper_titles rest s with
      | inl e => inl e
      | inr titles => inr ((paper ++ ": " ++ title (paper_context agent)) :: titles)
      end
    end
  end.

Definition comparison_prompt (topic : string) (titles : list string) : string :=
  text_block "        "
    ["Let's compare these research papers on the topic: " ++ topic;
     "";
     "Papers to compare:";
     String.concat nl titles;
     "";
     "Each agent should:";
     "1. Briefly describe your paper's approach to " ++ topic;
     "2. Highlight your key contributions";
     "3. Identify similarities and differences with other papers";
     "";
     "Let's start with the first paper."].

Definition synthesis_prompt (topic : string) : string :=
  text_block "        "
    ["Let's synthesize knowledge about: " ++ topic;
     "";
     "Each agent should contribute their paper's insights to build a comprehensive understanding.";
     "Focus on:";
     "1. Complementary approaches and methods";
     "2. Combined insights and findings";
     "3. Unified perspective on the topic";
     "4. Future research directions";
     "";
     "Work together to create a synthesis of knowledge."].

Definition debate_prompt (topic : string) : string :=
  text_block "        "
    ["Let's have a scholarly debate about: " ++ topic;
     "";
     "Each agent should:";
     "1. Present your paper's position/approach";
     "2. Argue for the strengths of your method";
     "3. Respectfully challenge other approaches";
     "4. Respond to critiques with evidence";
     "";
     "Keep the debate constructive and evidence-based."].

Definition collaboration_prompt (topic : string) : string :=
  text_block "        "
    ["Let's collaborate on understanding: " ++ topic;
     "";
     "Each agent can:";
     "1. Share relevant insights from your paper";
     "2. Ask questions about other papers";
     "3. Build on each other's contributions";
     "4. Explore connections between papers";
     "";
     "Work together to provide comprehensive insights."].

(** [_initialize_conversation] with the four [_start_*_conversation]
    methods, on the conversation object stored under [ref]. *)
Definition _initialize_conversation (ref : string) (conversation : AgentConversation)
    (s : Coordinator) : (Error + unit) * Coordinator :=
  match conversation_type conversation with
  | COMPARISON =>
    match paper_titles (participating_agents conversation) s with
    | inl e => (inl e, s)
    | inr titles =>
      (inr tt,
       append_message ref (system_message (comparison_prompt (topic conversation) titles) s) s)
    end
  | SYNTHESIS =>
    (inr tt, append_message ref (system_message (synthesis_prompt (topic conversation)) s) s)
  | DEBATE =>
    (inr tt, append_message ref (system_message (debate_prompt (topic conversation)) s) s)
  | COLLABORATION =>
    (inr tt,
     append_message ref (system_message (collaboration_prompt (topic conversation)) s) s)
  end.

Definition new_conversation_id (topic : string) (s : Coordinator) : string :=
  "conv_" ++ str_of_nat (size (conversations s)) ++ "_" ++ str_prefix 20 topic.

(** [start_conversation]. *)
Definition start_conversation (paper_ids : list string) (topic : string)
    (conversation_type : ConversationType) (s : Coordinator)
  : (Error + string) * Coordinator :=
  (* Validate agents exist *)
  let missing_agents := filter (fun pid => active_agents s !! pid = None) paper_ids in
  match missing_agents with
  | _ :: _ =>
    (inl (AgentsNotFound missing_agents),
     log_error (FailedToStart (AgentsNotFound missing_agents)) s)
  | [] =>
    (* Create conversation *)
    let conversation_id := new_conversation_id topic s in
    let conversation :=
      {| conversation_id := conversation_id; conversation_type := conversation_type;
         participating_agents := paper_ids; topic := topic; messages := [];
         status := "active" |} in
    let s := set_conversations (insert conversation_id conversation) s in
    (* Initialize conversation *)
    match _initialize_conversation conversation_id conversation s with
    | (inl e, s) => (inl e, log_error (FailedToStart e) s)
    | (inr _, s) =>
      (inr conversation_id,
       log_info ("Started " ++ conversation_type_value conversation_type
                 ++ " conversation: " ++ conversation_id) s)
    end
  end.

(** An entry of the list of responses: what an agent answered, or, in
    [_handle_user_message], that its query raised. *)
Inductive AgentReply :=
| Responded (agent paper_title answer : string)
| Errored (agent error : string).

Definition replying_agent (r : AgentReply) : string :=
  match r with
  | Responded agent _ _ => agent
  | Errored agent _ => agent
  end.

(** The dictionaries the two handlers return. *)
Record UserMessageResult := {
  um_conversation_id : string;
  user_message : string;
  agent_responses : list AgentReply;
  um_conversation_type : string
}.

Record AgentMessageResult := {
  am_conversation_id : string;
  sender_agent_id : string;
  sender_paper_title : string;
  message : string;
  responses : list AgentReply
}.

Inductive SendResult :=
| UserMessageHandled (r : UserMessageResult)
| AgentMessageHandled (r : AgentMessageResult).

Definition user_context_prompt (topic message paper_title : string) : string :=
  text_block "            "
    ["In our multi-agent conversation about '" ++ topic ++ "', ";
     "a user asked: " ++ message;
     "";
     "Please respond from the perspective of your paper: " ++ paper_title;
     "Consider the ongoing conversation context."].

Definition agent_context_prompt (topic sender_title message paper_title : string) : string :=
  text_block "            "
    ["In our conversation about '" ++ topic ++ "', ";
     "the paper '" ++ sender_title ++ "' said:";
     "";
     message;
     "";
     "Please respond from the perspective of your paper: " ++ paper_title].

(** The loop of [_handle_user_message] over the participants still to be
    asked. *)
Fixpoint user_message_loop (ref : string) (conversation : AgentConversation)
    (message : string) (participants : list string) (responses : list AgentReply)
    (s : Coordinator) : (Error + list AgentReply) * Coordinator :=
  match participants with
  | [] => (inr responses, s)
  | paper :: rest =>
    match active_agents s !! paper with
    | None => (inl (KeyError paper), s)
    | Some agent =>
      (* Create context-aware prompt *)
      let context_prompt :=
        user_context_prompt (topic conversation) message (title (paper_context agent)) in
      let took :=
        seconds (agent_executor agent (queries s) (conversation_history agent)
                                context_prompt) in
      let '(outcome, agent', written) := query agent (queries s) context_prompt in
      let s := queried paper context_prompt agent' took written s in
      match outcome with
      | inr response_ =>
        let responses :=
          (responses ++ [Responded paper (title (paper_context agent))
                                   (response response_)])%list in
        (* Add agent response to conversation *)
        let s := append_message ref (agent_message paper (response response_) s) s in
        user_message_loop ref conversation message rest responses s
      | inl e =>
        let s := log_error (FailedToRespond paper e) s in
        let responses := (responses ++ [Errored paper e])%list in
        user_message_loop ref conversation message rest responses s
      end
    end
  end.

(** [_handle_user_message], on the conversation object stored under
    [ref]. *)
Definition _handle_user_message (ref : string) (conversation : AgentConversation)
    (message : string) (s : Coordinator) : (Error + UserMessageResult) * Coordinator :=
  (* Add user message to conversation *)
  let s := append_message ref (user_message_of message s) s in
  (* Get responses from all participating agents *)
  match user_message_loop ref conversation message
          (participating_agents conversation) [] s with
  | (inl e, s) => (inl e, s)
  | (inr responses, s) =>
    (inr {| um_conversation_id := conversation_id conversation;
            user_message := message;
            agent_responses := responses;
            um_conversation_type :=
              conversation_type_value (conversation_type conversation) |}, s)
  end.

(** The loop of [_handle_agent_message] over the other agents. *)
Fixpoint agent_message_loop (ref : string) (conversation : AgentConversation)
    (message : string) (sender_agent : PaperAgent) (other_agents : list string)
    (responses : list AgentReply) (s : Coordinator)
  : (Error + list AgentReply) * Coordinator :=
  match other_agents with
  | [] => (inr responses, s)
  | paper :: rest =>
    match active_agents s !! paper with
    | None => (inl (KeyError paper), s)
    | Some agent =>
      let context_prompt :=
        agent_context_prompt (topic conversation) (title (paper_context sender_agent))
                             message (title (paper_context agent)) in
      let took :=
        seconds (agent_executor agent (queries s) (conversation_history agent)
                                context_prompt) in
      let '(outcome, agent', written) := query agent (queries s) context_prompt in
      let s := queried paper context_prompt agent' took written s in
      match outcome with
      | inr response_ =>
        let responses :=
          (responses ++ [Responded paper (title (paper_context agent))
                                   (response response_)])%list in
        (* Add response to conversation *)
        let s := append_message ref (agent_message paper (response response_) s) s in
        agent_message_loop ref conversation message sender_agent rest responses s
      | inl e =>
        let s := log_error (FailedToRespond paper e) s in
        agent_message_loop ref conversation message sender_agent rest responses s
      end
    end
  end.

(** [_handle_agent_message]. *)
Definition _handle_agent_message (ref : string) (conversation : AgentConversation)
    (message sender_id : string) (s : Coordinator)
  : (Error + AgentMessageResult) * Coordinator :=
  match active_agents s !! sender_id with
  | None => (inl (KeyError sender_id), s)
  | Some sender_agent =>
    (* Add sender message to conversation *)
    let s := append_message ref (agent_message sender_id message s) s in
    (* Get responses from other agents *)
    let other_agents :=
      filter (fun pid => pid <> sender_id) (participating_agents conversation) in
    match agent_message_loop ref conversation message sender_agent other_agents [] s with
    | (inl e, s) => (inl e, s)
    | (inr responses, s) =>
      (inr {| am_conversation_id := conversation_id conversation;
              sender_agent_id := sender_id;
              sender_paper_title := title (paper_context sender_agent);
              message := message;
              responses := responses |}, s)
    end
  end.

(** [_handle_broadcast_message]. *)
Definition _handle_broadcast_message (ref : string) (conversation : AgentConversation)
    (message : string) (s : Coordinator) : (Error + UserMessageResult) * Coordinator :=
  _handle_user_message ref conversation message s.

(** The [except] of [send_message_to_conversation]: log and raise again. *)
Definition to_send_result {A} (wrap : A -> SendResult)
    (run : (Error + A) * Coordinator) : (Error + SendResult) * Coordinator :=
  match run with
  | (inl e, s) => (inl e, log_error (FailedToSend e) s)
  | (inr r, s) => (inr (wrap r), s)
  end.

(** [send_message_to_conversation]; [sender_id] is [None] by default. *)
Definition send_message_to_conversation (conversation_id : string) (message : string)
    (sender_id : option string) (s : Coordinator) : (Error + SendResult) * Coordinator :=
  match conversations s !! conversation_id with
  | None =>
    (inl (ConversationNotFound conversation_id),
     log_error (FailedToSend (ConversationNotFound conversation_id)) s)
  | Some conversation =>
    match sender_id with
    | Some sender =>
      if String.eqb sender "user" then
        (* User message to all agents *)
        to_send_result UserMessageHandled
          (_handle_user_message conversation_id conversation message s)
      else if bool_decide (sender ∈ participating_agents conversation) then
        (* Agent-to-agent message *)
        to_send_result AgentMessageHandled
          (_handle_agent_message conversation_id conversation message sender s)
      else
        (* Broadcast to all agents *)
        to_send_result UserMessageHandled
          (_handle_broadcast_message conversation_id conversation message s)
    | None =>
      to_send_result UserMessageHandled
        (_handle_broadcast_message conversation_id conversation message s)
    end
  end.

Record PaperInfo := {
  info_paper_id : string;
  info_title : string;
  info_authors : list string
}.

(** The dictionary [get_conversation_summary] returns. *)
Record Summary := {
  summary_conversation_id : string;
  summary_topic : string;
  summary_type : string;
  summary_status : string;
  participating_papers : list PaperInfo;
  message_count : Z;
  summary_messages : list Message
}.

(** [get_conversation_summary]. *)
Definition get_conversation_summary (conversation_id : string) (s : Coordinator)
  : Error + Summary :=
  match conversations s !! conversation_id with
  | None => inl (ConversationNotFound conversation_id)
  | Some conversation =>
    (* Get participating paper titles *)
    let paper_info :=
      omap (fun paper =>
              match active_agents s !! paper with
              | Some agent =>
                Some {| info_paper_id := paper;
                        info_title := title (paper_context agent);
                        info_authors := authors (paper_context agent) |}
              | None => None
              end)
           (participating_agents conversation) in
    inr {| summary_conversation_id := conversation_id;
           summary_topic := topic conversation;
           summary_type := conversation_type_value (conversation_type conversation);
           summary_status := status conversation;
           participating_papers := paper_info;
           message_count := len (messages conversation);
           summary_messages := last_n 10 (messages conversation) |}
  end.

(** [shutdown_conversation]. *)
Definition shutdown_conversation (conversation_id : string) (s : Coordinator)
  : Coordinator :=
  match conversations s !! conversation_id with
  | Some _ =>
    log_info ("Conversation " ++ conversation_id ++ " completed")
      (set_conversations (alter (set_status "completed") conversation_id) s)
  | None => s
  end.

(** [remove_agent]. *)
Definition remove_agent (paper : string) (s : Coordinator) : Coordinator :=
  match active_agents s !! paper with
  | Some _ =>
    log_info ("Removed agent: " ++ paper)
      (set_agent_relationships (delete paper) (set_active_agents (delete paper) s))
  | None => s
  end.

(** The conversations are numbered: every key is made of ["conv_"], a
    number below the number of conversations, ["_"] and some text, as
    [start_conversation] makes them. *)
Definition numbered (s : Coordinator) : Prop :=
  forall key, is_Some (conversations s !! key) ->
    exists n text, (n < size (conversations s))%nat
                   /\ key = "conv_" ++ str_of_nat n ++ "_" ++ text.

(** Vocabulary for the statements below. *)
Definition all_registered (papers : list string) (s : Coordinator) : Prop :=
  Forall (fun paper => is_Some (active_agents s !! paper)) papers.

Definition every_agent (P : PaperAgent -> Prop) (s : Coordinator) : Prop :=
  forall paper agent, active_agents s !! paper = Some agent -> P agent.

Definition is_answer (r : AgentReply) : Prop :=
  match r with
  | Responded _ _ _ => True
  | Errored _ _ => False
  end.

Definition answer_of (r : AgentReply) : string :=
  match r with
  | Responded _ _ answer => answer
  | Errored _ error => error
  end.

(** The messages of the conversation stored under [ref]. *)
Definition messages_at (ref : string) (s : Coordinator) : list Message :=
  match conversations s !! ref with
  | Some c => messages c
  | None => []
  end.

(** [ms] appended to the messages of the conversation stored under [ref]. *)
Definition appended (ref : string) (ms : list Message)
    (m : gmap string AgentConversation) : gmap string AgentConversation :=
  alter (fun c => set_messages (messages c ++ ms)%list c) ref m.

(** The line [PaperAgent.query] writes with [logger.info] for a query. *)
Definition query_info (q : Asked) : string := "Paper agent query: " ++ asked_question q.

(** [s'] comes from [s] by the queries [qs], of which those that failed
    with [failures] were logged by [PaperAgent.query], and the messages [ms]
    added to the conversation under [ref]: nothing else has changed, no
    agent has come or gone, and the log has the lines of the queries and no
    others. *)
Record follows (ref : string) (s s' : Coordinator)
    (qs : list Asked) (ms : list Message) (failures : list string) : Prop := {
  follows_queries : queries s' = (queries s ++ qs)%list;
  follows_conversations : conversations s' = appended ref ms (conversations s);
  follows_agents :
    forall paper, is_Some (active_agents s' !! paper) <-> is_Some (active_agents s !! paper);
  follows_relationships : agent_relationships s' = agent_relationships s;
  follows_infos : infos s' = (infos s ++ map query_info qs)%list;
  follows_errors : errors s' = (errors s ++ map QueryFailed failures)%list
}.

(** The queries made between two states. *)
Definition asked_since (s s' : Coordinator) : list Asked :=
  drop (length (queries s)) (queries s').

Module Cases.

Definition answers (text : string) : list Asked -> list BaseMessage -> string -> Invocation :=
  fun _ _ _ => {| seconds := 1; invoked := Output text |}.

Definition breaks (error : string) : list Asked -> list BaseMessage -> string -> Invocation :=
  fun _ _ _ => {| seconds := 1; invoked := Fails error |}.

Definition agent_of (paper paper_title : string)
    (executor : list Asked -> list BaseMessage -> string -> Invocation) : PaperAgent :=
  {| paper_context := {| paper_id := paper; title := paper_title; authors := ["A. Author"] |};
     conversation_history := [];
     agent_executor := executor |}.

(** Three registered papers; the agent of the second one fails on every
    question. *)
Definition three_papers : Coordinator :=
  {| active_agents :=
       {[ "p1" := agent_of "p1" "Attention" (answers "use attention");
          "p2" := agent_of "p2" "Convolution" (breaks "rate limit");
          "p3" := agent_of "p3" "Recurrence" (answers "use recurrence") ]};
     conversations := ∅;
     agent_relationships := {[ "p1" := ∅; "p2" := ∅; "p3" := ∅ ]};
     queries := []; loop_time := 0; infos := []; errors := [] |}.

(** ... and after a conversation of the three has been started. *)
Definition talking : Coordinator :=
  snd (start_conversation ["p1"; "p2"; "p3"] "sequence models" COMPARISON three_papers).

Definition talking_id : string := "conv_0_sequence models".

Definition no_conversation : AgentConversation :=
  {| conversation_id := ""; conversation_type := COLLABORATION; participating_agents := [];
     topic := ""; messages := []; status := "" |}.

(** The conversation of [talking]. *)
Definition talk : AgentConversation :=
  match conversations talking !! talking_id with
  | Some c => c
  | None => no_conversation
  end.

End Cases.

End Conversations.

(* ===================================================================== *)
(** ** [agent_factory.py]: the factory in front of the coordinator        *)
(* ===================================================================== *)

(** Whether the coordinator knows an agent id. *)
Definition known_to_coordinator (agent_id : string) (s : Coordinator) : Prop :=
  is_Some (active_agents s !! agent_id).

Module AgentFactory.

(** The values found in configurations and paper data. *)
Inductive Value :=
| Str (s : string)
| Int (n : Z)
| Strs (l : list string).

Abbreviation Config := (gmap string Value).

(** The settings the factory reads; their defaults are those of
    [core/config.py]. *)
Record Settings := {
  default_agent_model : string;
  max_agent_memory : Z;
  agent_timeout : Z
}.

Definition default_settings : Settings :=
  {| default_agent_model := "gpt-3.5-turbo"; max_agent_memory := 10; agent_timeout := 30 |}.

(** What [PaperAgent.__init__] stores. *)
Record Agent := {
  agent_id : string;
  paper_data : Config;
  config : Config;
  capabilities : Value;
  model_name : Value;
  specialization : option Value
}.

(** [PaperAgent(agent_id, paper_data, config)]. *)
Definition new_agent (agent_id : string) (paper_data config : Config) : Agent :=
  {| agent_id := agent_id; paper_data := paper_data; config := config;
     capabilities := default (Strs []) (config !! "capabilities");
     model_name := default (Str "gpt-3.5-turbo") (config !! "model_name");
     specialization := config !! "specialization" |}.

(** What the factory raises: the [ValueError] of [create_specialized_agent]
    and the [TypeError] of a dictionary access with a list as key. *)
Inductive FactoryError :=
| UnknownSpecialization (specialization : string)
| UnhashableKey.

Inductive Logged :=
| Event (event : string) (subject : string)
| Failure (e : FactoryError) (operation : string) (subject : string).

Record Factory := {
  active_agents : gmap string Agent;
  coordinator : Coordinator;
  logged : list Logged
}.

Definition set_active_agents (agents : gmap string Agent) (f : Factory) : Factory :=
  {| active_agents := agents; coordinator := coordinator f; logged := logged f |}.

Definition set_coordinator (c : Coordinator) (f : Factory) : Factory :=
  {| active_agents := active_agents f; coordinator := c; logged := logged f |}.

Definition add_logged (l : Logged) (f : Factory) : Factory :=
  {| active_agents := active_agents f; coordinator := coordinator f;
     logged := (logged f ++ [l])%list |}.

(** [_get_default_capabilities]. The key comes out of a configuration: a
    string is looked up, a number is not found, a list cannot be a key. *)
Definition _get_default_capabilities (agent_type : Value) : FactoryError + list string :=
  match agent_type with
  | Str agent_type =>
    inr (dict_get
           [("interactive", ["question_answering"; "explanation"; "discussion";
                             "clarification"]);
            ("implementation", ["code_generation"; "tutorial_creation"; "debugging";
                                "framework_guidance"; "best_practices"]);
            ("analysis", ["methodology_analysis"; "technical_explanation"; "comparison";
                          "evaluation"; "critique"]);
            ("collaboration", ["multi_agent_coordination"; "consensus_building";
                               "synthesis"; "mediation"])]
           agent_type ["general_assistance"])
  | Int _ => inr ["general_assistance"]
  | Strs _ => inl UnhashableKey
  end.

(** [if agent_config:] holds for a dictionary that is not empty. *)
Definition given (agent_config : option Config) : option Config :=
  match agent_config with
  | Some cfg => if bool_decide (cfg = ∅) then None else Some cfg
  | None => None
  end.

Section WithAgents.

(** What [process_query] of the agent built from these three arguments
    does, as the coordinator sees it. *)
Variable process_query_of : string -> Config -> Config -> PaperAgent.
Variable settings : Settings.

(** [create_paper_agent]. *)
Definition create_paper_agent (agent_id : string) (paper_data : Config)
    (agent_config : option Config) (f : Factory) : (FactoryError + Agent) * Factory :=
  let agent_type :=
    match given agent_config with
    | Some cfg => default (Str "interactive") (cfg !! "agent_type")
    | None => Str "interactive"
    end in
  match _get_default_capabilities agent_type with
  | inl e => (inl e, add_logged (Failure e "create_paper_agent" agent_id) f)
  | inr capabilities =>
    (* Default configuration *)
    let default_config : Config :=
      {[ "model_name" := Str (default_agent_model settings);
         "memory_size" := Int (max_agent_memory settings);
         "timeout" := Int (agent_timeout settings);
         "capabilities" := Strs capabilities ]} in
    (* Merge with provided config *)
    let default_config :=
      match given agent_config with
      | Some cfg => cfg ∪ default_config
      | None => default_config
      end in
    (* Create agent *)
    let agent := new_agent agent_id paper_data default_config in
    (* Store agent *)
    let f := set_active_agents (<[agent_id := agent]> (active_agents f)) f in
    (* Register with coordinator *)
    let f :=
      set_coordinator
        (snd (register_agent agent_id (process_query_of agent_id paper_data default_config)
                             (coordinator f))) f in
    (inr agent, add_logged (Event "agent_created" agent_id) f)
  end.

(** [remove_agent]. *)
Definition remove_agent (agent_id : string) (f : Factory) : bool * Factory :=
  match active_agents f !! agent_id with
  | Some _ =>
    (* Unregister from coordinator *)
    let f := set_coordinator (snd (unregister_agent agent_id (coordinator f))) f in
    (* Remove from active agents *)
    let f := set_active_agents (delete agent_id (active_agents f)) f in
    (true, add_logged (Event "agent_removed" agent_id) f)
  | None => (false, f)
  end.

Definition specialized_configs : list (string * Config) :=
  [("implementation_guide",
    {[ "agent_type" := Str "implementation";
       "capabilities" := Strs ["code_generation"; "tutorial_creation"; "debugging";
                               "framework_guidance"];
       "specialization" := Str "implementation_guide";
       "model_name" := Str "gpt-4" ]});
   ("methodology_expert",
    {[ "agent_type" := Str "analysis";
       "capabilities" := Strs ["methodology_analysis"; "technical_explanation";
                               "comparison"; "evaluation"];
       "specialization" := Str "methodology_expert";
       "model_name" := Str "gpt-4" ]});
   ("research_assistant",
    {[ "agent_type" := Str "interactive";
       "capabilities" := Strs ["question_answering"; "explanation"; "discussion";
                               "research_guidance"];
       "specialization" := Str "research_assistant";
       "model_name" := Str "gpt-3.5-turbo" ]});
   ("code_reviewer",
    {[ "agent_type" := Str "implementation";
       "capabilities" := Strs ["code_review"; "optimization_suggestions";
                               "best_practices"; "debugging"];
       "specialization" := Str "code_reviewer";
       "model_name" := Str "gpt-4" ]})].

(** [create_specialized_agent]. *)
Definition create_specialized_agent (agent_id : string) (paper_data : Config)
    (specialization : string) (f : Factory) : (FactoryError + Agent) * Factory :=
  let config : Config := dict_get specialized_configs specialization ∅ in
  if bool_decide (config = ∅)
  then (inl (UnknownSpecialization specialization), f)
  else create_paper_agent agent_id paper_data (Some config) f.

Definition agent_types : list string := ["interactive"; "analysis"; "implementation"].

(** The loop of [create_multi_agent_network], at index [i] of the
    enumeration. *)
Fixpoint network_loop (network_id : string) (network_config : option Config)
    (i : nat) (paper_ids : list string) (agent_ids : list string) (f : Factory)
  : (FactoryError + list string) * Factory :=
  match paper_ids with
  | [] => (inr agent_ids, f)
  | paper_id :: rest =>
    (* Create different types of agents for diversity *)
    let agent_type := nth (i mod length agent_types) agent_types "" in
    let agent_id := network_id ++ "_agent_" ++ str_of_nat i in
    let paper_data : Config :=
      {[ "id" := Str paper_id; "title" := Str ("Paper " ++ paper_id) ]} in
    let config : Config :=
      {[ "agent_type" := Str agent_type;
         "network_id" := Str network_id;
         "network_role" := Str ("specialist_" ++ agent_type) ]} in
    let config :=
      match given network_config with
      | Some cfg => cfg ∪ config
      | None => config
      end in
    match create_paper_agent agent_id paper_data (Some config) f with
    | (inl e, f) => (inl e, f)
    | (inr _, f) =>
      network_loop network_id network_config (S i) rest (agent_ids ++ [agent_id])%list f
    end
  end.

(** [create_multi_agent_network]. *)
Definition create_multi_agent_network (network_id : string) (paper_ids : list string)
    (network_config : option Config) (f : Factory)
  : (FactoryError + list string) * Factory :=
  match network_loop network_id network_config 0 paper_ids [] f with
  | (inl e, f) => (inl e, f)
  | (inr agent_ids, f) =>
    (inr agent_ids, add_logged (Event "multi_agent_network_created" network_id) f)
  end.

End WithAgents.

(** The ids [create_multi_agent_network] gives to the agents of a network
    of [n] papers. *)
Definition network_agent_ids (network_id : string) (n : nat) : list string :=
  map (fun i => network_id ++ "_agent_" ++ str_of_nat i) (seq 0 n).

(** Every agent of the factory is known to its coordinator. *)
Definition in_step (f : Factory) : Prop :=
  forall agent_id, is_Some (active_agents f !! agent_id) ->
                   known_to_coordinator agent_id (coordinator f).

Module Cases.

Definition silent : string -> Config -> Config -> PaperAgent :=
  fun agent_id _ _ => Scenarios.replies ("answer of " ++ agent_id) 0.8 1.

Definition empty_factory : Factory :=
  {| active_agents := ∅; coordinator := Scenarios.idle; logged := [] |}.

End Cases.

End AgentFactory.

(* ===================================================================== *)
(** ** [paper_agent.py]: the conversation memory of a backend agent       *)
(* ===================================================================== *)

(** [l[start:]] for any integer [start]. *)
Definition slice_from {A} (start : Z) (l : list A) : list A :=
  if (start <? 0)%Z then drop (Z.to_nat (Z.max 0 (len l + start))) l
  else drop (Z.to_nat start) l.

Module PaperAgentMemory.

(** An entry of [memory.conversation_history], as far as its type and
    content. *)
Record HistoryEntry := {
  entry_type : string;
  entry_content : string
}.

(** The keys of a response that the coordinator reads. *)
Record Response := {
  content : string;
  response_type : string;
  confidence_score : float
}.

(** How far the [try] block of [process_query] gets. The update of the
    preferences may raise before anything is recorded; the classification
    or the handler may raise after the query has been recorded; or the
    handler returns its dictionary, after which building the final response
    may still raise. *)
Inductive Attempt :=
| ContextFails
| HandlerFails
| HandlerReturns (response : Response) (final_fails : bool).

(** The dictionary of the [except] branch. *)
Definition error_response : Response :=
  {| content :=
       "I apologize, but I encountered an error processing your query. Please try again.";
     response_type := "error";
     confidence_score := 0%float |}.

Definition user_entry (query : string) : HistoryEntry :=
  {| entry_type := "user"; entry_content := query |}.

Definition agent_entry (response : Response) : HistoryEntry :=
  {| entry_type := "agent"; entry_content := content response |}.

(** The history once a query and its answer have been added. *)
Definition recorded (history : list HistoryEntry) (query : string) (response : Response)
  : list HistoryEntry :=
  (history ++ [user_entry query; agent_entry response])%list.

(** [process_query] on the conversation history: the dictionary returned
    and the history afterwards. A [memory_size] that is not a number makes
    the comparison raise. *)
Definition process_query (config : AgentFactory.Config) (history : list HistoryEntry)
    (query : string) (attempt : Attempt) : Response * list HistoryEntry :=
  match attempt with
  | ContextFails => (error_response, history)
  | HandlerFails =>
    (* Add query to conversation history *)
    (error_response, (history ++ [user_entry query])%list)
  | HandlerReturns response final_fails =>
    (* Add response to conversation history *)
    let history := (history ++ [user_entry query; agent_entry response])%list in
    (* Trim conversation history if too long *)
    match default (AgentFactory.Int 10) (config !! "memory_size") with
    | AgentFactory.Int max_history =>
      let history :=
        if (max_history * 2 <? len history)%Z
        then slice_from (- (max_history * 2)) history
        else history in
      if final_fails then (error_response, history) else (response, history)
    | _ => (error_response, history)
    end
  end.

End PaperAgentMemory.
Open Scope list_scope.

(* ===================================================================== *)
(** ** Basic facts about the monad                                        *)
(* ===================================================================== *)

(** [c] leaves the observation [f] of the coordinator unchanged, whether it
    returns or raises. *)
Definition preserves {A B} (f : Coordinator -> B) (c : M A) : Prop :=
  forall s, f (snd (c s)) = f s.

Lemma preserves_ret {A B} (f : Coordinator -> B) (a : A) : preserves f (ret a).
Proof. intros s. reflexivity. Qed.

Lemma preserves_raise {A B} (f : Coordinator -> B) (e : exn) : preserves f (@raise A e).
Proof. intros s. reflexivity. Qed.

Lemma preserves_lift {A B} (f : Coordinator -> B) (r : result A) : preserves f (lift r).
Proof. intros s. reflexivity. Qed.

Lemma preserves_gets {A B} (f : Coordinator -> B) (g : Coordinator -> A) : preserves f (gets g).
Proof. intros s. reflexivity. Qed.

Lemma preserves_bind {A B C} (f : Coordinator -> C) (c : M A) (k : A -> M B) :
  preserves f c -> (forall a, preserves f (k a)) -> preserves f (bind c k).
Proof.
  intros Hc Hk s. unfold bind.
  specialize (Hc s). destruct (c s) as [[a|e] s1]; simpl in *.
  - rewrite Hk. exact Hc.
  - exact Hc.
Qed.

Lemma preserves_try_except {A C} (f : Coordinator -> C) (c : M A) (h : exn -> M A) :
  preserves f c -> (forall e, preserves f (h e)) -> preserves f (try_except c h).
Proof.
  intros Hc Hh s. unfold try_except.
  specialize (Hc s). destruct (c s) as [[a|e] s1]; simpl in *.
  - exact Hc.
  - rewrite Hh. exact Hc.
Qed.

Lemma preserves_modify {B} (f : Coordinator -> B) (g : Coordinator -> Coordinator) :
  (forall s, f (g s) = f s) -> preserves f (modify g).
Proof. intros Hg s. apply Hg. Qed.

Create HintDb keeps.

Section Collaborations.

(** Nothing the protocols do touches [active_collaborations]. *)
Local Abbreviation keeps := (preserves active_collaborations).

Lemma keeps_log_event ev subj : keeps (log_event ev subj).
Proof. intros s. reflexivity. Qed.

Lemma keeps_log_error e op subj : keeps (log_error e op subj).
Proof. intros s. reflexivity. Qed.

Lemma keeps_lookup_agent id : keeps (lookup_agent id).
Proof. intros s. unfold lookup_agent. destruct (active_agents s !! id); reflexivity. Qed.

Lemma keeps_await id a q ctx : keeps (await_process_query id a q ctx).
Proof.
  intros s. unfold await_process_query.
  destruct (outcome (process_query a (calls s) q ctx)); reflexivity.
Qed.

Lemma keeps_make_agent_response id d : keeps (make_agent_response id d).
Proof. intros s. unfold make_agent_response. destruct (get_content d); reflexivity. Qed.

Lemma keeps_gather ts q ctx t : keeps (gather_wait_for ts q ctx t).
Proof.
  intros s. unfold gather_wait_for. destruct ts as [|t0 ts]; [reflexivity|].
  destruct (t <=? 0)%Z; [reflexivity|].
  match goal with |- context [if ?b then _ else _] => destruct b end; reflexivity.
Qed.

Hint Resolve preserves_ret preserves_raise preserves_lift preserves_gets
     keeps_log_event keeps_log_error keeps_lookup_agent keeps_await
     keeps_make_agent_response keeps_gather : keeps.

(** One step through a monadic body. *)
Ltac keeps_step :=
  first
    [ apply preserves_bind; [ | intros ? ]
    | apply preserves_try_except; [ | intros ? ]
    | solve [ auto with keeps ]
    | match goal with
      | |- preserves _ (match ?x with _ => _ end) => destruct x
      end ].

Lemma keeps_sequential_loop task ids : forall i responses current_context,
  keeps (sequential_loop task ids i responses current_context).
Proof.
  induction ids as [|id ids IH]; intros; simpl.
  - auto with keeps.
  - repeat keeps_step.
Qed.

Lemma keeps_sequential task : keeps (_sequential_collaboration task).
Proof.
  unfold _sequential_collaboration.
  apply preserves_bind; [apply keeps_sequential_loop | intros ?].
  repeat keeps_step.
Qed.

Lemma keeps_create_agent_tasks ids : keeps (create_agent_tasks ids).
Proof.
  induction ids as [|id ids IH]; simpl.
  - auto with keeps.
  - apply preserves_bind; [auto with keeps | intros ?].
    apply preserves_bind; [exact IH | intros ?]. auto with keeps.
Qed.

Lemma keeps_process_responses data : forall responses,
  keeps (process_responses data responses).
Proof.
  induction data as [|[id [d|e]] data IH]; intros; simpl.
  - auto with keeps.
  - apply preserves_bind; [auto with keeps | intros ?]. apply IH.
  - apply preserves_bind; [auto with keeps | intros ?]. apply IH.
Qed.

Lemma keeps_parallel task : keeps (_parallel_collaboration task).
Proof.
  unfold _parallel_collaboration.
  apply preserves_bind; [apply keeps_create_agent_tasks | intros ?].
  apply preserves_bind.
  { apply preserves_try_except; [auto with keeps | intros []; auto with keeps]. }
  intros ?. apply preserves_bind; [apply keeps_process_responses | intros ?].
  repeat keeps_step.
Qed.

Lemma keeps_debate_initial_round task ids : forall responses,
  keeps (debate_initial_round task ids responses).
Proof.
  induction ids as [|id ids IH]; intros; simpl.
  - auto with keeps.
  - repeat keeps_step.
Qed.

Lemma keeps_debate_round task ids : forall it initial_responses round_responses,
  keeps (debate_round task ids it initial_responses round_responses).
Proof.
  induction ids as [|id ids IH]; intros; simpl.
  - auto with keeps.
  - repeat keeps_step.
Qed.

Lemma keeps_debate_loop task n : forall it initial_responses all_responses,
  keeps (debate_loop task n it initial_responses all_responses).
Proof.
  induction n as [|n IH]; intros; simpl.
  - auto with keeps.
  - destruct (it <? max_iterations task)%Z; [|auto with keeps].
    apply preserves_bind; [apply keeps_debate_round | intros ?].
    apply preserves_bind; [auto with keeps | intros [|]].
    + auto with keeps.
    + apply IH.
Qed.

Lemma keeps_debate task : keeps (_debate_collaboration task).
Proof.
  unfold _debate_collaboration.
  apply preserves_bind; [apply keeps_debate_initial_round | intros ?].
  apply preserves_bind; [apply keeps_debate_loop | intros [? ?]].
  repeat keeps_step.
Qed.

Lemma keeps_consensus_initial_round task ids : forall responses,
  keeps (consensus_initial_round task ids responses).
Proof.
  induction ids as [|id ids IH]; intros; simpl.
  - auto with keeps.
  - repeat keeps_step.
Qed.

Lemma keeps_consensus_round task ids : forall it sc q current_responses round_responses,
  keeps (consensus_round task ids it sc q current_responses round_responses).
Proof.
  induction ids as [|id ids IH]; intros; simpl.
  - auto with keeps.
  - repeat keeps_step.
Qed.

Lemma keeps_consensus_loop task n : forall it current_responses all_responses,
  keeps (consensus_loop task n it current_responses all_responses).
Proof.
  induction n as [|n IH]; intros; simpl.
  - auto with keeps.
  - destruct (it <? max_iterations task)%Z; [|auto with keeps].
    apply preserves_bind; [auto with keeps | intros p].
    apply preserves_bind; [auto with keeps | intros sc].
    destruct (PrimFloat.ltb 0.8 sc); [auto with keeps|].
    apply preserves_bind; [apply keeps_consensus_round | intros ?].
    apply IH.
Qed.

Lemma keeps_consensus task : keeps (_consensus_collaboration task).
Proof.
  unfold _consensus_collaboration.
  apply preserves_bind; [apply keeps_consensus_initial_round | intros ?].
  apply preserves_bind; [apply keeps_consensus_loop | intros [[? ?] ?]].
  repeat keeps_step.
Qed.

(** The routing step of [start_collaboration]. *)
Lemma keeps_dispatch task :
  keeps (match mode task with
         | SEQUENTIAL => _sequential_collaboration task
         | PARALLEL => _parallel_collaboration task
         | DEBATE => _debate_collaboration task
         | CONSENSUS => _consensus_collaboration task
         | OtherMode _ text => raise (ValueError (UnsupportedMode text))
         end).
Proof.
  destruct (mode task);
    auto using keeps_sequential, keeps_parallel, keeps_debate, keeps_consensus
         with keeps.
Qed.

End Collaborations.

(* ===================================================================== *)
(** ** What a run leaves untouched                                        *)
(* ===================================================================== *)

Create HintDb frame.

Section Frame.

(** An observation of the coordinator that logging, issuing calls and the
    passing of time do not change. *)
Context {B : Type} (f : Coordinator -> B).
Hypothesis f_add_log : forall e s, f (add_log e s) = f s.
Hypothesis f_add_calls : forall cs s, f (add_calls cs s) = f s.
Hypothesis f_advance_clock : forall d s, f (advance_clock d s) = f s.

Lemma frame_log_event ev subj : preserves f (log_event ev subj).
Proof. intros s. apply f_add_log. Qed.

Lemma frame_log_error e op subj : preserves f (log_error e op subj).
Proof. intros s. apply f_add_log. Qed.

Lemma frame_lookup_agent id : preserves f (lookup_agent id).
Proof. intros s. unfold lookup_agent. destruct (active_agents s !! id); reflexivity. Qed.

Lemma frame_await id a q ctx : preserves f (await_process_query id a q ctx).
Proof.
  intros s. unfold await_process_query.
  destruct (outcome (process_query a (calls s) q ctx)); simpl;
    rewrite f_advance_clock, f_add_calls; reflexivity.
Qed.

Lemma frame_make_agent_response id d : preserves f (make_agent_response id d).
Proof. intros s. unfold make_agent_response. destruct (get_content d); reflexivity. Qed.

Lemma frame_gather ts q ctx t : preserves f (gather_wait_for ts q ctx t).
Proof.
  intros s. unfold gather_wait_for. destruct ts as [|t0 ts]; [reflexivity|].
  destruct (t <=? 0)%Z; [reflexivity|].
  match goal with |- context [if ?b then _ else _] => destruct b end; simpl;
    rewrite f_advance_clock, f_add_calls; reflexivity.
Qed.

Hint Resolve preserves_ret preserves_raise preserves_lift preserves_gets
     frame_log_event frame_log_error frame_lookup_agent frame_await
     frame_make_agent_response frame_gather : frame.

Ltac frame_step :=
  first
    [ apply preserves_bind; [ | intros ? ]
    | apply preserves_try_except; [ | intros ? ]
    | solve [ auto with frame ]
    | match goal with
      | |- preserves _ (match ?x with _ => _ end) => destruct x
      end ].

Lemma frame_sequential_loop task ids : forall i responses current_context,
  preserves f (sequential_loop task ids i responses current_context).
Proof.
  induction ids as [|id ids IH]; intros; simpl; [auto with frame|].
  repeat frame_step.
Qed.

Lemma frame_create_agent_tasks ids : preserves f (create_agent_tasks ids).
Proof.
  induction ids as [|id ids IH]; simpl; [auto with frame|].
  apply preserves_bind; [auto with frame | intros ?].
  apply preserves_bind; [exact IH | intros ?]. auto with frame.
Qed.

Lemma frame_process_responses data : forall responses,
  preserves f (process_responses data responses).
Proof.
  induction data as [|[id [d|e]] data IH]; intros; simpl; [auto with frame| |];
    (apply preserves_bind; [auto with frame | intros ?]; apply IH).
Qed.

Lemma frame_debate_initial_round task ids : forall responses,
  preserves f (debate_initial_round task ids responses).
Proof.
  induction ids as [|id ids IH]; intros; simpl; [auto with frame|].
  repeat frame_step.
Qed.

Lemma frame_debate_round task ids : forall it initial_responses round_responses,
  preserves f (debate_round task ids it initial_responses round_responses).
Proof.
  induction ids as [|id ids IH]; intros; simpl; [auto with frame|].
  repeat frame_step.
Qed.

Lemma frame_debate_loop task n : forall it initial_responses all_responses,
  preserves f (debate_loop task n it initial_responses all_responses).
Proof.
  induction n as [|n IH]; intros; simpl; [auto with frame|].
  destruct (it <? max_iterations task)%Z; [|auto with frame].
  apply preserves_bind; [apply frame_debate_round | intros ?].
  apply preserves_bind; [auto with frame | intros [|]]; [auto with frame|apply IH].
Qed.

Lemma frame_consensus_initial_round task ids : forall responses,
  preserves f (consensus_initial_round task ids responses).
Proof.
  induction ids as [|id ids IH]; intros; simpl; [auto with frame|].
  repeat frame_step.
Qed.

Lemma frame_consensus_round task ids : forall it sc q current_responses round_responses,
  preserves f (consensus_round task ids it sc q current_responses round_responses).
Proof.
  induction ids as [|id ids IH]; intros; simpl; [auto with frame|].
  repeat frame_step.
Qed.

Lemma frame_consensus_loop task n : forall it current_responses all_responses,
  preserves f (consensus_loop task n it current_responses all_responses).
Proof.
  induction n as [|n IH]; intros; simpl; [auto with frame|].
  destruct (it <? max_iterations task)%Z; [|auto with frame].
  apply preserves_bind; [auto with frame | intros p].
  apply preserves_bind; [auto with frame | intros sc].
  destruct (PrimFloat.ltb 0.8 sc); [auto with frame|].
  apply preserves_bind; [apply frame_consensus_round | intros ?]. apply IH.
Qed.

Lemma frame_route task : preserves f (route task).
Proof.
  unfold route. destruct (mode task); [| | | |auto with frame].
  - unfold _sequential_collaboration.
    apply preserves_bind; [apply frame_sequential_loop | intros ?]. repeat frame_step.
  - unfold _parallel_collaboration.
    apply preserves_bind; [apply frame_create_agent_tasks | intros ?].
    apply preserves_bind.
    { apply preserves_try_except; [auto with frame | intros []; auto with frame]. }
    intros ?. apply preserves_bind; [apply frame_process_responses | intros ?].
    repeat frame_step.
  - unfold _debate_collaboration.
    apply preserves_bind; [apply frame_debate_initial_round | intros ?].
    apply preserves_bind; [apply frame_debate_loop | intros [? ?]].
    repeat frame_step.
  - unfold _consensus_collaboration.
    apply preserves_bind; [apply frame_consensus_initial_round | intros ?].
    apply preserves_bind; [apply frame_consensus_loop | intros [[? ?] ?]].
    repeat frame_step.
Qed.

End Frame.


(* ===================================================================== *)
(** ** The round loops never run out of steps                             *)
(* ===================================================================== *)

(** [max_iterations - current_iteration] steps are enough for the [while]
    loops: with that many, the bound on the steps is never what stops them,
    so any larger bound gives the same run. *)
Lemma debate_loop_enough task rounds_left :
  forall current_iteration initial_responses all_responses s,
    (max_iterations task - current_iteration <= Z.of_nat rounds_left)%Z ->
    debate_loop task (S rounds_left) current_iteration initial_responses all_responses s
    = debate_loop task rounds_left current_iteration initial_responses all_responses s.
Proof.
  induction rounds_left as [|n IH]; intros it initial all s Hle.
  - cbn [debate_loop].
    destruct (it <? max_iterations task)%Z eqn:Hlt; [|reflexivity].
    apply Z.ltb_lt in Hlt. lia.
  - change (debate_loop task (S (S n)) it initial all s)
      with ((if (it <? max_iterations task)%Z then
               let* round_responses := debate_round task (agents task) it initial [] in
               let* converged :=
                 lift (_check_debate_convergence round_responses initial) in
               if (converged : bool) then ret ((it + 1)%Z, all ++ round_responses)
               else debate_loop task (S n) (it + 1)%Z round_responses
                                (all ++ round_responses)
             else ret (it, all)) s).
    change (debate_loop task (S n) it initial all s)
      with ((if (it <? max_iterations task)%Z then
               let* round_responses := debate_round task (agents task) it initial [] in
               let* converged :=
                 lift (_check_debate_convergence round_responses initial) in
               if (converged : bool) then ret ((it + 1)%Z, all ++ round_responses)
               else debate_loop task n (it + 1)%Z round_responses (all ++ round_responses)
             else ret (it, all)) s).
    destruct (it <? max_iterations task)%Z; [|reflexivity].
    unfold bind at 1 3.
    destruct (debate_round task (agents task) it initial [] s) as [[round|e] s1];
      [|reflexivity].
    unfold bind, lift.
    destruct (_check_debate_convergence round initial) as [[|]|e]; try reflexivity.
    apply IH. lia.
Qed.

Lemma consensus_loop_enough task rounds_left :
  forall current_iteration current_responses all_responses s,
    (max_iterations task - current_iteration <= Z.of_nat rounds_left)%Z ->
    consensus_loop task (S rounds_left) current_iteration current_responses all_responses s
    = consensus_loop task rounds_left current_iteration current_responses all_responses s.
Proof.
  induction rounds_left as [|n IH]; intros it current all s Hle.
  - cbn [consensus_loop].
    destruct (it <? max_iterations task)%Z eqn:Hlt; [|reflexivity].
    apply Z.ltb_lt in Hlt. lia.
  - change (consensus_loop task (S (S n)) it current all s)
      with ((if (it <? max_iterations task)%Z then
               let* p := gets platform in
               let* consensus_score := lift (_calculate_consensus_score p current) in
               if PrimFloat.ltb 0.8 consensus_score then ret (it, current, all)
               else
                 let* round_responses :=
                   consensus_round task (agents task) it consensus_score
                                   (consensus_query_for task current) current [] in
                 consensus_loop task (S n) (it + 1)%Z round_responses
                                (all ++ round_responses)
             else ret (it, current, all)) s).
    change (consensus_loop task (S n) it current all s)
      with ((if (it <? max_iterations task)%Z then
               let* p := gets platform in
               let* consensus_score := lift (_calculate_consensus_score p current) in
               if PrimFloat.ltb 0.8 consensus_score then ret (it, current, all)
               else
                 let* round_responses :=
                   consensus_round task (agents task) it consensus_score
                                   (consensus_query_for task current) current [] in
                 consensus_loop task n (it + 1)%Z round_responses (all ++ round_responses)
             else ret (it, current, all)) s).
    destruct (it <? max_iterations task)%Z; [|reflexivity].
    unfold bind, gets, lift.
    destruct (_calculate_consensus_score (platform s) current) as [sc|e]; [|reflexivity].
    destruct (PrimFloat.ltb 0.8 sc); [reflexivity|].
    destruct (consensus_round task (agents task) it sc _ current [] s) as [[round|e] s1];
      [|reflexivity].
    apply IH. lia.
Qed.

(* ===================================================================== *)
(** ** Validation in [start_collaboration]                                *)
(* ===================================================================== *)

Lemma missing_agents_of_spec task s id :
  id ∈ missing_agents_of task s <-> id ∈ agents task /\ active_agents s !! id = None.
Proof.
  unfold missing_agents_of. rewrite !list_elem_of_In, filter_In.
  rewrite negb_true_iff, bool_decide_eq_false, <- eq_None_not_Some. reflexivity.
Qed.

Lemma missing_agents_of_enter task s :
  missing_agents_of task (enter_collaboration task s) = missing_agents_of task s.
Proof. reflexivity. Qed.

(** When an id is missing the call stops right after the registry check. *)
Lemma start_collaboration_missing task s id ids :
  missing_agents_of task s = id :: ids ->
  start_collaboration task s =
    (Raise (ValueError (AgentsNotAvailable (id :: ids))),
     add_log (LogError (ValueError (AgentsNotAvailable (id :: ids)))
                       "start_collaboration" (task_id task))
             (enter_collaboration task s)).
Proof.
  intros Hmiss.
  unfold start_collaboration, try_except, bind, modify, gets.
  rewrite missing_agents_of_enter, Hmiss. reflexivity.
Qed.

(** C3: a task naming an unregistered participant fails with the "Agents not
    available" error, whose payload is exactly the list of unresolved ids,
    and no agent has been queried when it fails. *)
Theorem missing_agents_rejected task s :
  (exists id, id ∈ agents task /\ active_agents s !! id = None) ->
  exists missing s',
    start_collaboration task s = (Raise (ValueError (AgentsNotAvailable missing)), s')
    /\ (forall id, id ∈ missing <-> id ∈ agents task /\ active_agents s !! id = None)
    /\ calls s' = calls s.
Proof.
  intros (id & Hin & Hnone).
  destruct (missing_agents_of task s) as [|m ms] eqn:Hmiss.
  - exfalso. assert (H : id ∈ missing_agents_of task s) by (apply missing_agents_of_spec; auto).
    rewrite Hmiss in H. inversion H.
  - eexists (m :: ms), _. split; [apply start_collaboration_missing; exact Hmiss|].
    split; [|reflexivity].
    intros id'. rewrite <- Hmiss. apply missing_agents_of_spec.
Qed.

Lemma missing_agents_rejected_witness :
  exists missing s',
    start_collaboration
      (Scenarios.task_for ["p1"; "ghost"; "p2"; "phantom"] SEQUENTIAL 3 300)
      (Scenarios.coordinator_with
         [("p1", Scenarios.replies "A" 0.9 1); ("p2", Scenarios.replies "B" 0.7 1)])
    = (Raise (ValueError (AgentsNotAvailable missing)), s')
    /\ (forall id, id ∈ missing <->
          id ∈ ["p1"; "ghost"; "p2"; "phantom"]
          /\ active_agents (Scenarios.coordinator_with
               [("p1", Scenarios.replies "A" 0.9 1); ("p2", Scenarios.replies "B" 0.7 1)])
             !! id = None)
    /\ calls s' = [].
Proof.
  apply (missing_agents_rejected
           (Scenarios.task_for ["p1"; "ghost"; "p2"; "phantom"] SEQUENTIAL 3 300)
           (Scenarios.coordinator_with
              [("p1", Scenarios.replies "A" 0.9 1); ("p2", Scenarios.replies "B" 0.7 1)])).
  exists "ghost". split; [right; left | vm_compute; reflexivity].
Defined.

(* ===================================================================== *)
(** ** The collaboration table on failure                                 *)
(* ===================================================================== *)

(** C10: whenever [start_collaboration] raises, the task is still in
    [active_collaborations] afterwards, so [get_active_collaborations]
    still reports it. *)
Theorem failed_collaboration_stays_active task s e s' :
  start_collaboration task s = (Raise e, s') ->
  get_active_collaborations s' !! task_id task = Some task.
Proof.
  unfold get_active_collaborations, start_collaboration, try_except.
  unfold bind at 1. unfold modify at 1.
  unfold bind at 1. unfold gets at 1.
  set (s0 := enter_collaboration task s).
  assert (Hs0 : active_collaborations s0 !! task_id task = Some task)
    by (apply lookup_insert_eq).
  destruct (missing_agents_of task s0) as [|m ms].
  - unfold bind at 1. unfold lift at 1.
    destruct (mode_value (mode task)) as [value|e0].
    + unfold bind at 1. unfold log_event at 1, modify at 1.
      set (s1 := add_log _ s0).
      unfold bind at 1.
      pose proof (keeps_dispatch task s1) as Hk.
      match goal with
      | |- context [match ?c s1 with _ => _ end] => destruct (c s1) as [[r|e1] s2]
      end.
      * unfold bind, gets, modify, log_event, ret.
        destruct (bool_decide _); intros H; inversion H.
      * unfold bind, log_error, modify, raise. intros H. inversion H; subst.
        simpl in *. rewrite Hk. exact Hs0.
    + unfold bind, log_error, modify, raise. intros H. inversion H; subst. exact Hs0.
  - unfold raise, bind, log_error, modify. intros H. inversion H; subst. exact Hs0.
Qed.

Lemma failed_collaboration_stays_active_witness :
  get_active_collaborations
    (snd (start_collaboration
            (Scenarios.task_for ["p1"; "p2"] SEQUENTIAL 3 300)
            (Scenarios.coordinator_with
               [("p1", Scenarios.replies "A" 0.9 1); ("p2", Scenarios.fails "boom" 1)])))
    !! "task-1"
  = Some (Scenarios.task_for ["p1"; "p2"] SEQUENTIAL 3 300).
Proof.
  apply (failed_collaboration_stays_active
           (Scenarios.task_for ["p1"; "p2"] SEQUENTIAL 3 300)
           (Scenarios.coordinator_with
              [("p1", Scenarios.replies "A" 0.9 1); ("p2", Scenarios.fails "boom" 1)])
           (AgentFailure "boom")).
  vm_compute. reflexivity.
Defined.

(* ===================================================================== *)
(** ** [start_collaboration] once the registry check has passed           *)
(* ===================================================================== *)

(** The call stops before the routing step when the mode has no [value]
    to log. *)
Lemma start_collaboration_route task s :
  missing_agents_of task s = [] ->
  start_collaboration task s =
    match mode_value (mode task) with
    | Ok _ =>
      match route task (started task s) with
      | (Ok r, s') => (Ok r, completed task s')
      | (Raise e, s') => (Raise e, failed task e s')
      end
    | Raise e => (Raise e, failed task e (enter_collaboration task s))
    end.
Proof.
  intros Hmiss.
  unfold start_collaboration, try_except.
  unfold bind at 1. unfold modify at 1.
  unfold bind at 1. unfold gets at 1.
  rewrite missing_agents_of_enter, Hmiss.
  unfold bind at 1. unfold lift at 1.
  destruct (mode_value (mode task)) as [value|e0]; [|reflexivity].
  unfold bind at 1. unfold log_event at 1, modify at 1.
  fold (started task s). unfold bind at 1. fold (route task).
  destruct (route task (started task s)) as [[r|e] s'].
  - unfold bind, gets, modify, log_event, ret, completed.
    destruct (bool_decide _); reflexivity.
  - reflexivity.
Qed.

Lemma start_collaboration_ok_inv task s r s' :
  start_collaboration task s = (Ok r, s') ->
  exists s1, route task (started task s) = (Ok r, s1) /\ s' = completed task s1.
Proof.
  destruct (missing_agents_of task s) as [|m ms] eqn:Hmiss.
  - rewrite (start_collaboration_route _ _ Hmiss).
    destruct (mode_value (mode task)) as [value|e0]; [|discriminate].
    destruct (route task (started task s)) as [[r1|e] s1]; intros H; inversion H; subst.
    eauto.
  - rewrite (start_collaboration_missing _ _ _ _ Hmiss). discriminate.
Qed.

Lemma calls_completed task s : calls (completed task s) = calls s.
Proof. unfold completed. destruct (bool_decide _); reflexivity. Qed.

Lemma clock_completed task s : clock (completed task s) = clock s.
Proof. unfold completed. destruct (bool_decide _); reflexivity. Qed.

(* ===================================================================== *)
(** ** Consensus                                                          *)
(* ===================================================================== *)

(** A byte continues a code point exactly when it does not begin a
    character of the specification. *)
Lemma continuation_byte_begins b :
  continuation_byte b = negb (Spec.begins_character b).
Proof. destruct b as [[] [] [] [] [] [] [] []]; reflexivity. Qed.


(** [s[:n]] is the specification's first [n] characters. *)
Lemma str_prefix_first_characters s : forall n,
  str_prefix n s = Spec.first_characters n s.
Proof.
  unfold Spec.first_characters.
  induction s as [|b rest IH]; intros n; [reflexivity|].
  cbn [str_prefix list_ascii_of_string Spec.character_offset].
  rewrite continuation_byte_begins.
  destruct (Spec.begins_character b); cbn [negb].
  - destruct n as [|n]; [reflexivity|].
    cbn [substring]. rewrite IH. reflexivity.
  - cbn [substring]. rewrite IH. reflexivity.
Qed.











(** The consensus loop leaves as soon as the current responses score above
    0.8: the round counter and the responses are unchanged and no agent is
    queried. *)
Lemma consensus_loop_exits_on_consensus
    task rounds_left current_iteration current_responses all_responses s sc :
  _calculate_consensus_score (platform s) current_responses = Ok sc ->
  PrimFloat.ltb 0.8 sc = true ->
  consensus_loop task rounds_left current_iteration current_responses all_responses s
  = (Ok (current_iteration, current_responses, all_responses), s).
Proof.
  intros Hscore Hhigh. destruct rounds_left as [|n]; simpl; [reflexivity|].
  destruct (current_iteration <? max_iterations task)%Z; [|reflexivity].
  unfold bind, gets, lift. rewrite Hscore, Hhigh. reflexivity.
Qed.




(* ===================================================================== *)
(** ** What SEQUENTIAL, DEBATE and CONSENSUS do not do                    *)
(* ===================================================================== *)

(** A query that raises ends the sequential loop on the spot: the exception
    leaves the loop and the remaining participants are not queried. *)
Lemma sequential_loop_stops_at_failure
    task agent_id rest i responses current_context s agent e :
  active_agents s !! agent_id = Some agent ->
  outcome (process_query agent (calls s) current_context
             (CtxSequential (i + 1) (length (agents task)) (last_n 3 responses)))
  = Raises e ->
  exists s',
    sequential_loop task (agent_id :: rest) i responses current_context s = (Raise e, s')
    /\ map callee (calls s') = map callee (calls s) ++ [agent_id].
Proof.
  intros Hagent Hraises. cbn [sequential_loop].
  unfold bind at 1. unfold lookup_agent. rewrite Hagent.
  unfold bind at 1. unfold await_process_query. rewrite Hraises.
  eexists. split; [reflexivity|]. simpl. rewrite map_app. reflexivity.
Qed.

(** Whatever exception leaves the sequential loop is what
    [start_collaboration] raises. *)
Lemma sequential_failure_is_fatal task s e s1 :
  mode task = SEQUENTIAL ->
  missing_agents_of task s = [] ->
  sequential_loop task (agents task) 0 [] (query task) (started task s) = (Raise e, s1) ->
  start_collaboration task s = (Raise e, failed task e s1).
Proof.
  intros Hmode Hmiss Hloop.
  rewrite (start_collaboration_route _ _ Hmiss).
  unfold route. rewrite Hmode. unfold _sequential_collaboration.
  unfold bind at 1. rewrite Hloop. reflexivity.
Qed.

(** Two runs that agree step by step agree. *)
Lemma bind_congr {A B} (c c' : M A) (k k' : A -> M B) s :
  c s = c' s -> (forall a s', k a s' = k' a s') -> bind c k s = bind c' k' s.
Proof.
  intros Hc Hk. unfold bind. rewrite Hc.
  destruct (c' s) as [[a|e] s']; [apply Hk|reflexivity].
Qed.

Lemma sequential_loop_timeout t task ids : forall i responses current_context s,
  sequential_loop (with_timeout t task) ids i responses current_context s
  = sequential_loop task ids i responses current_context s.
Proof.
  induction ids as [|id ids IH]; intros; cbn [sequential_loop]; [reflexivity|].
  cbn [with_timeout agents query].
  repeat (apply bind_congr; [reflexivity|intros ? ?]). apply IH.
Qed.

Lemma debate_initial_round_timeout t task ids : forall responses s,
  debate_initial_round (with_timeout t task) ids responses s
  = debate_initial_round task ids responses s.
Proof.
  induction ids as [|id ids IH]; intros; cbn [debate_initial_round]; [reflexivity|].
  cbn [with_timeout agents query].
  repeat (apply bind_congr; [reflexivity|intros ? ?]). apply IH.
Qed.

Lemma debate_round_timeout t task ids : forall it initial_responses round_responses s,
  debate_round (with_timeout t task) ids it initial_responses round_responses s
  = debate_round task ids it initial_responses round_responses s.
Proof.
  induction ids as [|id ids IH]; intros; cbn [debate_round]; [reflexivity|].
  change (debate_query_for (with_timeout t task)) with (debate_query_for task).
  repeat (apply bind_congr; [reflexivity|intros ? ?]). apply IH.
Qed.

Lemma debate_loop_timeout t task n : forall it initial_responses all_responses s,
  debate_loop (with_timeout t task) n it initial_responses all_responses s
  = debate_loop task n it initial_responses all_responses s.
Proof.
  induction n as [|n IH]; intros; cbn [debate_loop]; [reflexivity|].
  cbn [with_timeout agents max_iterations].
  destruct (it <? max_iterations task)%Z; [|reflexivity].
  apply bind_congr; [apply debate_round_timeout|intros round s1].
  apply bind_congr; [reflexivity|intros [|] s2]; [reflexivity|apply IH].
Qed.

Lemma consensus_initial_round_timeout t task ids : forall responses s,
  consensus_initial_round (with_timeout t task) ids responses s
  = consensus_initial_round task ids responses s.
Proof.
  induction ids as [|id ids IH]; intros; cbn [consensus_initial_round]; [reflexivity|].
  cbn [with_timeout agents query].
  repeat (apply bind_congr; [reflexivity|intros ? ?]). apply IH.
Qed.

Lemma consensus_round_timeout t task ids :
  forall it sc q current_responses round_responses s,
    consensus_round (with_timeout t task) ids it sc q current_responses round_responses s
    = consensus_round task ids it sc q current_responses round_responses s.
Proof.
  induction ids as [|id ids IH]; intros; cbn [consensus_round]; [reflexivity|].
  repeat (apply bind_congr; [reflexivity|intros ? ?]). apply IH.
Qed.

Lemma consensus_loop_timeout t task n : forall it current_responses all_responses s,
  consensus_loop (with_timeout t task) n it current_responses all_responses s
  = consensus_loop task n it current_responses all_responses s.
Proof.
  induction n as [|n IH]; intros; cbn [consensus_loop]; [reflexivity|].
  cbn [with_timeout agents max_iterations].
  destruct (it <? max_iterations task)%Z; [|reflexivity].
  apply bind_congr; [reflexivity|intros p s0].
  apply bind_congr; [reflexivity|intros sc s1].
  destruct (PrimFloat.ltb 0.8 sc); [reflexivity|].
  change (consensus_query_for (with_timeout t task)) with (consensus_query_for task).
  apply bind_congr; [apply consensus_round_timeout|intros round s2].
  apply IH.
Qed.

(** Outside PARALLEL mode the task's timeout is never read: a run under any
    other timeout is the same run, with the same result, the same calls and
    the same duration. *)
Lemma timeout_unread_outside_parallel t task s :
  mode task <> PARALLEL ->
  route (with_timeout t task) s = route task s.
Proof.
  intros Hmode. unfold route. cbn [with_timeout mode].
  destruct (mode task); [| contradiction | | | reflexivity].
  - unfold _sequential_collaboration.
    apply bind_congr; [apply sequential_loop_timeout|reflexivity].
  - unfold _debate_collaboration. cbn [with_timeout agents max_iterations].
    apply bind_congr; [apply debate_initial_round_timeout|intros initial s1].
    apply bind_congr; [apply debate_loop_timeout|reflexivity].
  - unfold _consensus_collaboration. cbn [with_timeout agents max_iterations].
    apply bind_congr; [apply consensus_initial_round_timeout|intros current s1].
    apply bind_congr; [apply consensus_loop_timeout|reflexivity].
Qed.

(* ===================================================================== *)
(** ** Failure of a single agent in SEQUENTIAL mode                       *)
(* ===================================================================== *)

(** C7 (the code at the failing input): three registered participants, the
    second of which raises. The sequential protocol does not absorb the
    failure: [start_collaboration] re-raises the agent's exception and the
    third participant is never queried. On the same coordinator the PARALLEL
    protocol skips the failed agent and returns the two other answers. *)
Theorem sequential_single_failure_aborts :
  fst (start_collaboration (Scenarios.task_for ["p1"; "p2"; "p3"] SEQUENTIAL 3 300)
                           Scenarios.one_failing)
  = Raise (AgentFailure "boom")
  /\ map callee
       (calls (snd (start_collaboration
                      (Scenarios.task_for ["p1"; "p2"; "p3"] SEQUENTIAL 3 300)
                      Scenarios.one_failing)))
     = ["p1"; "p2"]
  /\ (participating_agents <$>
        result_to_option
          (fst (start_collaboration (Scenarios.task_for ["p1"; "p2"; "p3"] PARALLEL 3 300)
                                    Scenarios.one_failing)))
     = Some ["p1"; "p3"].
Proof. vm_compute. repeat split; reflexivity. Qed.

(* ===================================================================== *)
(** ** The task timeout outside PARALLEL mode                             *)
(* ===================================================================== *)

(** C4 (the code at the failing input): two participants that take ten
    seconds each, under a task timeout of one second. SEQUENTIAL, DEBATE and
    CONSENSUS never read [task.timeout]: they return a complete result after
    20, 40 and 20 seconds. Only PARALLEL gives up, after one second, with
    the "Collaboration timed out" error. *)
Theorem timeout_only_bounds_parallel :
  (total_iterations <$>
     result_to_option (fst (start_collaboration
                              (Scenarios.task_for ["p1"; "p2"] SEQUENTIAL 3 1)
                              Scenarios.two_slow))) = Some 1%Z
  /\ clock (snd (start_collaboration (Scenarios.task_for ["p1"; "p2"] SEQUENTIAL 3 1)
                                     Scenarios.two_slow)) = 20%Z
  /\ (total_iterations <$>
        result_to_option (fst (start_collaboration
                                 (Scenarios.task_for ["p1"; "p2"] DEBATE 3 1)
                                 Scenarios.two_slow))) = Some 2%Z
  /\ clock (snd (start_collaboration (Scenarios.task_for ["p1"; "p2"] DEBATE 3 1)
                                     Scenarios.two_slow)) = 40%Z
  /\ (total_iterations <$>
        result_to_option (fst (start_collaboration
                                 (Scenarios.task_for ["p1"; "p2"] CONSENSUS 3 1)
                                 Scenarios.two_slow))) = Some 1%Z
  /\ clock (snd (start_collaboration (Scenarios.task_for ["p1"; "p2"] CONSENSUS 3 1)
                                     Scenarios.two_slow)) = 20%Z
  /\ fst (start_collaboration (Scenarios.task_for ["p1"; "p2"] PARALLEL 3 1)
                              Scenarios.two_slow)
     = Raise (ValueError (CollaborationTimedOut 1))
  /\ clock (snd (start_collaboration (Scenarios.task_for ["p1"; "p2"] PARALLEL 3 1)
                                     Scenarios.two_slow)) = 1%Z.
Proof. vm_compute. repeat split; reflexivity. Qed.

(* ===================================================================== *)
(** ** Participant bounds                                                 *)
(* ===================================================================== *)

(** C2 (counterexample): [start_collaboration] checks no participant count.
    A task with a single registered participant, and one with eleven, are
    both dispatched: the call returns a result and the agents have been
    queried (one call, eleven calls). *)
Lemma participant_count_is_not_checked :
  is_ok (fst (start_collaboration (Scenarios.task_for ["p1"] SEQUENTIAL 3 300)
                                  (Scenarios.coordinator_with
                                     [("p1", Scenarios.replies "A" 0.9 1)]))) = true
  /\ map callee
       (calls (snd (start_collaboration (Scenarios.task_for ["p1"] SEQUENTIAL 3 300)
                                        (Scenarios.coordinator_with
                                           [("p1", Scenarios.replies "A" 0.9 1)]))))
     = ["p1"]
  /\ length Scenarios.eleven_ids = 11%nat
  /\ is_ok (fst (start_collaboration (Scenarios.task_for Scenarios.eleven_ids PARALLEL 3 300)
                                     Scenarios.eleven_agents)) = true
  /\ map callee
       (calls (snd (start_collaboration (Scenarios.task_for Scenarios.eleven_ids PARALLEL 3 300)
                                        Scenarios.eleven_agents)))
     = Scenarios.eleven_ids.
Proof. vm_compute. repeat split; reflexivity. Qed.

Lemma validate_agents_length repository agent_ids : forall agents validated,
  AgentDomain.validate_agents repository agent_ids agents = Ok validated ->
  length validated = (length agents + length agent_ids)%nat.
Proof.
  induction agent_ids as [|agent_id rest IH]; intros agents validated; simpl.
  - intros Hok. injection Hok as <-. lia.
  - destruct (repository !! agent_id) as [agent|]; [|discriminate].
    destruct (AgentDomain.is_suitable_for_collaboration _); [|discriminate].
    intros H. apply IH in H. rewrite H, length_app. simpl. lia.
Qed.

(** C2 (amended): the participant-count rule is the business rule of
    [AgentDomainService.orchestrate_collaboration]. For every list of agent
    ids with fewer than 2 or more than 5 entries (so in particular more than
    10), it fails with a [ValueError]; nothing is published on the event
    bus, and the method queries no agent. *)
Theorem orchestrate_collaboration_size_rule
    repository now (agent_ids : list string) task mode bus :
  (length agent_ids < 2 \/ 5 < length agent_ids)%nat ->
  exists msg,
    AgentDomain.orchestrate_collaboration repository now agent_ids task mode bus
    = (Raise (ValueError msg), bus)
    /\ (forall agents,
          AgentDomain.validate_agents repository agent_ids [] = Ok agents ->
          msg = if (length agent_ids <? 2)%nat then AtLeastTwoAgents else MaximumFiveAgents).
Proof.
  intros Hsize. unfold AgentDomain.orchestrate_collaboration.
  destruct (AgentDomain.validate_agents repository agent_ids []) as [agents|e] eqn:Hv.
  - apply validate_agents_length in Hv. simpl in Hv. rewrite Hv.
    destruct (length agent_ids <? 2)%nat eqn:H2.
    + eexists. split; [reflexivity|]. intros ? _. reflexivity.
    + apply Nat.ltb_ge in H2.
      destruct (5 <? length agent_ids)%nat eqn:H5.
      * eexists. split; [reflexivity|]. intros ? _. reflexivity.
      * apply Nat.ltb_ge in H5. lia.
  - assert (exists msg, e = ValueError msg) as [msg ->].
    { clear Hsize. revert Hv. generalize (@nil AgentDomain.AgentDomainModel).
      induction agent_ids as [|agent_id rest IH]; intros agents; simpl; [discriminate|].
      destruct (repository !! agent_id) as [agent|];
        [|intros Hraise; injection Hraise as <-; eauto].
      destruct (AgentDomain.is_suitable_for_collaboration _);
        [apply IH|intros Hraise; injection Hraise as <-; eauto]. }
    exists msg. split; [reflexivity|]. intros agents [=].
Qed.

Lemma orchestrate_collaboration_size_rule_witness :
  exists msg,
    AgentDomain.orchestrate_collaboration
      Scenarios.repository "20240101_120000" ["a1"] "compare" AgentDomain.SEQUENTIAL []
    = (Raise (ValueError msg), [])
    /\ (forall agents,
          AgentDomain.validate_agents Scenarios.repository ["a1"] [] = Ok agents ->
          msg = AtLeastTwoAgents).
Proof.
  apply (orchestrate_collaboration_size_rule
           Scenarios.repository "20240101_120000" ["a1"] "compare" AgentDomain.SEQUENTIAL []).
  left. simpl. lia.
Defined.

(* ===================================================================== *)
(** ** Registering an id twice                                            *)
(* ===================================================================== *)

(** C9 (counterexample): registering ["p1"] a second time does not fail.
    [MultiAgentCoordinator.register_agent] returns normally and the new
    handle has replaced the old one; [AgentCoordinator.register_agent] of
    the ai-service returns the id and keeps the old agent. *)
Lemma register_twice_does_not_fail :
  fst (register_agent "p1" (Scenarios.replies "new" 0.7 1)
         (Scenarios.coordinator_with [("p1", Scenarios.replies "old" 0.9 1)]))
  = Ok tt
  /\ active_agents
       (snd (register_agent "p1" (Scenarios.replies "new" 0.7 1)
               (Scenarios.coordinator_with [("p1", Scenarios.replies "old" 0.9 1)])))
     !! "p1"
     = Some (Scenarios.replies "new" 0.7 1)
  /\ fst (AgentCoordinator.register_agent (Scenarios.paper "p1" "new title")
            Scenarios.one_paper)
     = Ok "p1"
  /\ AgentCoordinator.active_agents
       (snd (AgentCoordinator.register_agent (Scenarios.paper "p1" "new title")
               Scenarios.one_paper))
     !! "p1"
     = Some (AgentCoordinator.create_agent (Scenarios.paper "p1" "old title")).
Proof. vm_compute. repeat split; reflexivity. Qed.

(** C9 (amended): for an id that is already registered no registration path
    fails. [MultiAgentCoordinator.register_agent] overwrites the handle (and
    changes nothing else in the registry); [AgentCoordinator.register_agent]
    is a no-op on its registry and returns the id. *)
Theorem register_existing_agent agent_id :
  (forall agent s,
      is_Some (active_agents s !! agent_id) ->
      exists s',
        register_agent agent_id agent s = (Ok tt, s')
        /\ active_agents s' !! agent_id = Some agent
        /\ (forall other, other <> agent_id ->
              active_agents s' !! other = active_agents s !! other)
        /\ dom (active_agents s') = dom (active_agents s))
  /\ (forall paper_data st,
        AgentCoordinator.pd_id paper_data = Some agent_id ->
        is_Some (AgentCoordinator.active_agents st !! agent_id) ->
        exists st',
          AgentCoordinator.register_agent paper_data st = (Ok agent_id, st')
          /\ AgentCoordinator.active_agents st' = AgentCoordinator.active_agents st
          /\ AgentCoordinator.agent_relationships st'
             = AgentCoordinator.agent_relationships st).
Proof.
  split.
  - intros agent s Hreg. eexists. split; [reflexivity|]. simpl.
    split; [apply lookup_insert_eq|]. split.
    + intros other Hne. apply lookup_insert_ne. congruence.
    + rewrite dom_insert_L. apply subseteq_union_1_L, singleton_subseteq_l, elem_of_dom.
      exact Hreg.
  - intros paper_data st Hid Hreg. unfold AgentCoordinator.register_agent.
    rewrite Hid. rewrite bool_decide_eq_true_2 by exact Hreg.
    eexists. repeat split.
Qed.

Lemma register_existing_agent_witness :
  exists s',
    register_agent "p1" (Scenarios.replies "new" 0.7 1)
      (Scenarios.coordinator_with [("p1", Scenarios.replies "old" 0.9 1)]) = (Ok tt, s')
    /\ active_agents s' !! "p1" = Some (Scenarios.replies "new" 0.7 1)
    /\ (forall other, other <> "p1" ->
          active_agents s' !! other
          = active_agents (Scenarios.coordinator_with [("p1", Scenarios.replies "old" 0.9 1)])
            !! other)
    /\ dom (active_agents s')
       = dom (active_agents (Scenarios.coordinator_with [("p1", Scenarios.replies "old" 0.9 1)])).
Proof.
  apply (proj1 (register_existing_agent "p1")).
  vm_compute. eexists. reflexivity.
Defined.

(* ===================================================================== *)
(** ** Collaboration quality                                              *)
(* ===================================================================== *)

Lemma SFmul_comm prec emax x y : SFmul prec emax x y = SFmul prec emax y x.
Proof.
  destruct x as [sx|sx| |sx mx ex], y as [sy|sy| |sy my ey]; simpl; try reflexivity;
    try (rewrite (xorb_comm sx sy); reflexivity).
  rewrite (xorb_comm sx sy), (Pos.mul_comm mx my), (Z.add_comm ex ey). reflexivity.
Qed.

(** Multiplication of binary64 floats is commutative. *)
Lemma float_mul_comm (a b : float) : PrimFloat.mul a b = PrimFloat.mul b a.
Proof. apply Prim2SF_inj. rewrite !mul_spec. apply SFmul_comm. Qed.

(** [len(set(xs))] counts the distinct elements of [xs]. *)
Lemma count_distinct_remove_dups (xs : list string) :
  count_distinct xs = len (remove_dups xs).
Proof.
  unfold count_distinct, len. f_equal.
  rewrite <- (size_list_to_set (C := gset string) (remove_dups xs))
    by apply NoDup_remove_dups.
  f_equal. apply set_eq. intros x.
  rewrite !elem_of_list_to_set, elem_of_remove_dups. reflexivity.
Qed.

Lemma count_distinct_pair (x y : string) : x <> y -> count_distinct [x; y] = 2%Z.
Proof.
  intros Hne. unfold count_distinct.
  rewrite size_list_to_set; [reflexivity|].
  apply NoDup_cons. split; [|apply NoDup_singleton].
  intros Hin. apply list_elem_of_singleton in Hin. contradiction.
Qed.

(** C8: on a non-empty list, [_calculate_collaboration_quality] is the
    specification's formula, 0.6 times the average confidence plus 0.4 times
    the diversity, capped at 1, where the diversity is the number of distinct
    prefixes of 100 characters over the number of responses and the sum of
    the confidences is that of the platform. For two responses with
    confidences 0.9 and 0.7, which every platform adds as floats are added,
    whose first 100 characters differ, the score is the float 0.88. *)
Theorem collaboration_quality_formula :
  (forall p r responses,
      _calculate_collaboration_quality p (r :: responses)
      = Spec.collaborationQuality (float_sum p) (r :: responses))
  /\ (forall p r1 r2,
        confidence r1 = 0.9%float ->
        confidence r2 = 0.7%float ->
        float_sum p [0.9%float; 0.7%float] = Spec.left_to_right [0.9%float; 0.7%float] ->
        Spec.first_characters 100 (content r1) <> Spec.first_characters 100 (content r2) ->
        _calculate_collaboration_quality p [r1; r2] = 0.88%float).
Proof.
  split.
  - intros p r responses.
    unfold _calculate_collaboration_quality, Spec.collaborationQuality,
      Spec.capped_at_one, Spec.average_confidence, Spec.diversity,
      Spec.distinct_prefixes, fmin.
    rewrite count_distinct_remove_dups, map_map.
    rewrite (map_ext (fun r => str_prefix 100 (content r))
                     (fun r => Spec.first_characters 100 (content r)))
      by (intros; apply str_prefix_first_characters).
    unfold len. rewrite !length_map.
    rewrite (float_mul_comm 0.6), (float_mul_comm 0.4). reflexivity.
  - intros p r1 r2 H1 H2 Hsum Hne.
    rewrite <- !str_prefix_first_characters in Hne.
    unfold _calculate_collaboration_quality.
    cbn [map]. rewrite (count_distinct_pair _ _ Hne), H1, H2, Hsum.
    vm_compute. reflexivity.
Qed.

Lemma collaboration_quality_formula_witness :
  _calculate_collaboration_quality Scenarios.plain_platform
    [ {| agent_id := "p1"; content := Scenarios.bullets ++ "A"; confidence := 0.9;
         metadata := []; timestamp := 0 |};
      {| agent_id := "p2"; content := Scenarios.bullets ++ "B"; confidence := 0.7;
         metadata := []; timestamp := 0 |} ]
  = 0.88%float.
Proof.
  apply (proj2 collaboration_quality_formula Scenarios.plain_platform
           {| agent_id := "p1"; content := Scenarios.bullets ++ "A"; confidence := 0.9;
              metadata := []; timestamp := 0 |}
           {| agent_id := "p2"; content := Scenarios.bullets ++ "B"; confidence := 0.7;
              metadata := []; timestamp := 0 |}).
  - reflexivity.
  - reflexivity.
  - reflexivity.
  - vm_compute. discriminate.
Defined.

(* ===================================================================== *)
(** ** Convergence of a debate                                            *)
(* ===================================================================== *)

(** When the convergence test answers [True] after a round, the debate loop
    stops there: the round counter has been incremented once and no further
    agent is queried. *)
Lemma debate_loop_stops_when_converged
    task rounds_left current_iteration initial_responses all_responses s
    round_responses s1 :
  (current_iteration < max_iterations task)%Z ->
  debate_round task (agents task) current_iteration initial_responses [] s
  = (Ok round_responses, s1) ->
  _check_debate_convergence round_responses initial_responses = Ok true ->
  debate_loop task (S rounds_left) current_iteration initial_responses all_responses s
  = (Ok ((current_iteration + 1)%Z, (all_responses ++ round_responses)%list), s1).
Proof.
  intros Hlt Hround Hconv. simpl.
  apply Z.ltb_lt in Hlt. rewrite Hlt.
  unfold bind at 1. rewrite Hround.
  unfold bind, lift. rewrite Hconv. reflexivity.
Qed.

(** C5 (the code at the failing inputs). First input: three participants
    whose answers have lengths 3, 3, 4 in round 1 and 4, 4, 3 in round 2.
    The mean length goes from 10/3 to 11/3: a relative change of exactly
    10%, which is not below the threshold ([Spec.hasConverged] is false).
    In binary64 the quotient rounds below 0.1, so
    [_check_debate_convergence] answers [True] and the debate stops after
    round 2 of 3 (six calls, no third round). Second input: two participants
    whose round-1 answers are empty. The previous mean length is zero, the
    relative change is undefined ([Spec.hasConverged] is false), and the
    test raises [ZeroDivisionError]: the whole call fails after round 2
    instead of going on to round 3. *)
Theorem debate_convergence_at_ten_percent :
  Qeq (Qdiv (Qabs (Qminus (Spec.exact_mean_length Scenarios.second_round)
                          (Spec.exact_mean_length Scenarios.first_round)))
            (Spec.exact_mean_length Scenarios.first_round))
      (1 # 10)
  /\ Spec.hasConverged Scenarios.second_round Scenarios.first_round = false
  /\ _check_debate_convergence Scenarios.second_round Scenarios.first_round = Ok true
  /\ (total_iterations <$>
        result_to_option
          (fst (start_collaboration (Scenarios.task_for ["p1"; "p2"; "p3"] DEBATE 3 300)
                                    Scenarios.debaters)))
     = Some 2%Z
  /\ map callee
       (calls (snd (start_collaboration (Scenarios.task_for ["p1"; "p2"; "p3"] DEBATE 3 300)
                                        Scenarios.debaters)))
     = ["p1"; "p2"; "p3"; "p1"; "p2"; "p3"]
  /\ Spec.hasConverged Scenarios.second_round Scenarios.silent_round = false
  /\ _check_debate_convergence Scenarios.second_round Scenarios.silent_round
     = Raise ZeroDivisionError
  /\ fst (start_collaboration (Scenarios.task_for ["p1"; "p2"] DEBATE 3 300)
                              Scenarios.late_talkers)
     = Raise ZeroDivisionError
  /\ map callee
       (calls (snd (start_collaboration (Scenarios.task_for ["p1"; "p2"] DEBATE 3 300)
                                        Scenarios.late_talkers)))
     = ["p1"; "p2"; "p1"; "p2"].
Proof. vm_compute. repeat split; reflexivity. Qed.

(* ===================================================================== *)
(** ** Failure isolation in PARALLEL mode                                 *)
(* ===================================================================== *)

Lemma missing_agents_of_nil task s id :
  missing_agents_of task s = [] -> id ∈ agents task -> is_Some (active_agents s !! id).
Proof.
  intros Hmiss Hin. destruct (active_agents s !! id) eqn:Hl; [eauto|].
  assert (H : id ∈ missing_agents_of task s) by (apply missing_agents_of_spec; auto).
  rewrite Hmiss in H. inversion H.
Qed.

Lemma create_agent_tasks_registered ids s :
  (forall id, id ∈ ids -> is_Some (active_agents s !! id)) ->
  create_agent_tasks ids s = (Ok (agent_tasks_of s ids), s)
  /\ map fst (agent_tasks_of s ids) = ids.
Proof.
  induction ids as [|id ids IH]; intros Hreg; simpl; [split; reflexivity|].
  destruct (Hreg id) as [agent Hagent]; [left|].
  destruct IH as [IH1 IH2]; [intros; apply Hreg; right; assumption|].
  unfold bind at 1. unfold lookup_agent.
  unfold agent_tasks_of in *. cbn [omap list_omap].
  rewrite Hagent. unfold bind. rewrite IH1. simpl. rewrite IH2. split; reflexivity.
Qed.

Lemma zip_of_maps {A B C} (f : A -> B) (g : A -> C) (l : list A) :
  zip (map f l) (map g l) = map (fun x => (f x, g x)) l.
Proof. induction l as [|x l IH]; simpl; [reflexivity|]. rewrite IH. reflexivity. Qed.

(** The gather finishes before the timer when the timeout is positive and
    every call is strictly faster than it. *)
Lemma gather_finish_in_time (timeout : Z) (durations : list Z) :
  (0 < timeout)%Z -> Forall (fun d => (d < timeout)%Z) durations ->
  (fold_right Z.max 0 durations < timeout)%Z.
Proof.
  intros Hpos Hall. induction Hall as [|d ds Hd _ IH]; simpl; [exact Hpos|]. lia.
Qed.

(** The fan-in loop: exceptions are logged and skipped, the other outcomes
    become responses, in order; neither the clock nor the calls change. *)
Lemma process_responses_spec data : forall responses s,
  Forall (fun item => forall d, snd item = Returns d -> is_Some (get_content d)) data ->
  exists s',
    process_responses data responses s
    = (Ok (responses ++ responses_at (clock s) data), s')
    /\ calls s' = calls s /\ clock s' = clock s
    /\ active_collaborations s' = active_collaborations s.
Proof.
  induction data as [|[id [d|e]] data IH]; intros responses s Hall; simpl.
  - exists s. rewrite app_nil_r. repeat split.
  - inversion Hall as [|? ? Hd Hrest]; subst.
    destruct (Hd d eq_refl) as [c Hc].
    unfold bind at 1. unfold make_agent_response at 1. rewrite Hc.
    destruct (IH (responses ++ [response_of (clock s) id d]) s Hrest)
      as (s' & Hrun & Hcalls & Hclock & Hcollab).
    exists s'. unfold responses_at in *. cbn [omap list_omap snd fst].
    unfold response_of at 2. unfold response_of at 1 in Hrun. rewrite Hc in *. simpl in *.
    rewrite Hrun, <- app_assoc. repeat split; assumption.
  - inversion Hall as [|? ? _ Hrest]; subst.
    unfold bind at 1. unfold log_error, modify.
    set (s1 := add_log _ s).
    destruct (IH responses s1 Hrest) as (s' & Hrun & Hcalls & Hclock & Hcollab).
    exists s'. unfold responses_at in *. cbn [omap list_omap snd fst].
    rewrite Hrun. repeat split; assumption.
Qed.

(** The fan-in loop stops at the first returned dictionary that has no
    ["content"]: the subscript raises [KeyError]. *)
Lemma process_responses_missing_content data : forall responses s,
  Exists (fun item => exists d, snd item = Returns d /\ get_content d = None) data ->
  exists s',
    process_responses data responses s = (Raise (KeyError "content"), s')
    /\ calls s' = calls s.
Proof.
  induction data as [|[id [d|e]] data IH]; intros responses s Hex; simpl.
  - inversion Hex.
  - unfold bind at 1. unfold make_agent_response at 1.
    destruct (get_content d) as [c|] eqn:Hc; [|exists s; split; reflexivity].
    apply Exists_cons in Hex as [(d' & Hd' & Hnone)|Hex]; [|apply IH; exact Hex].
    simpl in Hd'. injection Hd' as <-. congruence.
  - apply Exists_cons in Hex as [(d' & Hd' & _)|Hex]; [discriminate|].
    unfold bind at 1. unfold log_error, modify.
    destruct (IH responses (add_log (LogError e "parallel_collaboration" id) s) Hex)
      as (s' & Hrun & Hcalls).
    exists s'. split; [exact Hrun|exact Hcalls].
Qed.

Lemma responses_at_ids now data :
  map agent_id (responses_at now data)
  = map fst (List.filter (fun item => match snd item with
                                      | Returns _ => true
                                      | Raises _ => false
                                      end) data).
Proof.
  unfold responses_at.
  induction data as [|[id [d|e]] data IH]; simpl; [reflexivity| |exact IH].
  f_equal. exact IH.
Qed.

Lemma parallel_responses_ids task s :
  map agent_id (parallel_responses task s) = successful_ids task s.
Proof.
  unfold parallel_responses, successful_ids. rewrite responses_at_ids.
  induction (parallel_runs task s) as [|[id run] runs IH]; simpl; [reflexivity|].
  unfold returned at 1. simpl. destruct (outcome run); simpl; rewrite IH; reflexivity.
Qed.

(** The dictionary comprehension has one key per distinct agent id. *)
Lemma responses_by_agent_lookup responses id :
  is_Some (responses_by_agent responses !! id) <-> id ∈ map agent_id responses.
Proof.
  unfold responses_by_agent.
  assert (H : forall (d : gmap string string),
             is_Some (fold_left (fun d r => <[agent_id r := content r]> d) responses d !! id)
             <-> is_Some (d !! id) \/ id ∈ map agent_id responses).
  { induction responses as [|r responses IH]; intros d; simpl.
    - split; [auto|]. intros [H|H]; [exact H|inversion H].
    - rewrite IH, lookup_insert_is_Some, elem_of_cons.
      destruct (decide (agent_id r = id)) as [Heq|Hne]; intuition congruence. }
  rewrite H, lookup_empty. split; [|auto].
  intros [Hsome|Hin]; [|exact Hin]. destruct Hsome as [? Hsome]. discriminate Hsome.
Qed.

Lemma responses_by_agent_size responses :
  NoDup (map agent_id responses) ->
  size (responses_by_agent responses) = length responses.
Proof.
  unfold responses_by_agent.
  assert (H : forall (d : gmap string string),
             NoDup (map agent_id responses) ->
             (forall id, id ∈ map agent_id responses -> d !! id = None) ->
             size (fold_left (fun d r => <[agent_id r := content r]> d) responses d)
             = (size d + length responses)%nat).
  { induction responses as [|r responses IH]; intros d Hnd Hfresh; simpl; [lia|].
    apply NoDup_cons in Hnd as [Hnotin Hnd].
    rewrite IH; [| exact Hnd |].
    - rewrite map_size_insert_None; [lia|]. apply Hfresh. left.
    - intros id Hin. rewrite lookup_insert_ne; [apply Hfresh; right; exact Hin|].
      intros Heq. subst id. contradiction. }
  intros Hnd. rewrite H; [rewrite map_size_empty; reflexivity | exact Hnd |].
  intros. apply lookup_empty.
Qed.

Lemma successful_ids_NoDup task s :
  (forall id, id ∈ agents task -> is_Some (active_agents s !! id)) ->
  NoDup (agents task) -> NoDup (successful_ids task s).
Proof.
  intros Hreg Hnd. unfold successful_ids.
  destruct (create_agent_tasks_registered (agents task) s Hreg) as [_ Hfst].
  assert (Hruns : map fst (parallel_runs task s) = agents task).
  { unfold parallel_runs. rewrite <- Hfst at 2. rewrite map_map. reflexivity. }
  rewrite <- Hruns in Hnd. clear Hruns Hfst.
  induction (parallel_runs task s) as [|run runs IH]; simpl; [constructor|].
  simpl in Hnd. apply NoDup_cons in Hnd as [Hnotin Hnd].
  destruct (returned run); [|apply IH; exact Hnd].
  simpl. apply NoDup_cons. split; [|apply IH; exact Hnd].
  intros Hin. apply Hnotin.
  rewrite list_elem_of_In in *. rewrite in_map_iff in *.
  destruct Hin as (x & Hx & Hin). exists x. split; [exact Hx|].
  apply filter_In in Hin. tauto.
Qed.

Lemma gather_wait_for_in_time agent_tasks q ctx timeout s :
  (0 < timeout)%Z ->
  Forall (fun t => (duration (process_query (snd t) (calls s) q ctx) < timeout)%Z) agent_tasks ->
  exists s',
    gather_wait_for agent_tasks q ctx timeout s
    = (Ok (map (fun t => outcome (process_query (snd t) (calls s) q ctx)) agent_tasks), s')
    /\ clock s' = (clock s + fold_right Z.max 0
                               (map (fun t => duration (process_query (snd t) (calls s) q ctx))
                                    agent_tasks))%Z
    /\ map callee (calls s') = map callee (calls s) ++ map fst agent_tasks.
Proof.
  intros Hpos Hfast. unfold gather_wait_for.
  destruct agent_tasks as [|t ts] eqn:Hts.
  - exists s. simpl. rewrite Z.add_0_r, app_nil_r. repeat split.
  - rewrite <- Hts in *. clear Hts.
    destruct (timeout <=? 0)%Z eqn:Hnonpos; [apply Z.leb_le in Hnonpos; lia|].
    rewrite !map_map.
    assert (Hfinish : (fold_right Z.max 0
                         (map (fun t => duration (process_query (snd t) (calls s) q ctx))
                              agent_tasks) <? timeout)%Z = true).
    { apply Z.ltb_lt, gather_finish_in_time; [exact Hpos|].
      apply Forall_map. exact Hfast. }
    rewrite Hfinish. eexists. split; [reflexivity|]. simpl.
    rewrite map_app, map_map. repeat split.
Qed.

(** C1 (counterexample): two registered participants whose queries both
    raise. [start_collaboration] does not fail: it returns a result
    synthesized from zero responses, with an empty [individual_responses],
    quality 0.0 and consensus 1.0. *)
Lemma all_agents_fail_yet_result_returned :
  map (fun run => outcome (snd run))
      (parallel_runs (Scenarios.task_for ["p1"; "p2"] PARALLEL 3 300) Scenarios.all_failing)
  = [Raises (AgentFailure "e1"); Raises (AgentFailure "e2")]
  /\ result_to_option
       (fst (start_collaboration (Scenarios.task_for ["p1"; "p2"] PARALLEL 3 300)
                                 Scenarios.all_failing))
     = Some {| res_task_id := "task-1";
               res_mode := "parallel";
               synthesized_response :=
                 "Parallel analysis by 0 specialized agents reveals:" ++ nl ++ nl
                 ++ "Unified Conclusion: The parallel analysis provides multiple perspectives that "
                 ++ "collectively address the query: Compare approach X";
               individual_responses := ∅;
               collaboration_quality := 0;
               consensus_score := 1;
               total_iterations := 1;
               participating_agents := [];
               debate_rounds := None;
               key_agreements := None;
               key_disagreements := None;
               consensus_achieved := None |}.
Proof. vm_compute. split; reflexivity. Qed.

(** C1 (amended): in PARALLEL mode, when every participant is registered
    and the fan-out completes before the timeout, a participant whose query
    raises is left out and the others are kept, provided every returned
    dictionary has a ["content"] and the consensus score of the successful
    responses is defined: [start_collaboration] returns a result whose
    [individual_responses] has exactly the successful participants as keys
    (one entry each when the participant ids are distinct), and every
    participant has been called once. This includes the case where every
    query raises: the result is then built from zero responses (no entry,
    quality 0.0, consensus 1.0) instead of an error. A returned dictionary
    without ["content"] is not isolated: the call raises [KeyError]. *)
Theorem parallel_failure_isolation task s :
  mode task = PARALLEL ->
  missing_agents_of task s = [] ->
  (0 < timeout task)%Z ->
  Forall (fun run => (duration (snd run) < timeout task)%Z) (parallel_runs task s) ->
  (Forall (fun run => forall d, outcome (snd run) = Returns d -> is_Some (get_content d))
          (parallel_runs task s) ->
   forall sc,
     _calculate_consensus_score (platform s) (parallel_responses task s) = Ok sc ->
     exists r s',
       start_collaboration task s = (Ok r, s')
       /\ (forall id, is_Some (individual_responses r !! id) <-> id ∈ successful_ids task s)
       /\ participating_agents r = successful_ids task s
       /\ (NoDup (agents task) ->
           size (individual_responses r) = length (successful_ids task s))
       /\ total_iterations r = 1%Z
       /\ map callee (calls s') = map callee (calls s) ++ agents task
       /\ (successful_ids task s = [] ->
           individual_responses r = ∅
           /\ collaboration_quality r = 0%float
           /\ consensus_score r = 1%float))
  /\ (Exists (fun run => exists d, outcome (snd run) = Returns d /\ get_content d = None)
             (parallel_runs task s) ->
      exists s',
        start_collaboration task s = (Raise (KeyError "content"), s')
        /\ map callee (calls s') = map callee (calls s) ++ agents task).
Proof.
  intros Hmode Hmiss Hpos Hfast.
  assert (Hreg : forall id, id ∈ agents task -> is_Some (active_agents s !! id))
    by (intros; eapply missing_agents_of_nil; eassumption).
  rewrite (start_collaboration_route _ _ Hmiss).
  unfold route. rewrite Hmode. cbn [mode_value]. unfold _parallel_collaboration.
  set (s1 := started task s).
  destruct (create_agent_tasks_registered (agents task) s1 Hreg) as [Hcreate Hfst].
  unfold bind at 1. rewrite Hcreate.
  unfold bind at 1. unfold try_except.
  set (ctx := CtxParallel (length (agents task))).
  destruct (gather_wait_for_in_time (agent_tasks_of s1 (agents task)) (query task) ctx
              (timeout task) s1 Hpos) as (s2 & Hgather & Hclock & Hcalls).
  { apply Forall_map in Hfast. exact Hfast. }
  pose proof (zip_of_maps fst
                (fun t => outcome (process_query (snd t) (calls s1) (query task) ctx))
                (agent_tasks_of s1 (agents task))) as Hzip.
  rewrite Hfst in Hzip. rewrite Hgather, Hzip.
  assert (Hplatform : platform s2 = platform s).
  { pose proof (frame_gather platform (fun _ _ => eq_refl) (fun _ _ => eq_refl)
                  (agent_tasks_of s1 (agents task)) (query task) ctx (timeout task) s1)
      as Hframe.
    rewrite Hgather in Hframe. exact Hframe. }
  split.
  - intros Hcontent sc Hscore.
    destruct (process_responses_spec
                (map (fun t => (fst t, outcome (process_query (snd t) (calls s1)
                                                  (query task) ctx)))
                     (agent_tasks_of s1 (agents task))) [] s2)
      as (s3 & Hproc & Hcalls3 & _ & _).
    { apply Forall_map. apply Forall_map in Hcontent. exact Hcontent. }
    unfold bind at 1. rewrite Hproc. rewrite app_nil_l.
    assert (Hplatform3 : platform s3 = platform s).
    { pose proof (frame_process_responses platform (fun _ _ => eq_refl)
                    (map (fun t => (fst t, outcome (process_query (snd t) (calls s1)
                                                      (query task) ctx)))
                         (agent_tasks_of s1 (agents task))) [] s2) as Hframe.
      rewrite Hproc in Hframe. simpl in Hframe. congruence. }
    assert (Hresp : responses_at (clock s2)
                      (map (fun t => (fst t, outcome (process_query (snd t) (calls s1)
                                                        (query task) ctx)))
                           (agent_tasks_of s1 (agents task)))
                    = parallel_responses task s).
    { unfold parallel_responses, gathered_at, parallel_runs. rewrite Hclock, !map_map.
      reflexivity. }
    rewrite Hresp. unfold bind, gets, lift, ret. rewrite Hmode. cbn [mode_value].
    rewrite Hplatform3, Hscore.
    eexists _, _. split; [reflexivity|].
    cbn [individual_responses participating_agents total_iterations
         collaboration_quality consensus_score].
    split; [intros id; rewrite responses_by_agent_lookup, parallel_responses_ids;
            reflexivity|].
    split; [apply parallel_responses_ids|].
    split.
    { intros Hnd. rewrite responses_by_agent_size.
      - rewrite <- parallel_responses_ids, length_map. reflexivity.
      - rewrite parallel_responses_ids. apply successful_ids_NoDup; assumption. }
    split; [reflexivity|].
    split.
    { rewrite calls_completed, Hcalls3, Hcalls, Hfst. reflexivity. }
    intros Hnone. rewrite <- parallel_responses_ids in Hnone.
    destruct (parallel_responses task s); [|discriminate].
    inversion Hscore. repeat split.
  - intros Hmissing.
    destruct (process_responses_missing_content
                (map (fun t => (fst t, outcome (process_query (snd t) (calls s1)
                                                  (query task) ctx)))
                     (agent_tasks_of s1 (agents task))) [] s2)
      as (s3 & Hproc & Hcalls3).
    { unfold parallel_runs in Hmissing.
      apply List.Exists_exists in Hmissing as (run & Hin & d & Hd & Hnone).
      apply in_map_iff in Hin as (t & <- & Ht).
      apply List.Exists_exists.
      exists (fst t, outcome (process_query (snd t) (calls s1) (query task) ctx)).
      split; [apply in_map_iff; exists t; split; [reflexivity|exact Ht]|].
      exists d. split; [exact Hd|exact Hnone]. }
    unfold bind at 1. rewrite Hcreate.
    unfold bind at 1. unfold try_except. rewrite Hgather, Hzip.
    unfold bind at 1. rewrite Hproc.
    eexists. split; [reflexivity|].
    cbn [failed add_log calls]. rewrite Hcalls3, Hcalls, Hfst. reflexivity.
Qed.

Lemma parallel_failure_isolation_witness :
  (exists r s',
      start_collaboration (Scenarios.task_for ["p1"; "p2"; "p3"] PARALLEL 3 300)
                          Scenarios.one_failing = (Ok r, s')
      /\ (forall id, is_Some (individual_responses r !! id) <-> id ∈ ["p1"; "p3"])
      /\ participating_agents r = ["p1"; "p3"]
      /\ (NoDup ["p1"; "p2"; "p3"] -> size (individual_responses r) = 2%nat)
      /\ total_iterations r = 1%Z
      /\ map callee (calls s') = ["p1"; "p2"; "p3"]
      /\ (["p1"; "p3"] = [] ->
          individual_responses r = ∅
          /\ collaboration_quality r = 0%float
          /\ consensus_score r = 1%float))
  /\ (exists s',
        start_collaboration (Scenarios.task_for ["p1"; "p2"] PARALLEL 3 300)
                            Scenarios.one_speechless
        = (Raise (KeyError "content"), s')
        /\ map callee (calls s') = ["p1"; "p2"]).
Proof.
  split.
  - refine (proj1 (parallel_failure_isolation
                     (Scenarios.task_for ["p1"; "p2"; "p3"] PARALLEL 3 300)
                     Scenarios.one_failing eq_refl _ _ _) _ 1%float _).
    + vm_compute. reflexivity.
    + reflexivity.
    + repeat constructor.
    + repeat constructor; simpl; try discriminate; intros d [= <-]; simpl; eauto.
    + vm_compute. reflexivity.
  - refine (proj2 (parallel_failure_isolation
                     (Scenarios.task_for ["p1"; "p2"] PARALLEL 3 300)
                     Scenarios.one_speechless eq_refl _ _ _) _).
    + vm_compute. reflexivity.
    + reflexivity.
    + repeat constructor.
    + apply Exists_cons_tl. apply Exists_cons_hd. eexists. split; reflexivity.
Defined.
(* ===================================================================== *)
(** ** The table and the registry after a run                             *)
(* ===================================================================== *)

(** The final state of [start_collaboration], by cases. *)
Lemma start_collaboration_final task s :
  snd (start_collaboration task s)
  = match missing_agents_of task s with
    | [] => match mode_value (mode task) with
            | Ok _ => match route task (started task s) with
                      | (Ok _, s') => completed task s'
                      | (Raise e, s') => failed task e s'
                      end
            | Raise e => failed task e (enter_collaboration task s)
            end
    | m :: ms =>
      failed task (ValueError (AgentsNotAvailable (m :: ms))) (enter_collaboration task s)
    end.
Proof.
  destruct (missing_agents_of task s) as [|m ms] eqn:Hmiss.
  - rewrite (start_collaboration_route _ _ Hmiss).
    destruct (mode_value (mode task)) as [value|e0]; [|reflexivity].
    destruct (route task (started task s)) as [[r|e] s']; reflexivity.
  - rewrite (start_collaboration_missing _ _ _ _ Hmiss). reflexivity.
Qed.

(** X2: a run never changes the agent registry, whatever the mode and
    whether it returns or raises. *)
Theorem start_collaboration_keeps_registry task s :
  active_agents (snd (start_collaboration task s)) = active_agents s.
Proof.
  rewrite start_collaboration_final.
  destruct (missing_agents_of task s) as [|m ms]; [|reflexivity].
  destruct (mode_value (mode task)) as [value|e0]; [|reflexivity].
  pose proof (frame_route active_agents (fun _ _ => eq_refl) (fun _ _ => eq_refl)
                (fun _ _ => eq_refl) task (started task s)) as Hframe.
  destruct (route task (started task s)) as [[r|e] s']; simpl in Hframe.
  - unfold completed. destruct (bool_decide _); simpl; exact Hframe.
  - exact Hframe.
Qed.

(** X1: when a run returns, its task id has been removed from
    [active_collaborations] (an older entry under the same id goes with
    it), and every other entry is as before. *)
Theorem successful_collaboration_is_removed task s r s' :
  start_collaboration task s = (Ok r, s') ->
  get_active_collaborations s' = delete (task_id task) (active_collaborations s).
Proof.
  intros Hrun. apply start_collaboration_ok_inv in Hrun as (s1 & Hroute & ->).
  pose proof (keeps_dispatch task (started task s)) as Hkeep.
  fold (route task) in Hkeep. rewrite Hroute in Hkeep. simpl in Hkeep.
  assert (Hs1 : active_collaborations s1
                = <[task_id task := task]> (active_collaborations s)) by exact Hkeep.
  unfold get_active_collaborations, completed.
  rewrite bool_decide_eq_true_2 by (rewrite Hs1, lookup_insert_eq; eauto).
  cbn [add_log set_active_collaborations active_collaborations].
  rewrite Hs1. apply delete_insert_eq.
Qed.

Lemma successful_collaboration_is_removed_witness :
  get_active_collaborations
    (snd (start_collaboration (Scenarios.task_for ["p1"; "p2"] PARALLEL 3 300)
                              Scenarios.two_agree))
  = delete "task-1" (active_collaborations Scenarios.two_agree).
Proof.
  refine (successful_collaboration_is_removed
            (Scenarios.task_for ["p1"; "p2"] PARALLEL 3 300) Scenarios.two_agree
            _ _ _).
  vm_compute. reflexivity.
Defined.

(* ===================================================================== *)
(** ** Modes outside the enum                                             *)
(* ===================================================================== *)

(** X3: a task whose mode is not one of the four members of
    [CollaborationMode] passes the registry check and is then refused; no
    agent has been queried and the clock has not moved. An object without
    an attribute [value] (a plain string, [None]) fails with
    [AttributeError] where the arguments of the ["collaboration_started"]
    entry are built, before the entry is written and before the dispatch. An
    object with one (a member of the enum of [agent_domain.py]) is logged as
    started and reaches the [else] branch: the "Unsupported collaboration
    mode" error, with the text of the object. Either way the error is
    logged. *)
Theorem unsupported_mode_is_refused task s value text :
  mode task = OtherMode value text ->
  missing_agents_of task s = [] ->
  exists e s',
    start_collaboration task s = (Raise e, s')
    /\ calls s' = calls s
    /\ clock s' = clock s
    /\ match value with
       | None =>
         e = AttributeError "value"
         /\ log s' = log s ++ [LogError e "start_collaboration" (task_id task)]
       | Some _ =>
         e = ValueError (UnsupportedMode text)
         /\ log s' = log s ++ [LogEvent "collaboration_started" (task_id task);
                               LogError e "start_collaboration" (task_id task)]
       end.
Proof.
  intros Hmode Hmiss. rewrite (start_collaboration_route _ _ Hmiss).
  unfold route. rewrite Hmode. destruct value as [v|]; cbn [mode_value].
  - eexists _, _. split; [reflexivity|]. split; [reflexivity|]. split; [reflexivity|].
    split; [reflexivity|]. cbn. rewrite <- app_assoc. reflexivity.
  - eexists _, _. split; [reflexivity|]. split; [reflexivity|]. split; [reflexivity|].
    split; reflexivity.
Qed.

Lemma unsupported_mode_is_refused_witness :
  (exists e s',
      start_collaboration
        (Scenarios.task_for ["p1"; "p2"] (OtherMode None "sequential") 3 300)
        Scenarios.two_agree
      = (Raise e, s')
      /\ calls s' = []
      /\ clock s' = 0%Z
      /\ e = AttributeError "value"
      /\ log s' = [LogError e "start_collaboration" "task-1"])
  /\ (exists e s',
        start_collaboration
          (Scenarios.task_for ["p1"; "p2"]
             (OtherMode (Some "sequential") "CollaborationMode.SEQUENTIAL") 3 300)
          Scenarios.two_agree
        = (Raise e, s')
        /\ calls s' = []
        /\ clock s' = 0%Z
        /\ e = ValueError (UnsupportedMode "CollaborationMode.SEQUENTIAL")
        /\ log s' = [LogEvent "collaboration_started" "task-1";
                     LogError e "start_collaboration" "task-1"]).
Proof.
  split.
  - apply (unsupported_mode_is_refused
             (Scenarios.task_for ["p1"; "p2"] (OtherMode None "sequential") 3 300)
             Scenarios.two_agree None "sequential").
    + reflexivity.
    + vm_compute. reflexivity.
  - apply (unsupported_mode_is_refused
             (Scenarios.task_for ["p1"; "p2"]
                (OtherMode (Some "sequential") "CollaborationMode.SEQUENTIAL") 3 300)
             Scenarios.two_agree (Some "sequential") "CollaborationMode.SEQUENTIAL").
    + reflexivity.
    + vm_compute. reflexivity.
Defined.

(* ===================================================================== *)
(** ** Unregistering                                                      *)
(* ===================================================================== *)

Lemma unregister_agent_absent agent_id s :
  active_agents s !! agent_id = None -> unregister_agent agent_id s = (Ok tt, s).
Proof.
  intros Habsent. unfold unregister_agent, bind, gets.
  rewrite bool_decide_eq_false_2; [reflexivity|].
  rewrite Habsent. intros [? [=]].
Qed.

Lemma unregister_agent_registry agent_id s :
  active_agents (snd (unregister_agent agent_id s)) = delete agent_id (active_agents s).
Proof.
  unfold unregister_agent, bind, gets.
  destruct (bool_decide (is_Some (active_agents s !! agent_id))) eqn:Hreg; simpl.
  - reflexivity.
  - apply bool_decide_eq_false in Hreg. symmetry. apply delete_id.
    apply eq_None_not_Some. exact Hreg.
Qed.

(** X11: [unregister_agent] removes the id and nothing else; on an id that
    is not registered it changes nothing at all, not even the log, so it is
    idempotent; and it undoes the registration of a fresh id. *)
Theorem unregister_agent_round_trip agent_id s :
  active_agents (snd (unregister_agent agent_id s)) = delete agent_id (active_agents s)
  /\ (active_agents s !! agent_id = None -> unregister_agent agent_id s = (Ok tt, s))
  /\ unregister_agent agent_id (snd (unregister_agent agent_id s))
     = (Ok tt, snd (unregister_agent agent_id s))
  /\ (forall agent,
        active_agents s !! agent_id = None ->
        active_agents (snd (unregister_agent agent_id (snd (register_agent agent_id agent s))))
        = active_agents s).
Proof.
  split; [apply unregister_agent_registry|].
  split; [apply unregister_agent_absent|].
  split.
  - apply unregister_agent_absent. rewrite unregister_agent_registry.
    apply lookup_delete_eq.
  - intros agent Hfresh. rewrite unregister_agent_registry. simpl.
    rewrite delete_insert_eq. apply delete_id. exact Hfresh.
Qed.

Lemma unregister_agent_round_trip_witness :
  active_agents
    (snd (unregister_agent "p3"
            (snd (register_agent "p3" (Scenarios.replies "C" 0.7 1) Scenarios.two_agree))))
  = active_agents Scenarios.two_agree.
Proof.
  apply (proj2 (proj2 (proj2 (unregister_agent_round_trip "p3" Scenarios.two_agree)))).
  vm_compute. reflexivity.
Defined.

(** X12: once an agent is unregistered, every task that names it is
    rejected by the registry check: the error lists the id and no agent is
    queried. *)
Theorem unregistered_agent_blocks_collaboration agent_id task s :
  agent_id ∈ agents task ->
  exists missing s',
    start_collaboration task (snd (unregister_agent agent_id s))
    = (Raise (ValueError (AgentsNotAvailable missing)), s')
    /\ agent_id ∈ missing
    /\ calls s' = calls s.
Proof.
  intros Hin. set (s0 := snd (unregister_agent agent_id s)).
  assert (Hmissing : agent_id ∈ missing_agents_of task s0).
  { apply missing_agents_of_spec. split; [exact Hin|].
    unfold s0. rewrite unregister_agent_registry. apply lookup_delete_eq. }
  assert (Hcalls : calls s0 = calls s).
  { unfold s0, unregister_agent, bind, gets.
    destruct (bool_decide _); reflexivity. }
  destruct (missing_agents_of task s0) as [|m ms] eqn:Hmiss; [inversion Hmissing|].
  eexists (m :: ms), _. split; [apply start_collaboration_missing; exact Hmiss|].
  split; [exact Hmissing|]. exact Hcalls.
Qed.

Lemma unregistered_agent_blocks_collaboration_witness :
  exists missing s',
    start_collaboration (Scenarios.task_for ["p1"; "p2"] SEQUENTIAL 3 300)
                        (snd (unregister_agent "p2" Scenarios.two_agree))
    = (Raise (ValueError (AgentsNotAvailable missing)), s')
    /\ "p2" ∈ missing
    /\ calls s' = calls Scenarios.two_agree.
Proof.
  apply (unregistered_agent_blocks_collaboration
           "p2" (Scenarios.task_for ["p1"; "p2"] SEQUENTIAL 3 300) Scenarios.two_agree).
  right. left.
Defined.

(* ===================================================================== *)
(** ** An empty participant list                                          *)
(* ===================================================================== *)

Lemma debate_loop_without_agents task rounds_left :
  agents task = [] ->
  forall current_iteration s,
    exists final_iteration,
      debate_loop task rounds_left current_iteration [] [] s = (Ok (final_iteration, []), s).
Proof.
  intros Hnone. induction rounds_left as [|n IH]; intros it s; cbn [debate_loop].
  - eexists. reflexivity.
  - destruct (it <? max_iterations task)%Z; [|eexists; reflexivity].
    rewrite Hnone. cbn [debate_round]. unfold bind at 1. unfold ret at 1.
    unfold bind at 1. unfold lift at 1. cbn [_check_debate_convergence app].
    apply IH.
Qed.

Lemma consensus_loop_without_responses task rounds_left current_iteration s :
  consensus_loop task rounds_left current_iteration [] [] s
  = (Ok (current_iteration, [], []), s).
Proof.
  apply (consensus_loop_exits_on_consensus _ _ _ _ _ _ 1%float); reflexivity.
Qed.

(** X8: with an empty participant list nothing is rejected up front and no
    agent is queried. SEQUENTIAL, PARALLEL and CONSENSUS return a result
    built from zero responses (no entry, quality 0.0, consensus 1.0, one
    iteration); DEBATE raises [ZeroDivisionError], whatever
    [max_iterations] is, when it counts the rounds for its summary. *)
Theorem empty_participant_list task s :
  agents task = [] ->
  calls (snd (start_collaboration task s)) = calls s
  /\ (mode task = DEBATE -> fst (start_collaboration task s) = Raise ZeroDivisionError)
  /\ (mode task = SEQUENTIAL \/ mode task = PARALLEL \/ mode task = CONSENSUS ->
      exists r,
        fst (start_collaboration task s) = Ok r
        /\ individual_responses r = ∅
        /\ participating_agents r = []
        /\ collaboration_quality r = 0%float
        /\ consensus_score r = 1%float
        /\ total_iterations r = 1%Z).
Proof.
  intros Hnone.
  assert (Hmiss : missing_agents_of task s = [])
    by (unfold missing_agents_of; rewrite Hnone; reflexivity).
  rewrite (start_collaboration_route _ _ Hmiss).
  destruct (route task (started task s)) as [res s1] eqn:Hroute.
  unfold route in Hroute.
  destruct (mode task) as [| | | |value text] eqn:Hmode; cbn [mode_value].
  - (* SEQUENTIAL *)
    unfold _sequential_collaboration in Hroute. rewrite Hnone, Hmode in Hroute.
    cbn [sequential_loop mode_value] in Hroute. unfold bind, ret, gets, lift in Hroute.
    cbn [_calculate_consensus_score length Nat.ltb Nat.leb] in Hroute.
    injection Hroute as <- <-. cbn [fst snd].
    split; [rewrite calls_completed; reflexivity|]. split; [discriminate|].
    intros _. eexists. split; [reflexivity|]. repeat split.
  - (* PARALLEL *)
    unfold _parallel_collaboration in Hroute. rewrite Hnone, Hmode in Hroute.
    cbn [create_agent_tasks] in Hroute.
    repeat (progress (unfold bind, ret, gets, lift, try_except in Hroute;
                      cbn [gather_wait_for zip zip_with process_responses mode_value
                           _calculate_consensus_score length Nat.ltb Nat.leb] in Hroute)).
    injection Hroute as <- <-. cbn [fst snd].
    split; [rewrite calls_completed; reflexivity|]. split; [discriminate|].
    intros _. eexists. split; [reflexivity|]. repeat split.
  - (* DEBATE *)
    unfold _debate_collaboration in Hroute. rewrite Hnone in Hroute.
    cbn [debate_initial_round] in Hroute.
    unfold bind at 1 in Hroute. cbv beta iota delta [ret] in Hroute.
    unfold bind at 1 in Hroute.
    destruct (debate_loop_without_agents task
                (Z.to_nat (max_iterations task - 1)) Hnone 1%Z (started task s))
      as [final Hloop].
    rewrite Hloop in Hroute.
    unfold bind, lift, _synthesize_debate_responses in Hroute. rewrite Hnone in Hroute.
    injection Hroute as <- <-. cbn [fst snd].
    split; [reflexivity|]. split; [reflexivity|].
    intros [H|[H|H]]; discriminate H.
  - (* CONSENSUS *)
    unfold _consensus_collaboration in Hroute. rewrite Hnone, Hmode in Hroute.
    cbn [consensus_initial_round] in Hroute.
    unfold bind at 1 in Hroute. cbv beta iota delta [ret] in Hroute.
    unfold bind at 1 in Hroute.
    rewrite consensus_loop_without_responses in Hroute.
    unfold bind, gets, lift, _synthesize_consensus_responses in Hroute.
    cbn [_calculate_consensus_score mode_value length Nat.ltb Nat.leb] in Hroute.
    cbv beta iota delta [ret] in Hroute.
    injection Hroute as <- <-. cbn [fst snd].
    split; [rewrite calls_completed; reflexivity|]. split; [discriminate|].
    intros _. eexists. split; [reflexivity|]. repeat split.
  - (* another mode *)
    destruct value as [v|]; cbn [mode_value].
    + injection Hroute as <- <-. cbn [fst snd].
      split; [reflexivity|]. split; [discriminate|].
      intros [H|[H|H]]; discriminate H.
    + cbn [fst snd].
      split; [reflexivity|]. split; [discriminate|].
      intros [H|[H|H]]; discriminate H.
Qed.

Lemma empty_participant_list_witness :
  calls (snd (start_collaboration (Scenarios.task_for [] DEBATE 5 300) Scenarios.two_agree))
  = []
  /\ fst (start_collaboration (Scenarios.task_for [] DEBATE 5 300) Scenarios.two_agree)
     = Raise ZeroDivisionError.
Proof.
  destruct (empty_participant_list (Scenarios.task_for [] DEBATE 5 300)
                                   Scenarios.two_agree eq_refl) as (Hcalls & Hdebate & _).
  split; [exact Hcalls | exact (Hdebate eq_refl)].
Defined.

(* ===================================================================== *)
(** ** The timeout of the parallel fan-out                                *)
(* ===================================================================== *)

Lemma gather_finish_late (timeout d : Z) (durations : list Z) :
  d ∈ durations -> (timeout <= d)%Z -> (timeout <= fold_right Z.max 0 durations)%Z.
Proof.
  intros Hin Hlate. induction durations as [|x xs IH]; [inversion Hin|].
  simpl. apply elem_of_cons in Hin as [->|Hin]; [lia|]. specialize (IH Hin). lia.
Qed.

Lemma gather_wait_for_nonempty agent_tasks q ctx timeout s :
  agent_tasks <> [] ->
  gather_wait_for agent_tasks q ctx timeout s
  = if (timeout <=? 0)%Z then (Raise TimeoutError, s)
    else
      let runs := map (fun t => process_query (snd t) (calls s) q ctx) agent_tasks in
      let started :=
        add_calls (map (fun t => {| callee := fst t; prompt := q; context := ctx |})
                       agent_tasks) s in
      let finish := fold_right Z.max 0%Z (map duration runs) in
      if (finish <? timeout)%Z
      then (Ok (map outcome runs), advance_clock finish started)
      else (Raise TimeoutError, advance_clock timeout started).
Proof. intros Hne. destruct agent_tasks; [contradiction|reflexivity]. Qed.

(** X9: in PARALLEL mode, with at least one participant, the call fails
    with the "Collaboration timed out" error as soon as one query takes at
    least [timeout] seconds, even if every other query has answered: every
    participant has been called, exactly [timeout] seconds have passed and
    no partial result is returned. With a timeout of zero or less it fails
    the same way before any agent is called. *)
Theorem parallel_timeout task s :
  mode task = PARALLEL ->
  missing_agents_of task s = [] ->
  agents task <> [] ->
  ((timeout task <= 0)%Z
   \/ exists run, run ∈ parallel_runs task s /\ (timeout task <= duration (snd run))%Z) ->
  fst (start_collaboration task s) = Raise (ValueError (CollaborationTimedOut (timeout task)))
  /\ ((0 < timeout task)%Z ->
      clock (snd (start_collaboration task s)) = (clock s + timeout task)%Z
      /\ map callee (calls (snd (start_collaboration task s)))
         = map callee (calls s) ++ agents task)
  /\ ((timeout task <= 0)%Z ->
      clock (snd (start_collaboration task s)) = clock s
      /\ calls (snd (start_collaboration task s)) = calls s).
Proof.
  intros Hmode Hmiss Hsome Hlate.
  assert (Hreg : forall id, id ∈ agents task -> is_Some (active_agents s !! id))
    by (intros; eapply missing_agents_of_nil; eassumption).
  rewrite (start_collaboration_route _ _ Hmiss), Hmode. cbn [mode_value].
  destruct (route task (started task s)) as [res s2] eqn:Hroute.
  unfold route in Hroute. rewrite Hmode in Hroute.
  unfold _parallel_collaboration in Hroute.
  set (s1 := started task s) in *.
  destruct (create_agent_tasks_registered (agents task) s1 Hreg) as [Hcreate Hfst].
  unfold bind at 1 in Hroute. rewrite Hcreate in Hroute.
  unfold bind at 1 in Hroute. unfold try_except in Hroute.
  rewrite gather_wait_for_nonempty in Hroute
    by (intros Hempty; rewrite Hempty in Hfst; simpl in Hfst; congruence).
  cbv zeta in Hroute.
  destruct (timeout task <=? 0)%Z eqn:Hnonpos.
  - apply Z.leb_le in Hnonpos. injection Hroute as <- <-. cbn [fst snd].
    split; [reflexivity|]. split; [lia|]. intros _. split; reflexivity.
  - apply Z.leb_gt in Hnonpos.
    destruct Hlate as [Hlate|(run & Hin & Hlate)]; [lia|].
    rewrite !map_map in Hroute.
    assert (Hfinish : (fold_right Z.max 0
                         (map (fun t => duration (process_query (snd t) (calls s1)
                                                    (query task)
                                                    (CtxParallel (length (agents task)))))
                              (agent_tasks_of s1 (agents task)))
                       <? timeout task)%Z = false).
    { apply Z.ltb_ge. eapply gather_finish_late; [|exact Hlate].
      unfold parallel_runs in Hin. apply list_elem_of_fmap in Hin as (t & -> & Hin).
      apply list_elem_of_fmap. exists t. split; [reflexivity|exact Hin]. }
    rewrite Hfinish in Hroute. injection Hroute as <- <-. cbn [fst snd].
    split; [reflexivity|].
    split; [|lia]. intros _. split; [reflexivity|].
    cbn [failed add_log advance_clock add_calls calls].
    rewrite map_app, map_map. cbn [callee]. f_equal. exact Hfst.
Qed.

Lemma parallel_timeout_witness :
  fst (start_collaboration (Scenarios.task_for ["p1"; "p2"] PARALLEL 3 5) Cases.one_slow)
  = Raise (ValueError (CollaborationTimedOut 5))
  /\ clock (snd (start_collaboration (Scenarios.task_for ["p1"; "p2"] PARALLEL 3 5)
                                     Cases.one_slow)) = 5%Z.
Proof.
  destruct (parallel_timeout (Scenarios.task_for ["p1"; "p2"] PARALLEL 3 5)
                             Cases.one_slow) as (Hfail & Hlate & _).
  - reflexivity.
  - vm_compute. reflexivity.
  - discriminate.
  - right. exists ("p2", process_query (Scenarios.replies "B" 0.7 10) [] "Compare approach X"
                           (CtxParallel 2)).
    split; [vm_compute; right; left | simpl; lia].
  - split; [exact Hfail|]. apply Hlate. reflexivity.
Defined.

(* ===================================================================== *)
(** ** The calls of a sequential run                                      *)
(* ===================================================================== *)

Lemma length_last_n {A} (n : nat) (l : list A) : length (last_n n l) = Nat.min n (length l) \/ n = 0%nat.
Proof.
  destruct n as [|n]; [right; reflexivity|left].
  unfold last_n. rewrite length_drop. lia.
Qed.

Lemma await_process_query_calls id agent q ctx s r s' :
  await_process_query id agent q ctx s = (r, s') ->
  calls s' = calls s ++ [{| callee := id; prompt := q; context := ctx |}].
Proof.
  unfold await_process_query.
  destruct (outcome (process_query agent (calls s) q ctx)); intros H; injection H as <- <-;
    reflexivity.
Qed.

Lemma make_agent_response_inv id d s r s' :
  make_agent_response id d s = (r, s') ->
  s' = s /\ forall response, r = Ok response -> agent_id response = id.
Proof.
  unfold make_agent_response. destruct (get_content d); intros H; injection H as <- <-.
  - split; [reflexivity|]. intros response H. injection H as <-. reflexivity.
  - split; [reflexivity|]. discriminate.
Qed.

Lemma lookup_agent_inv id s r s' : lookup_agent id s = (r, s') -> s' = s.
Proof.
  unfold lookup_agent. destruct (active_agents s !! id); intros H; injection H as <- <-;
    reflexivity.
Qed.

(** The calls issued by the sequential loop: a prefix of the participants,
    in order; all of them when the loop returns; the [j]-th call carries the
    position and the last three responses at most. *)
Lemma sequential_loop_trace task ids : forall i responses current_context s r s',
  length responses = i ->
  sequential_loop task ids i responses current_context s = (r, s') ->
  exists cs,
    calls s' = calls s ++ cs
    /\ (exists k, map callee cs = take k ids)
    /\ (forall rs, r = Ok rs ->
          map callee cs = ids /\ map agent_id rs = map agent_id responses ++ ids)
    /\ (forall j c, cs !! j = Some c ->
          exists prev,
            context c = CtxSequential (i + j + 1) (length (agents task)) prev
            /\ length prev = Nat.min 3 (i + j)
            /\ ids !! j = Some (callee c)).
Proof.
  induction ids as [|id ids IH]; intros i responses cc s r s' Hlen; cbn [sequential_loop].
  - intros H. injection H as <- <-. exists []. rewrite app_nil_r.
    split; [reflexivity|]. split; [exists 0%nat; reflexivity|].
    split; [intros rs H; injection H as <-; rewrite app_nil_r; split; reflexivity|].
    intros j c H. destruct j; discriminate H.
  - unfold bind at 1.
    destruct (lookup_agent id s) as [[agent|e] s0] eqn:Hlookup.
    2:{ apply lookup_agent_inv in Hlookup as ->. intros H. injection H as <- <-.
        exists []. rewrite app_nil_r. split; [reflexivity|].
        split; [exists 0%nat; reflexivity|]. split; [discriminate|].
        intros j c H. destruct j; discriminate H. }
    apply lookup_agent_inv in Hlookup as ->.
    unfold bind at 1.
    set (ctx := CtxSequential (i + 1) (length (agents task)) (last_n 3 responses)).
    destruct (await_process_query id agent cc ctx s) as [[d|e] s1] eqn:Hawait;
      apply await_process_query_calls in Hawait.
    2:{ intros H. injection H as <- <-.
        eexists. split; [exact Hawait|].
        split; [exists 1%nat; reflexivity|]. split; [discriminate|].
        intros j c H. destruct j as [|j]; [|destruct j; discriminate H].
        injection H as <-. exists (last_n 3 responses).
        split; [unfold ctx; cbn [context]; f_equal; lia|].
        split; [destruct (length_last_n 3 responses) as [Hl|Hl]; [rewrite Hl|]; lia|].
        reflexivity. }
    unfold bind at 1.
    destruct (make_agent_response id d s1) as [[resp|e] s2] eqn:Hmake;
      apply make_agent_response_inv in Hmake as [-> Hid].
    2:{ intros H. injection H as <- <-.
        eexists. split; [exact Hawait|].
        split; [exists 1%nat; reflexivity|]. split; [discriminate|].
        intros j c H. destruct j as [|j]; [|destruct j; discriminate H].
        injection H as <-. exists (last_n 3 responses).
        split; [unfold ctx; cbn [context]; f_equal; lia|].
        split; [destruct (length_last_n 3 responses) as [Hl|Hl]; [rewrite Hl|]; lia|].
        reflexivity. }
    specialize (Hid resp eq_refl).
    intros Hrest.
    apply IH in Hrest as (cs & Hcalls & [k Hk] & Hok & Hctx);
      [|rewrite length_app; simpl; lia].
    exists ({| callee := id; prompt := cc; context := ctx |} :: cs).
    split; [rewrite Hcalls, Hawait, <- app_assoc; reflexivity|].
    split; [exists (S k); simpl; rewrite Hk; reflexivity|].
    split.
    { intros rs Hrs. destruct (Hok rs Hrs) as [Hc Hr]. split; [simpl; rewrite Hc; reflexivity|].
      rewrite Hr, map_app, <- app_assoc. simpl. rewrite Hid. reflexivity. }
    intros j c H. destruct j as [|j].
    + injection H as <-. exists (last_n 3 responses).
      split; [unfold ctx; cbn [context]; f_equal; lia|].
      split; [destruct (length_last_n 3 responses) as [Hl|Hl]; [rewrite Hl|]; lia|].
      reflexivity.
    + destruct (Hctx j c H) as (prev & Hc & Hl & Hj).
      exists prev. split; [rewrite Hc; f_equal; lia|].
      split; [rewrite Hl; f_equal; lia|exact Hj].
Qed.

(** The calls of a whole sequential run. *)
Lemma sequential_run_trace task s :
  mode task = SEQUENTIAL ->
  exists cs,
    calls (snd (start_collaboration task s)) = calls s ++ cs
    /\ (exists k, map callee cs = take k (agents task))
    /\ (forall r, fst (start_collaboration task s) = Ok r ->
          map callee cs = agents task
          /\ participating_agents r = agents task
          /\ total_iterations r = 1%Z
          /\ forall id, is_Some (individual_responses r !! id) <-> id ∈ agents task)
    /\ (forall j c, cs !! j = Some c ->
          exists prev,
            context c = CtxSequential (j + 1) (length (agents task)) prev
            /\ length prev = Nat.min 3 j
            /\ agents task !! j = Some (callee c)).
Proof.
  intros Hmode.
  destruct (missing_agents_of task s) as [|m ms] eqn:Hmiss.
  2:{ rewrite (start_collaboration_missing _ _ _ _ Hmiss). cbn [fst snd].
      exists []. rewrite app_nil_r. split; [reflexivity|].
      split; [exists 0%nat; reflexivity|]. split; [discriminate|].
      intros j c H. destruct j; discriminate H. }
  rewrite (start_collaboration_route _ _ Hmiss), Hmode. cbn [mode_value].
  destruct (route task (started task s)) as [res s2] eqn:Hroute.
  unfold route in Hroute. rewrite Hmode in Hroute.
  unfold _sequential_collaboration in Hroute. unfold bind at 1 in Hroute.
  destruct (sequential_loop task (agents task) 0 [] (query task) (started task s))
    as [loop s1] eqn:Hloop.
  apply sequential_loop_trace in Hloop as (cs & Hcalls & Hk & Hok & Hctx); [|reflexivity].
  exists cs.
  assert (Hs2 : calls s2 = calls s ++ cs /\
                (forall r, res = Ok r ->
                   map callee cs = agents task
                   /\ participating_agents r = agents task
                   /\ total_iterations r = 1%Z
                   /\ forall id, is_Some (individual_responses r !! id) <-> id ∈ agents task)).
  { destruct loop as [rs|e].
    - destruct (Hok rs eq_refl) as [Hc Hids]. simpl in Hids.
      rewrite Hmode in Hroute. cbn [mode_value] in Hroute.
      unfold bind, gets, lift, ret in Hroute.
      destruct (_calculate_consensus_score (platform s1) rs); injection Hroute as <- <-.
      + split; [exact Hcalls|]. intros r Hr. injection Hr as <-. cbn.
        split; [exact Hc|]. split; [reflexivity|]. split; [reflexivity|].
        intros id. rewrite responses_by_agent_lookup, Hids. reflexivity.
      + split; [exact Hcalls|]. discriminate.
    - injection Hroute as <- <-. split; [exact Hcalls|]. discriminate. }
  destruct Hs2 as [Hs2 Hres].
  split.
  { destruct res; cbn [snd]; [rewrite calls_completed|]; exact Hs2. }
  split; [exact Hk|].
  split.
  { destruct res as [r0|e]; cbn [fst]; [|discriminate]. intros r Hr. apply Hres. exact Hr. }
  intros j c H. destruct (Hctx j c H) as (prev & Hc & Hl & Hj).
  exists prev. repeat split; assumption.
Qed.

(** X4: in SEQUENTIAL mode the agents are queried one after the other in
    [task.agents] order, and only a prefix of them when the run stops
    early. When the run returns, every participant has been queried exactly
    once, the result reports one iteration, all participants as
    participating, and exactly the participants as keys of
    [individual_responses]. *)
Theorem sequential_queries_in_order task s :
  mode task = SEQUENTIAL ->
  exists cs k,
    calls (snd (start_collaboration task s)) = calls s ++ cs
    /\ map callee cs = take k (agents task)
    /\ (forall r, fst (start_collaboration task s) = Ok r ->
          map callee cs = agents task
          /\ participating_agents r = agents task
          /\ total_iterations r = 1%Z
          /\ forall id, is_Some (individual_responses r !! id) <-> id ∈ agents task).
Proof.
  intros Hmode.
  destruct (sequential_run_trace task s Hmode) as (cs & Hcalls & [k Hk] & Hok & _).
  exists cs, k. split; [exact Hcalls|]. split; [exact Hk|]. exact Hok.
Qed.

Lemma sequential_queries_in_order_witness :
  exists cs k,
    calls (snd (start_collaboration (Scenarios.task_for ["p1"; "p2"; "p3"] SEQUENTIAL 3 300)
                                    Scenarios.one_failing))
    = calls Scenarios.one_failing ++ cs
    /\ map callee cs = take k ["p1"; "p2"; "p3"]
    /\ (forall r,
          fst (start_collaboration (Scenarios.task_for ["p1"; "p2"; "p3"] SEQUENTIAL 3 300)
                                   Scenarios.one_failing) = Ok r ->
          map callee cs = ["p1"; "p2"; "p3"]
          /\ participating_agents r = ["p1"; "p2"; "p3"]
          /\ total_iterations r = 1%Z
          /\ forall id, is_Some (individual_responses r !! id) <-> id ∈ ["p1"; "p2"; "p3"]).
Proof.
  exact (sequential_queries_in_order
           (Scenarios.task_for ["p1"; "p2"; "p3"] SEQUENTIAL 3 300)
           Scenarios.one_failing eq_refl).
Defined.

(** X5: in SEQUENTIAL mode the context handed to the [j]-th agent queried
    (counting from 0) announces position [j + 1] of [len(task.agents)] and
    carries the last three earlier responses at most: [min(3, j)] of them,
    never the whole history. *)
Theorem sequential_context_is_bounded task s :
  mode task = SEQUENTIAL ->
  exists cs,
    calls (snd (start_collaboration task s)) = calls s ++ cs
    /\ forall j c, cs !! j = Some c ->
         exists prev,
           context c = CtxSequential (j + 1) (length (agents task)) prev
           /\ length prev = Nat.min 3 j
           /\ agents task !! j = Some (callee c).
Proof.
  intros Hmode.
  destruct (sequential_run_trace task s Hmode) as (cs & Hcalls & _ & _ & Hctx).
  exists cs. split; assumption.
Qed.

Lemma sequential_context_is_bounded_witness :
  exists cs,
    calls (snd (start_collaboration (Scenarios.task_for Scenarios.eleven_ids SEQUENTIAL 3 300)
                                    Scenarios.eleven_agents))
    = calls Scenarios.eleven_agents ++ cs
    /\ forall j c, cs !! j = Some c ->
         exists prev,
           context c = CtxSequential (j + 1) (length Scenarios.eleven_ids) prev
           /\ length prev = Nat.min 3 j
           /\ Scenarios.eleven_ids !! j = Some (callee c).
Proof.
  exact (sequential_context_is_bounded
           (Scenarios.task_for Scenarios.eleven_ids SEQUENTIAL 3 300)
           Scenarios.eleven_agents eq_refl).
Defined.

(* ===================================================================== *)
(** ** The calls of a round                                               *)
(* ===================================================================== *)

Lemma round_trace_done ids accumulated s shape :
  ids = [] -> round_trace ids accumulated s (Ok accumulated, s) shape.
Proof.
  intros ->. exists []. cbn [fst snd]. rewrite app_nil_r.
  split; [reflexivity|]. split; [exists 0%nat; reflexivity|].
  split; [constructor|]. intros rs H. injection H as <-. rewrite app_nil_r.
  split; reflexivity.
Qed.

Lemma round_trace_step id ids accumulated response s s1 c run shape :
  calls s1 = calls s ++ [c] -> callee c = id -> shape c -> agent_id response = id ->
  round_trace ids (accumulated ++ [response]) s1 run shape ->
  round_trace (id :: ids) accumulated s run shape.
Proof.
  intros Hs1 Hc Hshape Hid (cs & Hcalls & [k Hk] & Hall & Hok).
  exists (c :: cs). split; [rewrite Hcalls, Hs1, <- app_assoc; reflexivity|].
  split; [exists (S k); simpl; rewrite Hc, Hk; reflexivity|].
  split; [constructor; assumption|].
  intros rs Hrs. destruct (Hok rs Hrs) as [Hcs Hids].
  split; [simpl; rewrite Hc, Hcs; reflexivity|].
  rewrite Hids, map_app, <- app_assoc. simpl. rewrite Hid. reflexivity.
Qed.

(** A round ends like this when the query to [id] was issued and the round
    then stopped on an exception. *)
Lemma round_trace_raise id ids accumulated s s1 c e shape :
  calls s1 = calls s ++ [c] -> callee c = id -> shape c ->
  round_trace (id :: ids) accumulated s (Raise e, s1) shape.
Proof.
  intros Hs1 Hc Hshape. exists [c]. cbn [fst snd]. split; [exact Hs1|].
  split; [exists 1%nat; simpl; rewrite Hc; reflexivity|].
  split; [repeat constructor; exact Hshape|]. discriminate.
Qed.

Lemma round_trace_no_call id ids accumulated s e shape :
  round_trace (id :: ids) accumulated s (Raise e, s) shape.
Proof.
  exists []. cbn [fst snd]. rewrite app_nil_r. split; [reflexivity|].
  split; [exists 0%nat; reflexivity|]. split; [constructor|]. discriminate.
Qed.

Lemma debate_initial_round_trace task ids : forall accumulated s,
  round_trace ids accumulated s (debate_initial_round task ids accumulated s)
    (fun c => prompt c = query task
              /\ context c = CtxDebateInitial 1 (length (agents task))).
Proof.
  induction ids as [|id ids IH]; intros acc s; cbn [debate_initial_round].
  - apply round_trace_done. reflexivity.
  - unfold bind at 1.
    destruct (lookup_agent id s) as [[agent|e] s0] eqn:Hlookup;
      apply lookup_agent_inv in Hlookup as ->; [|apply round_trace_no_call].
    unfold bind at 1.
    destruct (await_process_query id agent _ _ s) as [[d|e] s1] eqn:Hawait;
      apply await_process_query_calls in Hawait;
      [|eapply round_trace_raise; [exact Hawait|reflexivity|split; reflexivity]].
    unfold bind at 1.
    destruct (make_agent_response id d s1) as [[resp|e] s2] eqn:Hmake;
      apply make_agent_response_inv in Hmake as [-> Hid];
      [|eapply round_trace_raise; [exact Hawait|reflexivity|split; reflexivity]].
    eapply round_trace_step; [exact Hawait|reflexivity|split; reflexivity| |apply IH].
    apply Hid. reflexivity.
Qed.

Lemma debate_round_trace task ids : forall it initial accumulated s,
  round_trace ids accumulated s (debate_round task ids it initial accumulated s)
    (fun c => prompt c = debate_query_for task (responses_of_others initial (callee c))
              /\ context c = CtxDebate (it + 1)
                               (map content (responses_of_others initial (callee c)))).
Proof.
  induction ids as [|id ids IH]; intros it initial acc s; cbn [debate_round].
  - apply round_trace_done. reflexivity.
  - unfold bind at 1.
    destruct (lookup_agent id s) as [[agent|e] s0] eqn:Hlookup;
      apply lookup_agent_inv in Hlookup as ->; [|apply round_trace_no_call].
    unfold bind at 1.
    destruct (await_process_query id agent _ _ s) as [[d|e] s1] eqn:Hawait;
      apply await_process_query_calls in Hawait;
      [|eapply round_trace_raise; [exact Hawait|reflexivity|split; reflexivity]].
    unfold bind at 1.
    destruct (make_agent_response id d s1) as [[resp|e] s2] eqn:Hmake;
      apply make_agent_response_inv in Hmake as [-> Hid];
      [|eapply round_trace_raise; [exact Hawait|reflexivity|split; reflexivity]].
    eapply round_trace_step; [exact Hawait|reflexivity|split; reflexivity| |apply IH].
    apply Hid. reflexivity.
Qed.

Lemma consensus_initial_round_trace task ids : forall accumulated s,
  round_trace ids accumulated s (consensus_initial_round task ids accumulated s)
    (fun c => prompt c = query task
              /\ context c = CtxConsensusInitial 1 "work towards consensus").
Proof.
  induction ids as [|id ids IH]; intros acc s; cbn [consensus_initial_round].
  - apply round_trace_done. reflexivity.
  - unfold bind at 1.
    destruct (lookup_agent id s) as [[agent|e] s0] eqn:Hlookup;
      apply lookup_agent_inv in Hlookup as ->; [|apply round_trace_no_call].
    unfold bind at 1.
    destruct (await_process_query id agent _ _ s) as [[d|e] s1] eqn:Hawait;
      apply await_process_query_calls in Hawait;
      [|eapply round_trace_raise; [exact Hawait|reflexivity|split; reflexivity]].
    unfold bind at 1.
    destruct (make_agent_response id d s1) as [[resp|e] s2] eqn:Hmake;
      apply make_agent_response_inv in Hmake as [-> Hid];
      [|eapply round_trace_raise; [exact Hawait|reflexivity|split; reflexivity]].
    eapply round_trace_step; [exact Hawait|reflexivity|split; reflexivity| |apply IH].
    apply Hid. reflexivity.
Qed.

Lemma consensus_round_trace task ids : forall it sc q current accumulated s,
  round_trace ids accumulated s (consensus_round task ids it sc q current accumulated s)
    (fun c => prompt c = q
              /\ context c = CtxConsensus (it + 1) sc (map content current)).
Proof.
  induction ids as [|id ids IH]; intros it sc q current acc s; cbn [consensus_round].
  - apply round_trace_done. reflexivity.
  - unfold bind at 1.
    destruct (lookup_agent id s) as [[agent|e] s0] eqn:Hlookup;
      apply lookup_agent_inv in Hlookup as ->; [|apply round_trace_no_call].
    unfold bind at 1.
    destruct (await_process_query id agent _ _ s) as [[d|e] s1] eqn:Hawait;
      apply await_process_query_calls in Hawait;
      [|eapply round_trace_raise; [exact Hawait|reflexivity|split; reflexivity]].
    unfold bind at 1.
    destruct (make_agent_response id d s1) as [[resp|e] s2] eqn:Hmake;
      apply make_agent_response_inv in Hmake as [-> Hid];
      [|eapply round_trace_raise; [exact Hawait|reflexivity|split; reflexivity]].
    eapply round_trace_step; [exact Hawait|reflexivity|split; reflexivity| |apply IH].
    apply Hid. reflexivity.
Qed.

(* ===================================================================== *)
(** ** Counting the rounds of a debate                                    *)
(* ===================================================================== *)

Lemma round_trace_ok ids accumulated s rs s' shape :
  round_trace ids accumulated s (Ok rs, s') shape ->
  map callee (calls s') = map callee (calls s) ++ ids
  /\ map agent_id rs = map agent_id accumulated ++ ids.
Proof.
  intros (cs & Hcalls & _ & _ & Hok). cbn [fst snd] in *.
  destruct (Hok rs eq_refl) as [Hcs Hids].
  split; [rewrite Hcalls, map_app, Hcs; reflexivity|exact Hids].
Qed.

(** The debate loop runs [k] further rounds: each one queries every
    participant in order, the counter never passes [max_iterations], and
    the responses collected end with a whole round. *)
Lemma debate_loop_trace task rounds_left :
  forall current_iteration initial_responses all_responses s final_iteration final_responses s',
    debate_loop task rounds_left current_iteration initial_responses all_responses s
    = (Ok (final_iteration, final_responses), s') ->
    exists k : nat,
      final_iteration = (current_iteration + Z.of_nat k)%Z
      /\ (k = 0%nat \/ (final_iteration <= max_iterations task)%Z)
      /\ map callee (calls s')
         = map callee (calls s) ++ concat (replicate k (agents task))
      /\ (k = 0%nat -> final_responses = all_responses)
      /\ ((0 < k)%nat ->
          exists earlier last,
            final_responses = earlier ++ last /\ map agent_id last = agents task).
Proof.
  induction rounds_left as [|n IH]; intros it initial all s it' all' s'; cbn [debate_loop].
  - intros H. injection H as <- <- <-. exists 0%nat.
    rewrite Z.add_0_r. simpl. rewrite app_nil_r. repeat split; auto. lia.
  - destruct (it <? max_iterations task)%Z eqn:Hlt.
    2:{ intros H. injection H as <- <- <-. exists 0%nat.
        rewrite Z.add_0_r. simpl. rewrite app_nil_r. repeat split; auto. lia. }
    apply Z.ltb_lt in Hlt.
    unfold bind at 1.
    pose proof (debate_round_trace task (agents task) it initial [] s) as Htrace.
    destruct (debate_round task (agents task) it initial [] s) as [[round|e] s1];
      [|discriminate].
    apply round_trace_ok in Htrace as [Hcalls Hids]. simpl in Hids.
    unfold bind at 1. unfold lift at 1.
    destruct (_check_debate_convergence round initial) as [[|]|e]; [| |discriminate].
    + intros H. injection H as <- <- <-. exists 1%nat.
      split; [reflexivity|]. split; [right; lia|].
      split; [simpl; rewrite app_nil_r; exact Hcalls|].
      split; [discriminate|]. intros _. exists all, round. split; [reflexivity|exact Hids].
    + intros Hrest. apply IH in Hrest as (k & -> & Hbound & Hcalls' & Hzero & Hpos).
      exists (S k). split; [lia|].
      split; [right; destruct Hbound as [->|Hb]; lia|].
      split; [rewrite Hcalls', Hcalls, <- app_assoc; reflexivity|].
      split; [discriminate|]. intros _.
      destruct k as [|k].
      * rewrite (Hzero eq_refl). exists all, round. split; [reflexivity|exact Hids].
      * apply Hpos. lia.
Qed.

Lemma last_n_app_exact {A} (earlier last : list A) :
  last <> [] -> last_n (length last) (earlier ++ last) = last.
Proof.
  intros Hne. unfold last_n. destruct (length last) as [|n] eqn:Hlen.
  - destruct last; [contradiction|discriminate].
  - rewrite <- Hlen, length_app.
    replace (length earlier + length last - length last)%nat with (length earlier) by lia.
    apply drop_app_length.
Qed.

(** X6: when a DEBATE run returns, [total_iterations] is the number of
    rounds actually held: at least 1, at most [max_iterations] (or 1 if that
    is smaller), equal to [debate_rounds]; the agents have been queried
    exactly that many times each, round by round in [task.agents] order; the
    participant list is not empty, and [individual_responses] has exactly
    the participants as keys. *)
Theorem debate_rounds_are_counted task s r s' :
  mode task = DEBATE ->
  start_collaboration task s = (Ok r, s') ->
  (1 <= total_iterations r <= Z.max 1 (max_iterations task))%Z
  /\ debate_rounds r = Some (total_iterations r)
  /\ map callee (calls s')
     = map callee (calls s)
       ++ concat (replicate (Z.to_nat (total_iterations r)) (agents task))
  /\ agents task <> []
  /\ (forall id, is_Some (individual_responses r !! id) <-> id ∈ agents task).
Proof.
  intros Hmode Hrun.
  apply start_collaboration_ok_inv in Hrun as (s3 & Hroute & ->).
  unfold route in Hroute. rewrite Hmode in Hroute.
  unfold _debate_collaboration in Hroute. unfold bind at 1 in Hroute.
  pose proof (debate_initial_round_trace task (agents task) [] (started task s)) as Hinit.
  destruct (debate_initial_round task (agents task) [] (started task s))
    as [[initial|e] s1]; [|discriminate].
  apply round_trace_ok in Hinit as [Hcalls1 Hids1]. simpl in Hids1.
  unfold bind at 1 in Hroute.
  destruct (debate_loop task (Z.to_nat (max_iterations task - 1)) 1 initial initial s1)
    as [[[final all]|e] s2] eqn:Hloop; [|discriminate].
  apply debate_loop_trace in Hloop as (k & -> & Hbound & Hcalls2 & Hzero & Hpos).
  unfold bind, lift, ret in Hroute.
  destruct (_synthesize_debate_responses all task) as [text|e] eqn:Hsynth; [|discriminate].
  assert (Hne : agents task <> []).
  { intros Hnone. unfold _synthesize_debate_responses in Hsynth.
    rewrite Hnone in Hsynth. discriminate. }
  rewrite Hmode in Hroute. cbn [mode_value] in Hroute. unfold gets in Hroute.
  destruct (_calculate_consensus_score _ _) as [sc|e]; [|discriminate].
  injection Hroute as <- <-.
  cbn [total_iterations debate_rounds individual_responses].
  split; [destruct Hbound as [->|Hb]; lia|].
  split; [reflexivity|].
  split.
  { rewrite calls_completed, Hcalls2, Hcalls1.
    replace (Z.to_nat (1 + Z.of_nat k)) with (S k) by lia.
    simpl. rewrite <- app_assoc. reflexivity. }
  split; [exact Hne|].
  intros id. rewrite responses_by_agent_lookup.
  assert (Hlast : exists earlier last,
             all = earlier ++ last /\ map agent_id last = agents task).
  { destruct k as [|k].
    - rewrite (Hzero eq_refl). exists [], initial. split; [reflexivity|exact Hids1].
    - apply Hpos. lia. }
  destruct Hlast as (earlier & last & -> & Hlast).
  rewrite <- Hlast at 1. rewrite length_map, last_n_app_exact, Hlast; [reflexivity|].
  intros ->. simpl in Hlast. congruence.
Qed.

Lemma debate_rounds_are_counted_witness :
  (1 <= total_iterations Cases.debate_result <= Z.max 1 3)%Z
  /\ debate_rounds Cases.debate_result = Some (total_iterations Cases.debate_result)
  /\ map callee (calls (snd (start_collaboration
                               (Scenarios.task_for ["p1"; "p2"; "p3"] DEBATE 3 300)
                               Scenarios.debaters)))
     = map callee (calls Scenarios.debaters)
       ++ concat (replicate (Z.to_nat (total_iterations Cases.debate_result))
                            ["p1"; "p2"; "p3"])
  /\ ["p1"; "p2"; "p3"] <> []
  /\ (forall id, is_Some (individual_responses Cases.debate_result !! id)
                 <-> id ∈ ["p1"; "p2"; "p3"]).
Proof.
  refine (debate_rounds_are_counted
            (Scenarios.task_for ["p1"; "p2"; "p3"] DEBATE 3 300) Scenarios.debaters
            Cases.debate_result _ eq_refl _).
  vm_compute. reflexivity.
Defined.

(* ===================================================================== *)
(** ** Counting the rounds of a consensus run                             *)
(* ===================================================================== *)

(** The consensus loop runs [k] further rounds; when it leaves before
    [max_iterations] (and was given steps enough), the responses it leaves
    with score above 0.8. *)
Lemma consensus_loop_trace task rounds_left :
  forall current_iteration current_responses all_responses s
         final_iteration final_responses final_all s',
    consensus_loop task rounds_left current_iteration current_responses all_responses s
    = (Ok (final_iteration, final_responses, final_all), s') ->
    exists k : nat,
      final_iteration = (current_iteration + Z.of_nat k)%Z
      /\ (k = 0%nat \/ (final_iteration <= max_iterations task)%Z)
      /\ map callee (calls s')
         = map callee (calls s) ++ concat (replicate k (agents task))
      /\ (k = 0%nat -> final_responses = current_responses)
      /\ ((0 < k)%nat -> map agent_id final_responses = agents task)
      /\ ((max_iterations task - current_iteration <= Z.of_nat rounds_left)%Z ->
          (final_iteration < max_iterations task)%Z ->
          exists sc, _calculate_consensus_score (platform s') final_responses = Ok sc
                     /\ PrimFloat.ltb 0.8 sc = true).
Proof.
  induction rounds_left as [|n IH]; intros it current all s it' current' all' s';
    cbn [consensus_loop].
  - intros H. injection H as <- <- <- <-. exists 0%nat.
    rewrite Z.add_0_r. simpl. rewrite app_nil_r.
    repeat split; auto; try lia.
  - destruct (it <? max_iterations task)%Z eqn:Hlt.
    2:{ intros H. injection H as <- <- <- <-. exists 0%nat.
        rewrite Z.add_0_r. simpl. rewrite app_nil_r. apply Z.ltb_ge in Hlt.
        repeat split; auto; try lia. }
    apply Z.ltb_lt in Hlt.
    unfold bind at 1. unfold gets at 1. unfold bind at 1. unfold lift at 1.
    destruct (_calculate_consensus_score (platform s) current) as [sc|e] eqn:Hscore;
      [|discriminate].
    destruct (PrimFloat.ltb 0.8 sc) eqn:Hhigh.
    + intros H. injection H as <- <- <- <-. exists 0%nat.
      rewrite Z.add_0_r. simpl. rewrite app_nil_r.
      repeat split; auto; try lia. intros _ _. exists sc. split; assumption.
    + unfold bind at 1.
      pose proof (consensus_round_trace task (agents task) it sc
                    (consensus_query_for task current) current [] s) as Htrace.
      destruct (consensus_round task (agents task) it sc _ current [] s)
        as [[round|e] s1]; [|discriminate].
      apply round_trace_ok in Htrace as [Hcalls Hids]. simpl in Hids.
      intros Hrest.
      apply IH in Hrest as (k & -> & Hbound & Hcalls' & Hzero & Hpos & Hearly).
      exists (S k). split; [lia|].
      split; [right; destruct Hbound as [->|Hb]; lia|].
      split; [rewrite Hcalls', Hcalls, <- app_assoc; reflexivity|].
      split; [discriminate|].
      split.
      { intros _. destruct k as [|k]; [rewrite (Hzero eq_refl); exact Hids|apply Hpos; lia]. }
      intros Hfuel Hbelow. apply Hearly; lia.
Qed.

(** X7: when a CONSENSUS run returns, [total_iterations] is the number of
    rounds actually held: at least 1 and at most [max_iterations] (or 1 if
    that is smaller); the agents have been queried exactly that many times
    each, round by round in [task.agents] order; [individual_responses] has
    exactly the participants as keys; and a run that stops before
    [max_iterations] has achieved consensus. *)
Theorem consensus_rounds_are_counted task s r s' :
  mode task = CONSENSUS ->
  start_collaboration task s = (Ok r, s') ->
  (1 <= total_iterations r <= Z.max 1 (max_iterations task))%Z
  /\ map callee (calls s')
     = map callee (calls s)
       ++ concat (replicate (Z.to_nat (total_iterations r)) (agents task))
  /\ (forall id, is_Some (individual_responses r !! id) <-> id ∈ agents task)
  /\ ((total_iterations r < max_iterations task)%Z -> consensus_achieved r = Some true).
Proof.
  intros Hmode Hrun.
  apply start_collaboration_ok_inv in Hrun as (s3 & Hroute & ->).
  unfold route in Hroute. rewrite Hmode in Hroute.
  unfold _consensus_collaboration in Hroute. unfold bind at 1 in Hroute.
  pose proof (consensus_initial_round_trace task (agents task) [] (started task s)) as Hinit.
  destruct (consensus_initial_round task (agents task) [] (started task s))
    as [[initial|e] s1]; [|discriminate].
  apply round_trace_ok in Hinit as [Hcalls1 Hids1]. simpl in Hids1.
  unfold bind at 1 in Hroute.
  destruct (consensus_loop task (Z.to_nat (max_iterations task - 1)) 1 initial initial s1)
    as [[[[final current] all]|e] s2] eqn:Hloop; [|discriminate].
  apply consensus_loop_trace in Hloop as (k & -> & Hbound & Hcalls2 & Hzero & Hpos & Hearly).
  unfold bind, gets, lift, ret in Hroute.
  destruct (_calculate_consensus_score (platform s2) current) as [sc|e] eqn:Hscore;
    [|discriminate].
  destruct (_synthesize_consensus_responses (platform s2) current task) as [text|e];
    [|discriminate].
  rewrite Hmode in Hroute. cbn [mode_value] in Hroute.
  injection Hroute as <- <-.
  cbn [total_iterations individual_responses consensus_achieved].
  split; [destruct Hbound as [->|Hb]; lia|].
  split.
  { rewrite calls_completed, Hcalls2, Hcalls1.
    replace (Z.to_nat (1 + Z.of_nat k)) with (S k) by lia.
    simpl. rewrite <- app_assoc. reflexivity. }
  split.
  { intros id. rewrite responses_by_agent_lookup.
    destruct k as [|k]; [rewrite (Hzero eq_refl), Hids1|rewrite Hpos by lia]; reflexivity. }
  intros Hbelow. destruct Hearly as (sc' & Hsc' & Hhigh); [lia|exact Hbelow|].
  injection Hsc' as <-. rewrite Hhigh. reflexivity.
Qed.

Lemma consensus_rounds_are_counted_witness :
  (1 <= total_iterations Cases.consensus_result <= Z.max 1 3)%Z
  /\ map callee (calls (snd (start_collaboration
                               (Scenarios.task_for ["p1"; "p2"] CONSENSUS 3 300)
                               Cases.never_agreeing)))
     = map callee (calls Cases.never_agreeing)
       ++ concat (replicate (Z.to_nat (total_iterations Cases.consensus_result)) ["p1"; "p2"])
  /\ (forall id, is_Some (individual_responses Cases.consensus_result !! id)
                 <-> id ∈ ["p1"; "p2"])
  /\ ((total_iterations Cases.consensus_result < 3)%Z ->
      consensus_achieved Cases.consensus_result = Some true).
Proof.
  refine (consensus_rounds_are_counted
            (Scenarios.task_for ["p1"; "p2"] CONSENSUS 3 300) Cases.never_agreeing
            Cases.consensus_result _ eq_refl _).
  vm_compute. reflexivity.
Defined.

(* ===================================================================== *)
(** ** Who an agent hears in a debate round                               *)
(* ===================================================================== *)

Lemma responses_of_others_spec initial current_agent o :
  o ∈ responses_of_others initial current_agent
  <-> o ∈ initial /\ agent_id o <> current_agent.
Proof.
  unfold responses_of_others. rewrite !list_elem_of_In, filter_In.
  rewrite negb_true_iff, String.eqb_neq. reflexivity.
Qed.

Lemma responses_of_others_length initial current_agent :
  NoDup (map agent_id initial) ->
  current_agent ∈ map agent_id initial ->
  S (length (responses_of_others initial current_agent)) = length initial.
Proof.
  unfold responses_of_others.
  induction initial as [|o initial IH]; intros Hnd Hin; [inversion Hin|].
  simpl in Hnd, Hin. apply NoDup_cons in Hnd as [Hnotin Hnd]. simpl.
  destruct (String.eqb (agent_id o) current_agent) eqn:Heq; simpl.
  - apply String.eqb_eq in Heq. subst current_agent. f_equal.
    clear IH Hin Hnd. induction initial as [|o' initial IH]; [reflexivity|].
    simpl. apply not_elem_of_cons in Hnotin as [Hne Hnotin].
    destruct (String.eqb (agent_id o') (agent_id o)) eqn:Heq'.
    + apply String.eqb_eq in Heq'. congruence.
    + simpl. f_equal. apply IH. exact Hnotin.
  - apply String.eqb_neq in Heq.
    apply elem_of_cons in Hin as [Hin|Hin]; [congruence|].
    f_equal. apply IH; assumption.
Qed.

(** X10: in a debate round every agent that is queried is shown the
    responses of the other agents only, never its own: its prompt and its
    context are built from the previous round minus every response that
    carries its id, so from exactly one response less when the ids of the
    previous round are distinct. *)
Theorem debate_round_shows_only_peers task ids it initial s :
  exists cs,
    calls (snd (debate_round task ids it initial [] s)) = calls s ++ cs
    /\ forall c, c ∈ cs ->
         exists others,
           prompt c = debate_query_for task others
           /\ context c = CtxDebate (it + 1) (map content others)
           /\ (forall o, o ∈ others <-> o ∈ initial /\ agent_id o <> callee c)
           /\ (NoDup (map agent_id initial) -> callee c ∈ map agent_id initial ->
               S (length others) = length initial).
Proof.
  destruct (debate_round_trace task ids it initial [] s) as (cs & Hcalls & _ & Hshape & _).
  exists cs. split; [exact Hcalls|].
  intros c Hin. rewrite Forall_forall in Hshape. destruct (Hshape c Hin) as [Hp Hc].
  exists (responses_of_others initial (callee c)).
  split; [exact Hp|]. split; [exact Hc|].
  split; [intros o; apply responses_of_others_spec|].
  apply responses_of_others_length.
Qed.

(* ===================================================================== *)
(** ** [agent_domain.py]: creating and evaluating agents                  *)
(* ===================================================================== *)

Section DomainService.
Import AgentDomain AgentDomainService.

Lemma find_by_paper_and_type_None repository paper agent_ty :
  find_by_paper_and_type repository paper agent_ty = None <->
  forall i a, repository !! i = Some a ->
              ~ (paper_id a = paper /\ agent_type a = agent_ty).
Proof.
  unfold find_by_paper_and_type. rewrite head_None. split.
  - intros Hnil i a Hi Hmatch.
    assert (Hin : a ∈ filter (fun a => paper_id a = paper /\ agent_type a = agent_ty)
                             (map snd (map_to_list repository))).
    { apply list_elem_of_filter. split; [exact Hmatch|].
      apply list_elem_of_fmap. exists (i, a). split; [reflexivity|].
      apply elem_of_map_to_list. exact Hi. }
    rewrite Hnil in Hin. inversion Hin.
  - intros Hnone.
    destruct (filter _ _) as [|a rest] eqn:Hf; [reflexivity|].
    assert (Hin : a ∈ filter (fun a => paper_id a = paper /\ agent_type a = agent_ty)
                             (map snd (map_to_list repository))).
    { rewrite Hf. left. }
    apply list_elem_of_filter in Hin as [Hmatch Hin].
    apply list_elem_of_fmap in Hin as ([i a'] & -> & Hin).
    apply elem_of_map_to_list in Hin. exfalso. exact (Hnone i a' Hin Hmatch).
Qed.

Lemma find_by_paper_and_type_Some repository paper agent_ty :
  is_Some (find_by_paper_and_type repository paper agent_ty) <->
  exists i a, repository !! i = Some a /\ paper_id a = paper /\ agent_type a = agent_ty.
Proof.
  split.
  - intros [a Ha]. unfold find_by_paper_and_type in Ha.
    apply head_Some_elem_of in Ha.
    apply list_elem_of_filter in Ha as [Hmatch Hin].
    apply list_elem_of_fmap in Hin as ([i a'] & -> & Hin).
    apply elem_of_map_to_list in Hin. exists i, a'. split; [exact Hin|exact Hmatch].
  - intros (i & a & Hi & Hp & Ht).
    destruct (find_by_paper_and_type repository paper agent_ty) eqn:Hf; [eauto|].
    exfalso. exact (proj1 (find_by_paper_and_type_None _ _ _) Hf i a Hi (conj Hp Ht)).
Qed.

(** What a successful creation has done. *)
Lemma create_specialized_agent_inv repository new_id paper agent_ty spec model bus
      agent repository' bus' :
  create_specialized_agent repository new_id paper agent_ty spec model bus
  = (inr agent, repository', bus') ->
  find_by_paper_and_type repository paper agent_ty = None
  /\ spec ∈ _get_valid_specializations agent_ty
  /\ repository !! new_id = None
  /\ agent = {| id := new_id; paper_id := paper; agent_type := agent_ty;
                model_name := model; specialization := Some spec;
                status := "initializing"; conversation_count := 0;
                response_time_avg := None; user_rating_avg := None;
                capabilities := Some (_get_capabilities_for_type agent_ty) |}
  /\ repository' = <[new_id := agent]> repository
  /\ bus' = bus ++ [{| created_agent_id := new_id; created_paper_id := paper;
                       created_agent_type := agent_ty |}].
Proof.
  unfold create_specialized_agent, create.
  destruct (find_by_paper_and_type repository paper agent_ty) as [existing|] eqn:Hfind.
  { rewrite bool_decide_eq_true_2 by eauto. discriminate. }
  rewrite bool_decide_eq_false_2 by (intros [? ?]; discriminate).
  destruct (bool_decide (spec ∈ _get_valid_specializations agent_ty)) eqn:Hspec;
    simpl; [|discriminate].
  apply bool_decide_eq_true_1 in Hspec.
  destruct (repository !! new_id) eqn:Hnew; [discriminate|].
  cbn. intros Heq. injection Heq as <- <- <-. repeat split; assumption.
Qed.

(** A failed creation leaves the table and the bus alone. *)
Lemma create_specialized_agent_failure repository new_id paper agent_ty spec model bus
      e repository' bus' :
  create_specialized_agent repository new_id paper agent_ty spec model bus
  = (inl e, repository', bus') ->
  repository' = repository /\ bus' = bus.
Proof.
  unfold create_specialized_agent, create.
  destruct (bool_decide (is_Some _)); [intros [= <- <- <-]; auto|].
  destruct (negb _); [intros [= <- <- <-]; auto|].
  destruct (repository !! new_id); [intros [= <- <- <-]; auto|discriminate].
Qed.

(** X13: the rule "one agent per type per paper" is an invariant of
    [create_specialized_agent]: a table in which no two agents share paper
    and type is still such a table after the call, whatever its arguments
    and whether it returns or raises. *)
Theorem one_agent_per_type_is_kept repository new_id paper agent_ty spec model bus :
  one_agent_per_type repository ->
  one_agent_per_type
    (snd (fst (create_specialized_agent repository new_id paper agent_ty spec model bus))).
Proof.
  intros Hinv.
  destruct (create_specialized_agent repository new_id paper agent_ty spec model bus)
    as [[[e|agent] repository'] bus'] eqn:Hrun; simpl.
  - apply create_specialized_agent_failure in Hrun as [-> _]. exact Hinv.
  - apply create_specialized_agent_inv in Hrun
      as (Hfind & _ & Hnew & Hagent & -> & _).
    pose proof (proj1 (find_by_paper_and_type_None _ _ _) Hfind) as Hnone.
    assert (Hp : paper_id agent = paper) by (rewrite Hagent; reflexivity).
    assert (Ht : agent_type agent = agent_ty) by (rewrite Hagent; reflexivity).
    intros i j a b Hi Hj Hpaper Htype.
    destruct (decide (i = new_id)) as [->|Hi'], (decide (j = new_id)) as [->|Hj'].
    + reflexivity.
    + rewrite lookup_insert_eq in Hi. injection Hi as <-.
      rewrite lookup_insert_ne in Hj by congruence.
      exfalso. apply (Hnone j b Hj). split; congruence.
    + rewrite lookup_insert_eq in Hj. injection Hj as <-.
      rewrite lookup_insert_ne in Hi by congruence.
      exfalso. apply (Hnone i a Hi). split; congruence.
    + rewrite lookup_insert_ne in Hi by congruence.
      rewrite lookup_insert_ne in Hj by congruence.
      exact (Hinv i j a b Hi Hj Hpaper Htype).
Qed.

Lemma one_agent_per_type_is_kept_witness :
  (fst (fst (create_specialized_agent Scenarios.repository "a7" "paper-1" "collaboration"
                                      "synthesizer" "gpt-4" []))
   = inl (AgentTypeExists "collaboration")
   /\ one_agent_per_type
        (snd (fst (create_specialized_agent Scenarios.repository "a7" "paper-1"
                                            "collaboration" "synthesizer" "gpt-4" []))))
  /\ (size (snd (fst (create_specialized_agent Scenarios.repository "a7" "paper-1"
                                               "analysis" "impact" "gpt-4" []))) = 2%nat
      /\ one_agent_per_type
           (snd (fst (create_specialized_agent Scenarios.repository "a7" "paper-1"
                                               "analysis" "impact" "gpt-4" [])))).
Proof.
  assert (Hrule : one_agent_per_type Scenarios.repository).
  { intros i j a b Hi Hj _ _. unfold Scenarios.repository in Hi, Hj.
    apply lookup_singleton_Some in Hi as [<- _].
    apply lookup_singleton_Some in Hj as [<- _]. reflexivity. }
  split; (split; [vm_compute; reflexivity|]).
  - exact (one_agent_per_type_is_kept Scenarios.repository "a7" "paper-1" "collaboration"
                                      "synthesizer" "gpt-4" [] Hrule).
  - exact (one_agent_per_type_is_kept Scenarios.repository "a7" "paper-1" "analysis"
                                      "impact" "gpt-4" [] Hrule).
Defined.

(** X14: once an agent has been created for a paper and a type, every
    further creation for the same paper and type is refused with the
    "already exists" error, whatever specialization, model and key it
    comes with, and it changes nothing. *)
Theorem second_agent_of_a_type_is_refused
        repository new_id paper agent_ty spec model bus agent repository' bus'
        new_id' spec' model' :
  create_specialized_agent repository new_id paper agent_ty spec model bus
  = (inr agent, repository', bus') ->
  create_specialized_agent repository' new_id' paper agent_ty spec' model' bus'
  = (inl (AgentTypeExists agent_ty), repository', bus').
Proof.
  intros Hrun.
  apply create_specialized_agent_inv in Hrun as (_ & _ & _ & Hagent & -> & _).
  unfold create_specialized_agent.
  rewrite bool_decide_eq_true_2; [reflexivity|].
  apply find_by_paper_and_type_Some. exists new_id, agent.
  rewrite lookup_insert_eq. rewrite Hagent. auto.
Qed.

Lemma second_agent_of_a_type_is_refused_witness :
  create_specialized_agent
    (<["a7" := {| id := "a7"; paper_id := "paper-1"; agent_type := "analysis";
                  model_name := "gpt-4"; specialization := Some "impact";
                  status := "initializing"; conversation_count := 0;
                  response_time_avg := None; user_rating_avg := None;
                  capabilities := Some (_get_capabilities_for_type "analysis") |}]> ∅)
    "a8" "paper-1" "analysis" "trends" "gpt-3.5-turbo"
    [{| created_agent_id := "a7"; created_paper_id := "paper-1";
        created_agent_type := "analysis" |}]
  = (inl (AgentTypeExists "analysis"),
     <["a7" := {| id := "a7"; paper_id := "paper-1"; agent_type := "analysis";
                  model_name := "gpt-4"; specialization := Some "impact";
                  status := "initializing"; conversation_count := 0;
                  response_time_avg := None; user_rating_avg := None;
                  capabilities := Some (_get_capabilities_for_type "analysis") |}]> ∅,
     [{| created_agent_id := "a7"; created_paper_id := "paper-1";
         created_agent_type := "analysis" |}]).
Proof.
  eapply (second_agent_of_a_type_is_refused ∅ "a7" "paper-1" "analysis" "impact" "gpt-4" []).
  reflexivity.
Defined.

Lemma validate_agents_suitable repository agent_ids : forall agents validated,
  validate_agents repository agent_ids agents = Ok validated ->
  forall agent_id, agent_id ∈ agent_ids ->
    exists agent, repository !! agent_id = Some agent
                  /\ is_suitable_for_collaboration (_to_domain_model agent) = true.
Proof.
  induction agent_ids as [|x rest IH]; intros agents validated Hv agent_id Hin.
  - inversion Hin.
  - simpl in Hv. destruct (repository !! x) as [agent|] eqn:Hx; [|discriminate].
    destruct (is_suitable_for_collaboration (_to_domain_model agent)) eqn:Hs;
      [|discriminate].
    apply elem_of_cons in Hin as [->|Hin].
    + exists agent. auto.
    + exact (IH _ _ Hv agent_id Hin).
Qed.

(** An id that does not resolve to a suitable agent makes the whole call
    fail, and nothing is published. *)
Lemma orchestrate_collaboration_unsuitable repository now agent_ids task mode bus agent_id :
  agent_id ∈ agent_ids ->
  (forall agent, repository !! agent_id = Some agent ->
                 is_suitable_for_collaboration (_to_domain_model agent) = false) ->
  exists e, orchestrate_collaboration repository now agent_ids task mode bus
            = (Raise (ValueError e), bus).
Proof.
  intros Hin Hbad. unfold orchestrate_collaboration.
  destruct (validate_agents repository agent_ids []) as [agents|e] eqn:Hv.
  - destruct (validate_agents_suitable _ _ _ _ Hv agent_id Hin) as (agent & Ha & Hs).
    rewrite (Hbad agent Ha) in Hs. discriminate.
  - assert (He : exists m, e = ValueError m).
    { clear Hin Hbad. revert Hv. generalize (@nil AgentDomainModel).
      induction agent_ids as [|x rest IH]; intros acc Hv; simpl in Hv; [discriminate|].
      destruct (repository !! x) as [agent|]; [|injection Hv as <-; eauto].
      destruct (is_suitable_for_collaboration (_to_domain_model agent));
        [exact (IH _ Hv)|injection Hv as <-; eauto]. }
    destruct He as [m ->]. eauto.
Qed.

(** X15: an agent that [create_specialized_agent] has just created cannot
    take part in a collaboration: it is stored with status "initializing"
    and no conversation, so every [orchestrate_collaboration] call that
    names it raises a [ValueError] and publishes nothing, whoever else is
    named and whatever the type of the new agent. *)
Theorem new_agent_cannot_collaborate
        repository new_id paper agent_ty spec model created agent repository' created'
        now agent_ids task mode bus :
  create_specialized_agent repository new_id paper agent_ty spec model created
  = (inr agent, repository', created') ->
  id agent ∈ agent_ids ->
  exists e, orchestrate_collaboration repository' now agent_ids task mode bus
            = (Raise (ValueError e), bus).
Proof.
  intros Hrun Hin.
  apply create_specialized_agent_inv in Hrun as (_ & _ & _ & Hagent & -> & _).
  apply (orchestrate_collaboration_unsuitable _ _ _ _ _ _ (id agent) Hin).
  intros a Ha. assert (Hid : id agent = new_id) by (rewrite Hagent; reflexivity).
  rewrite Hid, lookup_insert_eq in Ha. injection Ha as <-.
  rewrite Hagent. reflexivity.
Qed.

Lemma new_agent_cannot_collaborate_witness :
  exists e,
    orchestrate_collaboration
      (snd (fst (create_specialized_agent Scenarios.repository "a2" "paper-2"
                   "collaboration" "coordinator" "gpt-4" [])))
      "20240101_000000" ["a1"; "a2"] "compare" PARALLEL []
    = (Raise (ValueError e), []).
Proof.
  refine (new_agent_cannot_collaborate Scenarios.repository "a2" "paper-2"
            "collaboration" "coordinator" "gpt-4" []
            {| id := "a2"; paper_id := "paper-2"; agent_type := "collaboration";
               model_name := "gpt-4"; specialization := Some "coordinator";
               status := "initializing"; conversation_count := 0;
               response_time_avg := None; user_rating_avg := None;
               capabilities := Some (_get_capabilities_for_type "collaboration") |}
            _ _ "20240101_000000" ["a1"; "a2"] "compare" PARALLEL [] eq_refl _).
  right. left.
Defined.

(** X16: for an agent that carries the capabilities its type was given at
    creation, being suitable for collaboration comes down to three facts:
    status "active", at least ten conversations, and type "collaboration".
    No other type, known or unknown, is given the capability that
    [orchestrate_collaboration] asks for. *)
Theorem only_collaboration_type_is_suitable (a : AgentDomainModel) :
  capabilities a = Some (_get_capabilities_for_type (agent_type a)) ->
  is_suitable_for_collaboration a = true
  <-> status a = "active" /\ (10 <= conversation_count a)%Z
      /\ agent_type a = "collaboration".
Proof.
  intros Hcaps.
  unfold is_suitable_for_collaboration, is_active, is_experienced, has_capability.
  rewrite Hcaps. cbn [default].
  rewrite !andb_true_iff, String.eqb_eq, Z.leb_le.
  assert (Hcap : existsb (String.eqb (capability_value MULTI_AGENT_COLLABORATION))
                         (_get_capabilities_for_type (agent_type a)) = true
                 <-> agent_type a = "collaboration").
  { unfold _get_capabilities_for_type, dict_get.
    destruct (String.eqb_spec "interactive" (agent_type a)) as [<-|_];
      [split; discriminate|].
    destruct (String.eqb_spec "implementation" (agent_type a)) as [<-|_];
      [split; discriminate|].
    destruct (String.eqb_spec "analysis" (agent_type a)) as [<-|_];
      [split; discriminate|].
    destruct (String.eqb_spec "collaboration" (agent_type a)) as [<-|Hne];
      [split; reflexivity|].
    split; [discriminate|]. intros Heq. exfalso. apply Hne. symmetry. exact Heq. }
  rewrite Hcap. tauto.
Qed.

Lemma only_collaboration_type_is_suitable_witness :
  is_suitable_for_collaboration (Cases.coordinating_agent) = true
  <-> status Cases.coordinating_agent = "active"
      /\ (10 <= conversation_count Cases.coordinating_agent)%Z
      /\ agent_type Cases.coordinating_agent = "collaboration".
Proof.
  apply (only_collaboration_type_is_suitable Cases.coordinating_agent). reflexivity.
Defined.

Lemma omap_all_None {A B} (f : A -> option B) (l : list A) :
  Forall (fun x => f x = None) l -> omap f l = [].
Proof.
  induction 1 as [|x l Hx _ IH]; [reflexivity|]. simpl. rewrite Hx. exact IH.
Qed.

(** X17: an agent none of whose conversations of the period carries a
    rating (or only ratings of 0) has an average rating of 0.0, so its
    evaluation always recommends improving the response quality, and its
    satisfaction rate is [None]. This covers the agent with no conversation
    at all. *)
Theorem unrated_agent_is_told_to_improve repository conversations agent_id ev :
  Forall (fun c => user_rating c = None \/ user_rating c = Some 0%Z) conversations ->
  evaluate_agent_performance repository conversations agent_id = inr ev ->
  improve_response_quality ∈ recommendations ev
  /\ user_satisfaction_rate (metrics ev) = None
  /\ average_user_rating (metrics ev) = 0%float.
Proof.
  intros Hunrated Hev. unfold evaluate_agent_performance in Hev.
  destruct (repository !! agent_id) as [agent|]; [|discriminate].
  injection Hev as <-. cbn [recommendations metrics].
  assert (Hrated : omap (fun c => truthy_int (user_rating c)) conversations = []).
  { apply omap_all_None. eapply Forall_impl; [exact Hunrated|].
    intros c [-> | ->]; reflexivity. }
  assert (Havg : average_user_rating (get_performance_metrics conversations) = 0%float).
  { unfold get_performance_metrics. cbn [average_user_rating]. rewrite Hrated. reflexivity. }
  assert (Hsat : user_satisfaction_rate (get_performance_metrics conversations) = None).
  { unfold get_performance_metrics. cbn [user_satisfaction_rate]. rewrite Hrated. reflexivity. }
  split; [|split; assumption].
  unfold _generate_improvement_recommendations. rewrite Havg.
  change (PrimFloat.ltb 0 3.5) with true. cbv iota.
  destruct (PrimFloat.ltb 5 _), (negb _), (PrimFloat.ltb _ _);
    apply list_elem_of_In; simpl; tauto.
Qed.

Lemma unrated_agent_is_told_to_improve_witness :
  improve_response_quality ∈ recommendations Cases.evaluation
  /\ user_satisfaction_rate (metrics Cases.evaluation) = None
  /\ average_user_rating (metrics Cases.evaluation) = 0%float.
Proof.
  apply (unrated_agent_is_told_to_improve Scenarios.repository Cases.answered_unrated "a1").
  - apply Forall_cons. split; [left; reflexivity|].
    apply Forall_cons. split; [right; reflexivity|].
    apply Forall_cons. split; [left; reflexivity|]. apply Forall_nil_2.
  - reflexivity.
Defined.

(** X18: the evaluation of an agent that [create_specialized_agent] has
    just returned, before any conversation: it is unrated, a novice and not
    ready for collaboration, its metrics are all zero, and it is given
    exactly two recommendations, to improve the response quality and to gain
    more experience. *)
Theorem evaluation_of_a_new_agent
        repository new_id paper agent_ty spec model created agent repository' created' :
  create_specialized_agent repository new_id paper agent_ty spec model created
  = (inr agent, repository', created') ->
  exists ev,
    evaluate_agent_performance repository' [] (id agent) = inr ev
    /\ performance_rating ev = "unrated"
    /\ experience_level ev = "novice"
    /\ is_collaboration_ready ev = false
    /\ total_queries (metrics ev) = 0%Z
    /\ failed_queries (metrics ev) = 0%Z
    /\ average_response_time (metrics ev) = 0%float
    /\ recommendations ev = [improve_response_quality; gain_more_experience].
Proof.
  intros Hrun.
  apply create_specialized_agent_inv in Hrun as (_ & _ & _ & Hagent & -> & _).
  assert (Hid : id agent = new_id) by (rewrite Hagent; reflexivity).
  unfold evaluate_agent_performance. rewrite Hid, lookup_insert_eq.
  eexists. split; [reflexivity|]. rewrite Hagent. repeat split; reflexivity.
Qed.

Lemma evaluation_of_a_new_agent_witness :
  exists ev,
    evaluate_agent_performance
      (snd (fst (create_specialized_agent Scenarios.repository "a2" "paper-2"
                   "analysis" "trends" "gpt-4" [])))
      [] "a2" = inr ev
    /\ performance_rating ev = "unrated"
    /\ experience_level ev = "novice"
    /\ is_collaboration_ready ev = false
    /\ total_queries (metrics ev) = 0%Z
    /\ failed_queries (metrics ev) = 0%Z
    /\ average_response_time (metrics ev) = 0%float
    /\ recommendations ev = [improve_response_quality; gain_more_experience].
Proof.
  refine (evaluation_of_a_new_agent Scenarios.repository "a2" "paper-2"
            "analysis" "trends" "gpt-4" []
            {| id := "a2"; paper_id := "paper-2"; agent_type := "analysis";
               model_name := "gpt-4"; specialization := Some "trends";
               status := "initializing"; conversation_count := 0;
               response_time_avg := None; user_rating_avg := None;
               capabilities := Some (_get_capabilities_for_type "analysis") |}
            _ _ eq_refl).
Defined.

End DomainService.

(* ===================================================================== *)
(** ** [agent_coordinator.py]: what a message to a conversation does      *)
(* ===================================================================== *)

Section ConversationMessages.
Import Conversations.

(** [PaperAgent.query] always returns. It logs the question, and the
    failure of its executor when it answers with an apology. *)
Lemma query_cases agent trace question :
  exists r agent' written failures,
    query agent trace question = (inr r, agent', written)
    /\ info_lines written = [("Paper agent query: " ++ question)%string]
    /\ error_lines written = map QueryFailed failures
    /\ sublist (map apology failures) [response r].
Proof.
  unfold query. destruct (invoked _) as [output|e].
  - eexists _, _, _, []. split; [reflexivity|]. split; [reflexivity|].
    split; [reflexivity|]. apply sublist_nil_l.
  - eexists _, _, _, [e]. split; [reflexivity|]. split; [reflexivity|].
    split; reflexivity.
Qed.

Lemma query_history_bound agent trace question :
  (length (conversation_history (snd (fst (query agent trace question)))) <= 20)%nat
  \/ conversation_history (snd (fst (query agent trace question)))
     = conversation_history agent.
Proof.
  unfold query. destruct (invoked _); [|right; reflexivity].
  left. cbn [fst snd set_conversation_history conversation_history].
  destruct (20 <? _)%nat eqn:Hlen.
  - unfold last_n. rewrite length_drop. lia.
  - apply Nat.ltb_ge in Hlen. exact Hlen.
Qed.

Lemma set_messages_app c ms1 ms2 :
  set_messages (messages (set_messages (messages c ++ ms1) c) ++ ms2)
               (set_messages (messages c ++ ms1) c)
  = set_messages (messages c ++ ms1 ++ ms2) c.
Proof.
  unfold set_messages. cbn. rewrite <- app_assoc. reflexivity.
Qed.

Lemma set_messages_nil c : set_messages (messages c ++ []) c = c.
Proof.
  destruct c. unfold set_messages. cbn. rewrite app_nil_r. reflexivity.
Qed.

Lemma appended_nil ref m : appended ref [] m = m.
Proof.
  unfold appended. apply alter_id. intros c _. apply set_messages_nil.
Qed.

Lemma appended_app ref ms1 ms2 m :
  appended ref ms2 (appended ref ms1 m) = appended ref (ms1 ++ ms2) m.
Proof.
  unfold appended. rewrite alter_alter_eq. apply alter_ext.
  intros c _. simpl. apply set_messages_app.
Qed.

Lemma appended_lookup ref ms m c :
  m !! ref = Some c -> appended ref ms m !! ref = Some (set_messages (messages c ++ ms) c).
Proof.
  intros Hc. unfold appended. rewrite lookup_alter_eq, Hc. reflexivity.
Qed.

Lemma follows_refl ref s : follows ref s s [] [] [].
Proof.
  split; try reflexivity; cbn [map].
  - rewrite app_nil_r. reflexivity.
  - rewrite appended_nil. reflexivity.
  - rewrite app_nil_r. reflexivity.
  - rewrite app_nil_r. reflexivity.
Qed.

Lemma follows_trans ref s1 s2 s3 qs1 ms1 fs1 qs2 ms2 fs2 :
  follows ref s1 s2 qs1 ms1 fs1 -> follows ref s2 s3 qs2 ms2 fs2 ->
  follows ref s1 s3 (qs1 ++ qs2) (ms1 ++ ms2) (fs1 ++ fs2).
Proof.
  intros [Hq1 Hc1 Ha1 Hr1 Hi1 He1] [Hq2 Hc2 Ha2 Hr2 Hi2 He2]. split.
  - rewrite Hq2, Hq1, app_assoc. reflexivity.
  - rewrite Hc2, Hc1. apply appended_app.
  - intros paper. rewrite Ha2. apply Ha1.
  - congruence.
  - rewrite Hi2, Hi1, map_app, app_assoc. reflexivity.
  - rewrite He2, He1, map_app, app_assoc. reflexivity.
Qed.

Lemma follows_append_message ref m s : follows ref s (append_message ref m s) [] [m] [].
Proof.
  split; try reflexivity; cbn; rewrite app_nil_r; reflexivity.
Qed.

Lemma follows_queried ref paper question agent agent' took written failures s :
  active_agents s !! paper = Some agent ->
  info_lines written = [("Paper agent query: " ++ question)%string] ->
  error_lines written = map QueryFailed failures ->
  follows ref s (queried paper question agent' took written s)
          [{| asked_agent := paper; asked_question := question |}] [] failures.
Proof.
  intros Hpaper Hinfo Herr. split; try reflexivity.
  - cbn. rewrite appended_nil. reflexivity.
  - intros p. cbn. destruct (decide (p = paper)) as [->|Hne].
    + rewrite lookup_insert_eq, Hpaper. split; eauto.
    + rewrite lookup_insert_ne by congruence. reflexivity.
  - cbn. rewrite Hinfo. reflexivity.
  - cbn. rewrite Herr. reflexivity.
Qed.

(** One turn of either loop, when the agent answers. *)
Lemma follows_turn ref paper question agent agent' took written failures answer s :
  active_agents s !! paper = Some agent ->
  info_lines written = [("Paper agent query: " ++ question)%string] ->
  error_lines written = map QueryFailed failures ->
  follows ref s
    (append_message ref
       (agent_message paper answer (queried paper question agent' took written s))
       (queried paper question agent' took written s))
    [{| asked_agent := paper; asked_question := question |}]
    [agent_message paper answer (queried paper question agent' took written s)]
    failures.
Proof.
  intros Hpaper Hinfo Herr.
  pose proof (follows_trans _ _ _ _ _ _ _ _ _ _
                (follows_queried ref paper question agent agent' took written failures s
                                 Hpaper Hinfo Herr)
                (follows_append_message ref
                   (agent_message paper answer
                      (queried paper question agent' took written s)) _)) as Hturn.
  rewrite (app_nil_r failures) in Hturn. exact Hturn.
Qed.

Lemma all_registered_follows ref s s' qs ms fs papers :
  follows ref s s' qs ms fs -> all_registered papers s -> all_registered papers s'.
Proof.
  intros Hf Hall. unfold all_registered in *.
  eapply Forall_impl; [exact Hall|]. intros p Hp.
  apply (follows_agents _ _ _ _ _ _ Hf). exact Hp.
Qed.

(** The loop of [_handle_user_message] when every participant is
    registered: one answer, one query and one message per participant, in
    order. *)
Lemma user_message_loop_ok ref c message participants : forall responses s,
  all_registered participants s ->
  exists rs qs ms fs s',
    user_message_loop ref c message participants responses s = (inr (responses ++ rs), s')
    /\ follows ref s s' qs ms fs
    /\ map replying_agent rs = participants
    /\ Forall is_answer rs
    /\ map asked_agent qs = participants
    /\ map agent_id ms = map Some participants
    /\ map content ms = map answer_of rs
    /\ sublist (map apology fs) (map answer_of rs).
Proof.
  induction participants as [|paper rest IH]; intros responses s Hall.
  - exists [], [], [], [], s. simpl. rewrite app_nil_r.
    split; [reflexivity|]. split; [apply follows_refl|].
    split; [reflexivity|]. split; [constructor|].
    split; [reflexivity|]. split; [reflexivity|]. split; [reflexivity|]. constructor.
  - apply Forall_cons in Hall as [[agent Hagent] Hrest].
    cbn [user_message_loop]. rewrite Hagent.
    set (prompt := user_context_prompt (topic c) message (title (paper_context agent))).
    destruct (query_cases agent (queries s) prompt)
      as (r & agent' & written & fs0 & Hquery & Hinfo & Herr & Hsub).
    rewrite Hquery.
    set (took := seconds _).
    pose proof (follows_turn ref paper prompt agent agent' took written fs0 (response r) s
                  Hagent Hinfo Herr) as Hturn.
    set (s1 := append_message ref _ _) in *.
    destruct (IH (responses ++ [Responded paper (title (paper_context agent)) (response r)])
                 s1 (all_registered_follows _ _ _ _ _ _ _ Hturn Hrest))
      as (rs & qs & ms & fs & s' & Hrun & Hf & Hrs & Hans & Hqs & Hms & Hcontent & Hfs).
    eexists (_ :: rs), (_ :: qs), (_ :: ms), (fs0 ++ fs), s'.
    rewrite Hrun, <- app_assoc.
    split; [reflexivity|].
    split; [exact (follows_trans _ _ _ _ _ _ _ _ _ _ Hturn Hf)|].
    cbn. rewrite Hrs, Hqs, Hms, Hcontent.
    split; [reflexivity|]. split; [constructor; [exact I|exact Hans]|].
    split; [reflexivity|]. split; [reflexivity|]. split; [reflexivity|].
    rewrite map_app. exact (sublist_app _ _ _ _ Hsub Hfs).
Qed.

Lemma messages_at_follows ref s s' qs ms fs c :
  follows ref s s' qs ms fs -> conversations s !! ref = Some c ->
  conversations s' !! ref = Some (set_messages (messages c ++ ms) c)
  /\ messages_at ref s' = messages c ++ ms.
Proof.
  intros Hf Hc. unfold messages_at.
  rewrite (follows_conversations _ _ _ _ _ _ Hf), (appended_lookup _ _ _ _ Hc).
  split; reflexivity.
Qed.

Lemma asked_since_follows ref s s' qs ms fs :
  follows ref s s' qs ms fs -> asked_since s s' = qs.
Proof.
  intros Hf. unfold asked_since. rewrite (follows_queries _ _ _ _ _ _ Hf).
  rewrite drop_app_length. reflexivity.
Qed.

(** [_handle_user_message] when every participant is registered. *)
Lemma handle_user_message_ok ref c message s :
  all_registered (participating_agents c) s ->
  exists r qs ms fs s',
    _handle_user_message ref c message s = (inr r, s')
    /\ follows ref s s' qs (user_message_of message s :: ms) fs
    /\ um_conversation_id r = conversation_id c
    /\ map replying_agent (agent_responses r) = participating_agents c
    /\ Forall is_answer (agent_responses r)
    /\ map asked_agent qs = participating_agents c
    /\ map agent_id ms = map Some (participating_agents c)
    /\ map content ms = map answer_of (agent_responses r)
    /\ sublist (map apology fs) (map answer_of (agent_responses r)).
Proof.
  intros Hall. unfold _handle_user_message.
  pose proof (follows_append_message ref (user_message_of message s) s) as Hfirst.
  set (s0 := append_message ref _ s) in *.
  destruct (user_message_loop_ok ref c message (participating_agents c) [] s0
              (all_registered_follows _ _ _ _ _ _ _ Hfirst Hall))
    as (rs & qs & ms & fs & s' & Hrun & Hf & Hrs & Hans & Hqs & Hms & Hcontent & Hfs).
  rewrite Hrun. simpl. eexists _, qs, ms, fs, s'.
  split; [reflexivity|].
  split; [exact (follows_trans _ _ _ _ _ _ _ _ _ _ Hfirst Hf)|].
  cbn. auto 10.
Qed.

(** A message from the user, from nobody or from an outsider is handled
    by [_handle_user_message]. *)
Lemma send_message_as_user cid message sender_id s c :
  conversations s !! cid = Some c ->
  (sender_id = Some "user" \/ forall x, sender_id = Some x -> x ∉ participating_agents c) ->
  send_message_to_conversation cid message sender_id s
  = to_send_result UserMessageHandled (_handle_user_message cid c message s).
Proof.
  intros Hc Hsender. unfold send_message_to_conversation. rewrite Hc.
  destruct sender_id as [sender|]; [|reflexivity].
  destruct (String.eqb_spec sender "user") as [->|Hne]; [reflexivity|].
  destruct Hsender as [Huser|Hout]; [congruence|].
  rewrite bool_decide_eq_false_2 by (apply Hout; reflexivity). reflexivity.
Qed.



Lemma shutdown_conversation_lookup cid s c :
  conversations s !! cid = Some c ->
  conversations (shutdown_conversation cid s) !! cid = Some (set_status "completed" c)
  /\ active_agents (shutdown_conversation cid s) = active_agents s.
Proof.
  intros Hc. unfold shutdown_conversation. rewrite Hc. cbn.
  rewrite lookup_alter_eq, Hc. split; reflexivity.
Qed.

(** X20: [shutdown_conversation] marks a conversation as completed and does
    nothing else to it: a message sent afterwards is handled as before.
    Every participant is asked and answers, the messages are added to the
    conversation, and its status stays "completed". *)
Theorem completed_conversation_still_answers cid message sender_id s c :
  conversations s !! cid = Some c ->
  all_registered (participating_agents c) s ->
  (sender_id = Some "user" \/ forall x, sender_id = Some x -> x ∉ participating_agents c) ->
  exists r s' c',
    send_message_to_conversation cid message sender_id (shutdown_conversation cid s)
    = (inr (UserMessageHandled r), s')
    /\ map replying_agent (agent_responses r) = participating_agents c
    /\ conversations s' !! cid = Some c'
    /\ status c' = "completed"
    /\ length (messages c')
       = (length (messages c) + 1 + length (participating_agents c))%nat.
Proof.
  intros Hc Hall Hsender.
  destruct (shutdown_conversation_lookup cid s c Hc) as [Hc1 Hagents].
  set (s1 := shutdown_conversation cid s) in *.
  set (c1 := set_status "completed" c) in *.
  assert (Hall1 : all_registered (participating_agents c1) s1).
  { unfold all_registered. rewrite Hagents. exact Hall. }
  rewrite (send_message_as_user cid message sender_id s1 c1 Hc1 Hsender).
  destruct (handle_user_message_ok cid c1 message s1 Hall1)
    as (r & qs & ms & fs & s' & Hrun & Hf & _ & Hrs & _ & _ & Hms & _).
  rewrite Hrun. cbn [to_send_result].
  destruct (messages_at_follows _ _ _ _ _ _ _ Hf Hc1) as [Hc' _].
  exists r, s', (set_messages (messages c1 ++ user_message_of message s1 :: ms) c1).
  split; [reflexivity|]. split; [exact Hrs|]. split; [exact Hc'|].
  split; [reflexivity|].
  cbn. rewrite length_app. cbn. apply (f_equal (@length _)) in Hms.
  rewrite !length_map in Hms. cbn in Hms. lia.
Qed.

Lemma completed_conversation_still_answers_witness :
  exists r s' c',
    send_message_to_conversation Cases.talking_id "one more question" None
      (shutdown_conversation Cases.talking_id Cases.talking)
    = (inr (UserMessageHandled r), s')
    /\ map replying_agent (agent_responses r) = participating_agents Cases.talk
    /\ conversations s' !! Cases.talking_id = Some c'
    /\ status c' = "completed"
    /\ length (messages c')
       = (length (messages Cases.talk) + 1 + length (participating_agents Cases.talk))%nat.
Proof.
  apply (completed_conversation_still_answers Cases.talking_id "one more question" None
           Cases.talking Cases.talk).
  - reflexivity.
  - change (participating_agents Cases.talk) with ["p1"; "p2"; "p3"].
    repeat (apply Forall_cons; split; [eexists; reflexivity|]). apply Forall_nil_2.
  - right. intros x Hx. discriminate.
Defined.

(** The loop of [_handle_agent_message] when the agents to ask are all
    registered. *)
Lemma agent_message_loop_ok ref c message sender_agent others : forall responses s,
  all_registered others s ->
  exists rs qs ms fs s',
    agent_message_loop ref c message sender_agent others responses s
    = (inr (responses ++ rs), s')
    /\ follows ref s s' qs ms fs
    /\ map replying_agent rs = others
    /\ Forall is_answer rs
    /\ map asked_agent qs = others
    /\ map agent_id ms = map Some others
    /\ map content ms = map answer_of rs
    /\ sublist (map apology fs) (map answer_of rs).
Proof.
  induction others as [|paper rest IH]; intros responses s Hall.
  - exists [], [], [], [], s. simpl. rewrite app_nil_r.
    split; [reflexivity|]. split; [apply follows_refl|].
    split; [reflexivity|]. split; [constructor|].
    split; [reflexivity|]. split; [reflexivity|]. split; [reflexivity|]. constructor.
  - apply Forall_cons in Hall as [[agent Hagent] Hrest].
    cbn [agent_message_loop]. rewrite Hagent.
    set (prompt := agent_context_prompt (topic c) (title (paper_context sender_agent))
                                        message (title (paper_context agent))).
    destruct (query_cases agent (queries s) prompt)
      as (r & agent' & written & fs0 & Hquery & Hinfo & Herr & Hsub).
    rewrite Hquery.
    set (took := seconds _).
    pose proof (follows_turn ref paper prompt agent agent' took written fs0 (response r) s
                  Hagent Hinfo Herr) as Hturn.
    set (s1 := append_message ref _ _) in *.
    destruct (IH (responses ++ [Responded paper (title (paper_context agent)) (response r)])
                 s1 (all_registered_follows _ _ _ _ _ _ _ Hturn Hrest))
      as (rs & qs & ms & fs & s' & Hrun & Hf & Hrs & Hans & Hqs & Hms & Hcontent & Hfs).
    eexists (_ :: rs), (_ :: qs), (_ :: ms), (fs0 ++ fs), s'.
    rewrite Hrun, <- app_assoc.
    split; [reflexivity|].
    split; [exact (follows_trans _ _ _ _ _ _ _ _ _ _ Hturn Hf)|].
    cbn. rewrite Hrs, Hqs, Hms, Hcontent.
    split; [reflexivity|]. split; [constructor; [exact I|exact Hans]|].
    split; [reflexivity|]. split; [reflexivity|]. split; [reflexivity|].
    rewrite map_app. exact (sublist_app _ _ _ _ Hsub Hfs).
Qed.

(** X21: a message sent by a participant goes to the other participants
    only, provided all are registered: the sender is not asked, every other
    participant is asked once, in order, and answers; the conversation gains
    the sender's message followed by their responses. A participant listed
    twice is left out at both places when it is the sender. *)
Theorem agent_message_skips_the_sender cid message sender s c :
  conversations s !! cid = Some c ->
  all_registered (participating_agents c) s ->
  sender ∈ participating_agents c ->
  sender <> "user" ->
  exists r s' ms,
    send_message_to_conversation cid message (Some sender) s
    = (inr (AgentMessageHandled r), s')
    /\ sender_agent_id r = sender
    /\ map replying_agent (responses r)
       = filter (fun paper => paper <> sender) (participating_agents c)
    /\ map asked_agent (asked_since s s')
       = filter (fun paper => paper <> sender) (participating_agents c)
    /\ (sender ∉ map asked_agent (asked_since s s'))
    /\ messages_at cid s' = messages c ++ agent_message sender message s :: ms
    /\ map agent_id ms
       = map Some (filter (fun paper => paper <> sender) (participating_agents c))
    /\ map content ms = map answer_of (responses r).
Proof.
  intros Hc Hall Hin Hne. unfold send_message_to_conversation. rewrite Hc.
  destruct (String.eqb_spec sender "user") as [Huser|_]; [contradiction|].
  rewrite bool_decide_eq_true_2 by exact Hin.
  unfold _handle_agent_message.
  assert (Hsender : is_Some (active_agents s !! sender)).
  { unfold all_registered in Hall. rewrite Forall_forall in Hall. apply Hall. exact Hin. }
  destruct Hsender as [sender_agent Hsender]. rewrite Hsender.
  pose proof (follows_append_message cid (agent_message sender message s) s) as Hfirst.
  set (s0 := append_message cid _ s) in *.
  set (others := filter (fun pid => pid <> sender) (participating_agents c)).
  assert (Hothers : all_registered others s0).
  { apply (all_registered_follows _ _ _ _ _ _ _ Hfirst).
    unfold all_registered, others. apply Forall_forall. intros p Hp.
    apply list_elem_of_filter in Hp as [_ Hp].
    unfold all_registered in Hall. rewrite Forall_forall in Hall. exact (Hall p Hp). }
  destruct (agent_message_loop_ok cid c message sender_agent others [] s0 Hothers)
    as (rs & qs & ms & fs & s' & Hrun & Hf & Hrs & _ & Hqs & Hms & Hcontent & _).
  rewrite Hrun. cbn [to_send_result app].
  pose proof (follows_trans _ _ _ _ _ _ _ _ _ _ Hfirst Hf) as Hall_f.
  exists {| am_conversation_id := conversation_id c; sender_agent_id := sender;
            sender_paper_title := title (paper_context sender_agent);
            message := message; responses := rs |}, s', ms.
  cbn [sender_agent_id responses].
  split; [reflexivity|]. split; [reflexivity|]. split; [exact Hrs|].
  rewrite (asked_since_follows _ _ _ _ _ _ Hall_f). cbn [app].
  split; [exact Hqs|].
  split.
  { rewrite Hqs. unfold others. intros Habs.
    apply list_elem_of_filter in Habs as [Habs _]. apply Habs. reflexivity. }
  split; [exact (proj2 (messages_at_follows _ _ _ _ _ _ _ Hall_f Hc))|].
  split; [exact Hms|exact Hcontent].
Qed.

Lemma agent_message_skips_the_sender_witness :
  exists r s' ms,
    send_message_to_conversation Cases.talking_id "I disagree" (Some "p2") Cases.talking
    = (inr (AgentMessageHandled r), s')
    /\ sender_agent_id r = "p2"
    /\ map replying_agent (responses r)
       = filter (fun paper => paper <> "p2") (participating_agents Cases.talk)
    /\ map asked_agent (asked_since Cases.talking s')
       = filter (fun paper => paper <> "p2") (participating_agents Cases.talk)
    /\ ("p2" ∉ map asked_agent (asked_since Cases.talking s'))
    /\ messages_at Cases.talking_id s'
       = messages Cases.talk ++ agent_message "p2" "I disagree" Cases.talking :: ms
    /\ map agent_id ms
       = map Some (filter (fun paper => paper <> "p2") (participating_agents Cases.talk))
    /\ map content ms = map answer_of (responses r).
Proof.
  apply (agent_message_skips_the_sender Cases.talking_id "I disagree" "p2"
           Cases.talking Cases.talk).
  - reflexivity.
  - change (participating_agents Cases.talk) with ["p1"; "p2"; "p3"].
    repeat (apply Forall_cons; split; [eexists; reflexivity|]). apply Forall_nil_2.
  - change (participating_agents Cases.talk) with ["p1"; "p2"; "p3"].
    apply list_elem_of_In. simpl. tauto.
  - discriminate.
Defined.





Lemma omap_registered (s : Coordinator) (papers : list string) :
  map info_paper_id
      (omap (fun paper =>
               match active_agents s !! paper with
               | Some agent =>
                 Some {| info_paper_id := paper;
                         info_title := title (paper_context agent);
                         info_authors := authors (paper_context agent) |}
               | None => None
               end) papers)
  = filter (fun paper => is_Some (active_agents s !! paper)) papers.
Proof.
  induction papers as [|paper rest IH]; [reflexivity|].
  rewrite filter_cons. simpl omap.
  destruct (active_agents s !! paper) as [agent|] eqn:Hp.
  - rewrite decide_True by eauto. simpl map. f_equal. exact IH.
  - rewrite decide_False by (intros [? ?]; discriminate). exact IH.
Qed.

(** X23: the summary of a conversation counts all its messages but shows
    the last ten of them at most, and it lists the participants that are
    still registered, in order: an agent removed since the start is left out
    without a word. *)
Theorem summary_shows_the_last_ten_messages cid s c :
  conversations s !! cid = Some c ->
  exists sm,
    get_conversation_summary cid s = inr sm
    /\ message_count sm = len (messages c)
    /\ summary_messages sm = drop (length (messages c) - 10) (messages c)
    /\ length (summary_messages sm) = Nat.min 10 (length (messages c))
    /\ map info_paper_id (participating_papers sm)
       = filter (fun paper => is_Some (active_agents s !! paper)) (participating_agents c).
Proof.
  intros Hc. unfold get_conversation_summary. rewrite Hc.
  eexists. split; [reflexivity|].
  cbn [message_count summary_messages participating_papers]. unfold last_n.
  split; [reflexivity|]. split; [reflexivity|].
  split; [rewrite length_drop; lia|]. apply omap_registered.
Qed.

Lemma summary_shows_the_last_ten_messages_witness :
  exists sm,
    get_conversation_summary Cases.talking_id (remove_agent "p2" Cases.talking) = inr sm
    /\ message_count sm = len (messages Cases.talk)
    /\ summary_messages sm
       = drop (length (messages Cases.talk) - 10) (messages Cases.talk)
    /\ length (summary_messages sm) = Nat.min 10 (length (messages Cases.talk))
    /\ map info_paper_id (participating_papers sm)
       = filter (fun paper =>
                   is_Some (active_agents (remove_agent "p2" Cases.talking) !! paper))
                (participating_agents Cases.talk).
Proof.
  apply (summary_shows_the_last_ten_messages Cases.talking_id
           (remove_agent "p2" Cases.talking) Cases.talk).
  reflexivity.
Defined.

Section AgentInvariant.
Variable P : PaperAgent -> Prop.
Hypothesis query_keeps : forall agent trace question,
  P agent -> P (snd (fst (query agent trace question))).

Lemma user_message_loop_every_agent ref c message participants : forall responses s,
  every_agent P s ->
  every_agent P (snd (user_message_loop ref c message participants responses s)).
Proof.
  induction participants as [|paper rest IH]; intros responses s Hall; [exact Hall|].
  cbn [user_message_loop].
  destruct (active_agents s !! paper) as [agent|] eqn:Hp; [|exact Hall].
  pose proof (query_keeps agent (queries s)
                (user_context_prompt (topic c) message (title (paper_context agent)))
                (Hall paper agent Hp)) as Hkeep.
  destruct (query agent (queries s) _) as [[[e|r] agent'] written]; simpl in Hkeep;
    apply IH; intros p a Hpa; cbn in Hpa;
    (apply lookup_insert_Some in Hpa as [[_ <-]|[_ Hpa]];
     [exact Hkeep|exact (Hall p a Hpa)]).
Qed.

Lemma agent_message_loop_every_agent ref c message sender_agent others :
  forall responses s,
  every_agent P s ->
  every_agent P (snd (agent_message_loop ref c message sender_agent others responses s)).
Proof.
  induction others as [|paper rest IH]; intros responses s Hall; [exact Hall|].
  cbn [agent_message_loop].
  destruct (active_agents s !! paper) as [agent|] eqn:Hp; [|exact Hall].
  pose proof (query_keeps agent (queries s)
                (agent_context_prompt (topic c) (title (paper_context sender_agent))
                                      message (title (paper_context agent)))
                (Hall paper agent Hp)) as Hkeep.
  destruct (query agent (queries s) _) as [[[e|r] agent'] written]; simpl in Hkeep;
    apply IH; intros p a Hpa; cbn in Hpa;
    (apply lookup_insert_Some in Hpa as [[_ <-]|[_ Hpa]];
     [exact Hkeep|exact (Hall p a Hpa)]).
Qed.

Lemma handle_user_message_every_agent ref c message s :
  every_agent P s ->
  every_agent P (snd (to_send_result UserMessageHandled
                        (_handle_user_message ref c message s))).
Proof.
  intros Hall. unfold _handle_user_message.
  pose proof (user_message_loop_every_agent ref c message (participating_agents c) []
                (append_message ref (user_message_of message s) s) Hall) as Hloop.
  destruct (user_message_loop _ _ _ _ _ _) as [[e|rs] s']; exact Hloop.
Qed.

Lemma send_message_every_agent cid message sender_id s :
  every_agent P s ->
  every_agent P (snd (send_message_to_conversation cid message sender_id s)).
Proof.
  intros Hall. unfold send_message_to_conversation.
  destruct (conversations s !! cid) as [c|]; [|exact Hall].
  destruct sender_id as [sender|];
    [|apply handle_user_message_every_agent; exact Hall].
  destruct (String.eqb sender "user");
    [apply handle_user_message_every_agent; exact Hall|].
  destruct (bool_decide _);
    [|apply handle_user_message_every_agent; exact Hall].
  unfold _handle_agent_message.
  destruct (active_agents s !! sender) as [sender_agent|]; [|exact Hall].
  pose proof (agent_message_loop_every_agent cid c message sender_agent
                (filter (fun pid => pid <> sender) (participating_agents c)) []
                (append_message cid (agent_message sender message s) s) Hall) as Hloop.
  destruct (agent_message_loop _ _ _ _ _ _ _) as [[e|rs] s']; exact Hloop.
Qed.

End AgentInvariant.

(** X24: no message makes an agent's conversation history longer than 20
    entries. If every registered agent has at most 20 entries before
    [send_message_to_conversation], so it is afterwards, whoever sends and
    whether the call returns or raises: [PaperAgent.query] cuts the history
    back to its last 20 entries when it answers, and leaves it alone when its
    executor fails. *)
Theorem agent_histories_stay_short cid message sender_id s :
  every_agent (fun agent => (length (conversation_history agent) <= 20)%nat) s ->
  every_agent (fun agent => (length (conversation_history agent) <= 20)%nat)
              (snd (send_message_to_conversation cid message sender_id s)).
Proof.
  apply send_message_every_agent.
  intros agent trace question Hshort.
  destruct (query_history_bound agent trace question) as [Hle|Heq]; [exact Hle|].
  rewrite Heq. exact Hshort.
Qed.

Lemma agent_histories_stay_short_witness :
  every_agent (fun agent => (length (conversation_history agent) <= 20)%nat)
              (snd (send_message_to_conversation Cases.talking_id "hello" (Some "user")
                      Cases.talking)).
Proof.
  apply (agent_histories_stay_short Cases.talking_id "hello" (Some "user") Cases.talking).
  intros paper agent Hagent.
  change (active_agents Cases.talking) with (active_agents Cases.three_papers) in Hagent.
  unfold Cases.three_papers in Hagent. cbn [active_agents] in Hagent.
  apply lookup_insert_Some in Hagent as [[_ <-]|[_ Hagent]]; [cbn; lia|].
  apply lookup_insert_Some in Hagent as [[_ <-]|[_ Hagent]]; [cbn; lia|].
  apply lookup_singleton_Some in Hagent as [_ <-]. cbn; lia.
Defined.

End ConversationMessages.

(* ===================================================================== *)
(** ** [agent_coordinator.py]: the ids of the conversations               *)
(* ===================================================================== *)

Section ConversationIds.
Import Conversations.

Lemma string_app_assoc (a b c : string) : ((a ++ b) ++ c = a ++ (b ++ c))%string.
Proof.
  induction a as [|x a IH]; [reflexivity|].
  change (String x ((a ++ b) ++ c) = String x (a ++ (b ++ c)))%string.
  f_equal. exact IH.
Qed.

Lemma list_ascii_of_string_app (a b : string) :
  list_ascii_of_string (a ++ b)%string = list_ascii_of_string a ++ list_ascii_of_string b.
Proof.
  induction a as [|x a IH]; [reflexivity|].
  change (x :: list_ascii_of_string (a ++ b)%string
          = x :: (list_ascii_of_string a ++ list_ascii_of_string b)).
  f_equal. exact IH.
Qed.

Lemma pretty_N_char_no_underscore x : pretty_N_char x <> "_"%char.
Proof.
  unfold pretty_N_char. repeat case_match; discriminate.
Qed.

(** The decimal digits come before what was accumulated, and none of them
    is an underscore. *)
Lemma pretty_N_go_digits x : forall s,
  exists d, pretty_N_go x s = (d ++ s)%string
            /\ Forall (fun a => a <> "_"%char) (list_ascii_of_string d).
Proof.
  induction (N.lt_wf_0 x) as [x _ IH]. intros s.
  destruct (decide (x = 0%N)) as [->|Hx].
  - exists ""%string. rewrite pretty_N_go_0. split; [reflexivity|constructor].
  - rewrite pretty_N_go_step by lia.
    destruct (IH (x `div` 10)%N (N.div_lt x 10 ltac:(lia) ltac:(lia))
                 (String (pretty_N_char (x `mod` 10)) s)) as (d & -> & Hd).
    exists (d ++ String (pretty_N_char (x `mod` 10)) "")%string. split.
    + rewrite string_app_assoc. reflexivity.
    + rewrite list_ascii_of_string_app. apply Forall_app. split; [exact Hd|].
      simpl. constructor; [apply pretty_N_char_no_underscore|constructor].
Qed.

Lemma str_of_nat_no_underscore n :
  Forall (fun a => a <> "_"%char) (list_ascii_of_string (str_of_nat n)).
Proof.
  unfold str_of_nat, pretty, pretty_nat, pretty, pretty_N.
  destruct (decide (N.of_nat n = 0%N)).
  - simpl. constructor; [discriminate|constructor].
  - destruct (pretty_N_go_digits (N.of_nat n) "") as (d & -> & Hd).
    rewrite list_ascii_of_string_app, app_nil_r. exact Hd.
Qed.

(** Two texts without underscore that are followed by one are equal when
    the whole strings are. *)
Lemma until_underscore (d d' t t' : string) :
  Forall (fun a => a <> "_"%char) (list_ascii_of_string d) ->
  Forall (fun a => a <> "_"%char) (list_ascii_of_string d') ->
  (d ++ "_" ++ t = d' ++ "_" ++ t')%string -> d = d'.
Proof.
  revert d'. induction d as [|x d IH]; intros [|x' d'] Hd Hd' Heq.
  - reflexivity.
  - simpl in Heq. injection Heq as Hx _. subst x'.
    simpl in Hd'. apply Forall_cons in Hd' as [Hx' _]. contradiction.
  - simpl in Heq. injection Heq as Hx _. subst x.
    simpl in Hd. apply Forall_cons in Hd as [Hx _]. contradiction.
  - simpl in Heq. injection Heq as -> Heq.
    simpl in Hd, Hd'. apply Forall_cons in Hd as [_ Hd]. apply Forall_cons in Hd' as [_ Hd'].
    f_equal. exact (IH d' Hd Hd' Heq).
Qed.

(** The number in the id of a conversation can be read back. *)
Lemma conversation_number_inj n m (t t' : string) :
  ("conv_" ++ str_of_nat n ++ "_" ++ t = "conv_" ++ str_of_nat m ++ "_" ++ t')%string ->
  n = m.
Proof.
  intros Heq. simpl in Heq. injection Heq as Heq.
  apply until_underscore in Heq; try apply str_of_nat_no_underscore.
  unfold str_of_nat in Heq. exact (inj pretty _ _ Heq).
Qed.

Lemma initialize_conversation_ok ref c s s' :
  _initialize_conversation ref c s = (inr tt, s') ->
  exists text, s' = append_message ref (system_message text s) s.
Proof.
  unfold _initialize_conversation.
  destruct (conversation_type c).
  - destruct (paper_titles _ _); [discriminate|]. intros [= <-]. eauto.
  - intros [= <-]. eauto.
  - intros [= <-]. eauto.
  - intros [= <-]. eauto.
Qed.

(** X25: started conversations never replace one another. In a
    coordinator whose conversations are numbered as [start_conversation]
    numbers them, a successful [start_conversation] returns an id that was
    not in use, stores under it a conversation with the given participants,
    status "active" and exactly one message, leaves every other conversation
    as it was, and the conversations are still numbered. *)
Theorem conversation_ids_are_fresh paper_ids topic conversation_type s cid s' :
  numbered s ->
  start_conversation paper_ids topic conversation_type s = (inr cid, s') ->
  conversations s !! cid = None
  /\ numbered s'
  /\ size (conversations s') = S (size (conversations s))
  /\ (forall key, key <> cid -> conversations s' !! key = conversations s !! key)
  /\ exists c, conversations s' !! cid = Some c
               /\ conversation_id c = cid
               /\ participating_agents c = paper_ids
               /\ status c = "active"
               /\ length (messages c) = 1%nat.
Proof.
  intros Hnum Hrun. unfold start_conversation in Hrun.
  destruct (filter _ paper_ids) as [|missing rest]; [|discriminate].
  set (new_id := new_conversation_id topic s) in *.
  set (c0 := {| conversation_id := new_id; conversation_type := conversation_type;
                participating_agents := paper_ids; topic := topic; messages := [];
                status := "active" |}) in *.
  set (s0 := set_conversations (insert new_id c0) s) in *.
  destruct (_initialize_conversation new_id c0 s0) as [[e|[]] s1] eqn:Hinit;
    [discriminate|].
  injection Hrun as <- <-.
  apply initialize_conversation_ok in Hinit as [text ->].
  assert (Hfresh : conversations s !! new_id = None).
  { destruct (conversations s !! new_id) as [c|] eqn:Hc; [|reflexivity].
    destruct (Hnum new_id (ltac:(eauto))) as (n & t & Hlt & Heq).
    unfold new_id, new_conversation_id in Heq.
    apply conversation_number_inj in Heq. lia. }
  assert (Hconv : conversations (log_info
                    ("Started " ++ conversation_type_value conversation_type
                     ++ " conversation: " ++ new_id)%string
                    (append_message new_id (system_message text s0) s0))
                  = <[new_id := set_messages [system_message text s0] c0]> (conversations s)).
  { cbn [log_info conversations]. unfold append_message, s0. cbn [set_conversations conversations].
    rewrite alter_insert_eq. reflexivity. }
  rewrite Hconv.
  split; [exact Hfresh|]. split.
  { intros key Hkey. rewrite Hconv in Hkey. rewrite Hconv.
    rewrite map_size_insert_None by exact Hfresh.
    destruct (decide (key = new_id)) as [->|Hne].
    - exists (size (conversations s)), (str_prefix 20 topic). split; [lia|reflexivity].
    - rewrite lookup_insert_ne in Hkey by congruence.
      destruct (Hnum key Hkey) as (n & t & Hlt & Heq). exists n, t. split; [lia|exact Heq]. }
  split; [apply map_size_insert_None; exact Hfresh|].
  split; [intros key Hne; apply lookup_insert_ne; congruence|].
  eexists. split; [apply lookup_insert_eq|]. auto.
Qed.

Lemma conversation_ids_are_fresh_witness :
  conversations Cases.three_papers !! Cases.talking_id = None
  /\ numbered Cases.talking
  /\ size (conversations Cases.talking) = S (size (conversations Cases.three_papers))
  /\ (forall key, key <> Cases.talking_id ->
        conversations Cases.talking !! key = conversations Cases.three_papers !! key)
  /\ exists c, conversations Cases.talking !! Cases.talking_id = Some c
               /\ conversation_id c = Cases.talking_id
               /\ participating_agents c = ["p1"; "p2"; "p3"]
               /\ status c = "active"
               /\ length (messages c) = 1%nat.
Proof.
  apply (conversation_ids_are_fresh ["p1"; "p2"; "p3"] "sequence models" COMPARISON
           Cases.three_papers Cases.talking_id Cases.talking).
  - intros key [c Hc]. cbn in Hc. rewrite lookup_empty in Hc. discriminate.
  - reflexivity.
Defined.

End ConversationIds.

(* ===================================================================== *)
(** ** [agent_factory.py]: the factory and the coordinator's registry     *)
(* ===================================================================== *)

Section FactoryRegistry.
Variable process_query_of : string -> AgentFactory.Config -> AgentFactory.Config -> PaperAgent.
Variable settings : AgentFactory.Settings.

Lemma unregister_agent_collaborations agent_id s :
  active_collaborations (snd (unregister_agent agent_id s)) = active_collaborations s.
Proof.
  unfold unregister_agent, bind, gets.
  destruct (bool_decide (is_Some (active_agents s !! agent_id))); reflexivity.
Qed.

(** The two ways [create_paper_agent] can end. *)
Lemma create_paper_agent_cases agent_id paper_data agent_config f :
  let run := AgentFactory.create_paper_agent process_query_of settings
               agent_id paper_data agent_config f in
  (fst run = inl AgentFactory.UnhashableKey
   /\ AgentFactory.active_agents (snd run) = AgentFactory.active_agents f
   /\ AgentFactory.coordinator (snd run) = AgentFactory.coordinator f)
  \/ (exists agent pq,
        fst run = inr agent
        /\ AgentFactory.agent_id agent = agent_id
        /\ AgentFactory.active_agents (snd run)
           = <[agent_id := agent]> (AgentFactory.active_agents f)
        /\ active_agents (AgentFactory.coordinator (snd run))
           = <[agent_id := pq]> (active_agents (AgentFactory.coordinator f))
        /\ active_collaborations (AgentFactory.coordinator (snd run))
           = active_collaborations (AgentFactory.coordinator f)).
Proof.
  cbv zeta. unfold AgentFactory.create_paper_agent.
  destruct (AgentFactory._get_default_capabilities _) as [e|capabilities] eqn:Hcaps.
  - left. cbn. repeat split.
    destruct (match AgentFactory.given agent_config with
              | Some cfg => default (AgentFactory.Str "interactive") (cfg !! "agent_type")
              | None => AgentFactory.Str "interactive"
              end) as [t|n|l]; simpl in Hcaps; congruence.
  - right. eexists _, _. cbn. repeat split.
Qed.

Lemma create_paper_agent_hashable agent_id paper_data agent_config f :
  (forall cfg l, AgentFactory.given agent_config = Some cfg ->
                 cfg !! "agent_type" <> Some (AgentFactory.Strs l)) ->
  exists agent,
    fst (AgentFactory.create_paper_agent process_query_of settings
           agent_id paper_data agent_config f) = inr agent.
Proof.
  intros Hhash. unfold AgentFactory.create_paper_agent.
  destruct (AgentFactory._get_default_capabilities _) as [e|capabilities] eqn:Hcaps;
    [|cbn; eauto].
  exfalso.
  destruct (AgentFactory.given agent_config) as [cfg|] eqn:Hgiven; [|discriminate].
  destruct (cfg !! "agent_type") as [[t|n|l]|] eqn:Htype; simpl in Hcaps;
    try discriminate.
  exact (Hhash cfg l eq_refl Htype).
Qed.

Lemma in_step_create_paper_agent agent_id paper_data agent_config f :
  AgentFactory.in_step f ->
  AgentFactory.in_step
    (snd (AgentFactory.create_paper_agent process_query_of settings
            agent_id paper_data agent_config f)).
Proof.
  intros Hstep.
  destruct (create_paper_agent_cases agent_id paper_data agent_config f)
    as [(_ & Hagents & Hcoord)|(agent & pq & _ & _ & Hagents & Hcoord & _)];
    intros id Hid; unfold known_to_coordinator.
  - rewrite Hagents in Hid. rewrite Hcoord. exact (Hstep id Hid).
  - rewrite Hagents in Hid. rewrite Hcoord.
    destruct (decide (id = agent_id)) as [->|Hne].
    + rewrite lookup_insert_eq. eauto.
    + rewrite lookup_insert_ne in Hid by congruence.
      rewrite lookup_insert_ne by congruence. exact (Hstep id Hid).
Qed.

Lemma remove_agent_registries agent_id f :
  (AgentFactory.active_agents f !! agent_id = None
   /\ AgentFactory.remove_agent agent_id f = (false, f))
  \/ (is_Some (AgentFactory.active_agents f !! agent_id)
      /\ fst (AgentFactory.remove_agent agent_id f) = true
      /\ AgentFactory.active_agents (snd (AgentFactory.remove_agent agent_id f))
         = delete agent_id (AgentFactory.active_agents f)
      /\ active_agents (AgentFactory.coordinator (snd (AgentFactory.remove_agent agent_id f)))
         = delete agent_id (active_agents (AgentFactory.coordinator f))
      /\ active_collaborations
           (AgentFactory.coordinator (snd (AgentFactory.remove_agent agent_id f)))
         = active_collaborations (AgentFactory.coordinator f)).
Proof.
  unfold AgentFactory.remove_agent.
  destruct (AgentFactory.active_agents f !! agent_id) as [agent|] eqn:Hagent.
  - right. cbn. split; [eauto|]. split; [reflexivity|]. split; [reflexivity|].
    split; [apply unregister_agent_registry|apply unregister_agent_collaborations].
  - left. auto.
Qed.

Lemma in_step_remove_agent agent_id f :
  AgentFactory.in_step f -> AgentFactory.in_step (snd (AgentFactory.remove_agent agent_id f)).
Proof.
  intros Hstep.
  destruct (remove_agent_registries agent_id f)
    as [[_ ->]|(_ & _ & Hagents & Hcoord & _)]; [exact Hstep|].
  intros id Hid. unfold known_to_coordinator. rewrite Hagents in Hid. rewrite Hcoord.
  destruct (decide (id = agent_id)) as [->|Hne].
  - rewrite lookup_delete_eq in Hid. destruct Hid as [? ?]. discriminate.
  - rewrite lookup_delete_ne in Hid by congruence.
    rewrite lookup_delete_ne by congruence. exact (Hstep id Hid).
Qed.

Lemma in_step_network_loop network_id network_config paper_ids : forall i agent_ids f,
  AgentFactory.in_step f ->
  AgentFactory.in_step
    (snd (AgentFactory.network_loop process_query_of settings network_id network_config
            i paper_ids agent_ids f)).
Proof.
  induction paper_ids as [|paper_id rest IH]; intros i agent_ids f Hstep; [exact Hstep|].
  cbn [AgentFactory.network_loop].
  match goal with
  | |- context [AgentFactory.create_paper_agent _ _ ?a ?p ?c f] =>
    pose proof (in_step_create_paper_agent a p c f Hstep) as Hnext;
    destruct (AgentFactory.create_paper_agent process_query_of settings a p c f)
      as [[e|agent] f1]
  end.
  - exact Hnext.
  - apply IH. exact Hnext.
Qed.

(** X26: the factory and its coordinator stay in step. If every agent of
    the factory is known to the coordinator, this is still so after
    [create_paper_agent], [create_specialized_agent],
    [create_multi_agent_network] and [remove_agent], whatever their
    arguments and whether they return or raise. *)
Theorem factory_and_coordinator_stay_in_step f :
  AgentFactory.in_step f ->
  (forall agent_id paper_data agent_config,
     AgentFactory.in_step
       (snd (AgentFactory.create_paper_agent process_query_of settings
               agent_id paper_data agent_config f)))
  /\ (forall agent_id paper_data specialization,
        AgentFactory.in_step
          (snd (AgentFactory.create_specialized_agent process_query_of settings
                  agent_id paper_data specialization f)))
  /\ (forall network_id paper_ids network_config,
        AgentFactory.in_step
          (snd (AgentFactory.create_multi_agent_network process_query_of settings
                  network_id paper_ids network_config f)))
  /\ (forall agent_id,
        AgentFactory.in_step (snd (AgentFactory.remove_agent agent_id f))).
Proof.
  intros Hstep. split; [|split; [|split]].
  - intros. apply in_step_create_paper_agent. exact Hstep.
  - intros agent_id paper_data specialization.
    unfold AgentFactory.create_specialized_agent.
    destruct (bool_decide _); [exact Hstep|].
    apply in_step_create_paper_agent. exact Hstep.
  - intros network_id paper_ids network_config.
    unfold AgentFactory.create_multi_agent_network.
    pose proof (in_step_network_loop network_id network_config paper_ids 0 [] f Hstep)
      as Hloop.
    destruct (AgentFactory.network_loop _ _ _ _ _ _ _ _) as [[e|ids] f1]; exact Hloop.
  - intros. apply in_step_remove_agent. exact Hstep.
Qed.

(** X27: [remove_agent] undoes [create_paper_agent]. For an id that
    neither the factory nor the coordinator knew, removing the agent just
    created returns [True] and leaves both registries, and the active
    collaborations, as they were before the creation. *)
Theorem factory_remove_undoes_create agent_id paper_data agent_config f agent f1 :
  AgentFactory.active_agents f !! agent_id = None ->
  active_agents (AgentFactory.coordinator f) !! agent_id = None ->
  AgentFactory.create_paper_agent process_query_of settings
    agent_id paper_data agent_config f = (inr agent, f1) ->
  exists f2,
    AgentFactory.remove_agent agent_id f1 = (true, f2)
    /\ AgentFactory.active_agents f2 = AgentFactory.active_agents f
    /\ active_agents (AgentFactory.coordinator f2)
       = active_agents (AgentFactory.coordinator f)
    /\ active_collaborations (AgentFactory.coordinator f2)
       = active_collaborations (AgentFactory.coordinator f).
Proof.
  intros Hfresh Hunknown Hrun.
  destruct (create_paper_agent_cases agent_id paper_data agent_config f)
    as [(Hfail & _)|(agent' & pq & _ & _ & Hagents & Hcoord & Hcollab)];
    rewrite Hrun in *; [discriminate|].
  cbn [snd] in *.
  destruct (remove_agent_registries agent_id f1)
    as [[Hnone _]|(_ & Htrue & Hagents2 & Hcoord2 & Hcollab2)].
  { rewrite Hagents, lookup_insert_eq in Hnone. discriminate. }
  destruct (AgentFactory.remove_agent agent_id f1) as [b f2]. cbn [fst snd] in *.
  subst b. exists f2. split; [reflexivity|].
  rewrite Hagents2, Hagents, Hcoord2, Hcoord, Hcollab2, Hcollab.
  rewrite !delete_insert_eq, !delete_id by assumption. auto.
Qed.

Lemma string_app_inv_head (a b c : string) : (a ++ b = a ++ c)%string -> b = c.
Proof.
  induction a as [|x a IH]; intros Heq; [exact Heq|].
  apply IH. simpl in Heq. injection Heq as Heq. exact Heq.
Qed.

Lemma network_agent_ids_NoDup network_id n :
  NoDup (AgentFactory.network_agent_ids network_id n).
Proof.
  unfold AgentFactory.network_agent_ids. apply NoDup_fmap_2; [|apply NoDup_seq].
  intros i j Heq. apply string_app_inv_head in Heq. apply string_app_inv_head in Heq.
  unfold str_of_nat in Heq. exact (inj pretty _ _ Heq).
Qed.

Lemma given_union (network_config : option AgentFactory.Config)
      (config : AgentFactory.Config) v :
  config !! "agent_type" = Some v ->
  exists merged,
    AgentFactory.given
      (Some match AgentFactory.given network_config with
            | Some cfg => cfg ∪ config
            | None => config
            end) = Some merged
    /\ (merged !! "agent_type" = Some v
        \/ exists cfg, AgentFactory.given network_config = Some cfg
                       /\ merged !! "agent_type" = cfg !! "agent_type"
                       /\ is_Some (cfg !! "agent_type")).
Proof.
  intros Hv.
  set (merged := match AgentFactory.given network_config with
                 | Some cfg => cfg ∪ config
                 | None => config
                 end).
  assert (Hmerged : merged !! "agent_type" = Some v
                    \/ exists cfg, AgentFactory.given network_config = Some cfg
                                   /\ merged !! "agent_type" = cfg !! "agent_type"
                                   /\ is_Some (cfg !! "agent_type")).
  { unfold merged. destruct (AgentFactory.given network_config) as [cfg|]; [|left; exact Hv].
    destruct (cfg !! "agent_type") as [w|] eqn:Hw.
    - right. exists cfg. split; [reflexivity|].
      rewrite (lookup_union_Some_l _ _ _ _ Hw). rewrite Hw. eauto.
    - left. rewrite lookup_union_r by exact Hw. exact Hv. }
  exists merged. split; [|exact Hmerged].
  unfold AgentFactory.given. rewrite bool_decide_eq_false_2; [reflexivity|].
  intros Hempty. rewrite Hempty, lookup_empty in Hmerged.
  destruct Hmerged as [Hm|(cfg & _ & Hm & [w Hw])]; [discriminate|].
  rewrite Hw in Hm. discriminate.
Qed.

(** The loop of [create_multi_agent_network] when no list is given as
    agent type. *)
Lemma network_loop_ok network_id network_config paper_ids : forall i agent_ids f,
  (forall cfg l, AgentFactory.given network_config = Some cfg ->
                 cfg !! "agent_type" <> Some (AgentFactory.Strs l)) ->
  exists f',
    AgentFactory.network_loop process_query_of settings network_id network_config
      i paper_ids agent_ids f
    = (inr (agent_ids
            ++ map (fun i => (network_id ++ "_agent_" ++ str_of_nat i)%string)
                   (seq i (length paper_ids))), f')
    /\ (forall id, is_Some (AgentFactory.active_agents f !! id)
                   \/ id ∈ map (fun i => (network_id ++ "_agent_" ++ str_of_nat i)%string)
                               (seq i (length paper_ids)) ->
                   is_Some (AgentFactory.active_agents f' !! id))
    /\ (forall id, known_to_coordinator id (AgentFactory.coordinator f)
                   \/ id ∈ map (fun i => (network_id ++ "_agent_" ++ str_of_nat i)%string)
                               (seq i (length paper_ids)) ->
                   known_to_coordinator id (AgentFactory.coordinator f')).
Proof.
  induction paper_ids as [|paper_id rest IH]; intros i agent_ids f Hhash.
  - exists f. cbn. rewrite app_nil_r. split; [reflexivity|].
    split; intros id [Hid|Hid]; try exact Hid; inversion Hid.
  - cbn [AgentFactory.network_loop length seq map].
    set (agent_type := nth (i mod length AgentFactory.agent_types)
                           AgentFactory.agent_types ""%string).
    set (agent_id := (network_id ++ "_agent_" ++ str_of_nat i)%string).
    set (paper_data := ({[ "id" := AgentFactory.Str paper_id;
                           "title" := AgentFactory.Str ("Paper " ++ paper_id) ]}
                        : AgentFactory.Config)).
    set (base := ({[ "agent_type" := AgentFactory.Str agent_type;
                     "network_id" := AgentFactory.Str network_id;
                     "network_role" := AgentFactory.Str ("specialist_" ++ agent_type) ]}
                  : AgentFactory.Config)).
    set (config := match AgentFactory.given network_config with
                   | Some cfg => cfg ∪ base
                   | None => base
                   end).
    assert (Hbase : base !! "agent_type" = Some (AgentFactory.Str agent_type))
      by apply lookup_insert_eq.
    destruct (given_union network_config base _ Hbase) as (merged & Hgiven & Hmerged).
    fold config in Hgiven.
    destruct (create_paper_agent_hashable agent_id paper_data (Some config) f)
      as [agent Hagent].
    { intros cfg l Hcfg. rewrite Hgiven in Hcfg. injection Hcfg as <-.
      destruct Hmerged as [Hm|(cfg & Hcfg & Hm & _)]; rewrite Hm; [discriminate|].
      exact (Hhash cfg l Hcfg). }
    destruct (create_paper_agent_cases agent_id paper_data (Some config) f)
      as [(Hfail & _)|(agent' & pq & _ & _ & Hagents & Hcoord & _)];
      [rewrite Hagent in Hfail; discriminate|].
    destruct (AgentFactory.create_paper_agent process_query_of settings agent_id
                paper_data (Some config) f) as [outcome f1].
    cbn [fst snd] in *. subst outcome.
    destruct (IH (S i) (agent_ids ++ [agent_id]) f1 Hhash) as (f' & Hrun & Hfac & Hco).
    exists f'. rewrite Hrun, <- app_assoc. split; [reflexivity|].
    split; intros id Hid.
    + apply Hfac. destruct Hid as [Hid|Hid].
      * left. rewrite Hagents. destruct (decide (id = agent_id)) as [->|Hne].
        -- rewrite lookup_insert_eq. eauto.
        -- rewrite lookup_insert_ne by congruence. exact Hid.
      * apply elem_of_cons in Hid as [->|Hid]; [|right; exact Hid].
        left. rewrite Hagents, lookup_insert_eq. eauto.
    + apply Hco. unfold known_to_coordinator in *. destruct Hid as [Hid|Hid].
      * left. rewrite Hcoord. destruct (decide (id = agent_id)) as [->|Hne].
        -- rewrite lookup_insert_eq. eauto.
        -- rewrite lookup_insert_ne by congruence. exact Hid.
      * apply elem_of_cons in Hid as [->|Hid]; [|right; exact Hid].
        left. rewrite Hcoord, lookup_insert_eq. eauto.
Qed.

(** X28: the agents of a network can collaborate at once. Unless the
    network configuration puts a list where the agent type belongs,
    [create_multi_agent_network] returns one id per paper, all different,
    named after the network and the position; each of them is then an agent
    of the factory and known to the coordinator, so every task whose
    participants are among them passes the registry check of
    [start_collaboration]. *)
Theorem network_agents_can_collaborate network_id paper_ids network_config f :
  (forall cfg l, AgentFactory.given network_config = Some cfg ->
                 cfg !! "agent_type" <> Some (AgentFactory.Strs l)) ->
  exists f',
    AgentFactory.create_multi_agent_network process_query_of settings
      network_id paper_ids network_config f
    = (inr (AgentFactory.network_agent_ids network_id (length paper_ids)), f')
    /\ NoDup (AgentFactory.network_agent_ids network_id (length paper_ids))
    /\ (forall id, id ∈ AgentFactory.network_agent_ids network_id (length paper_ids) ->
          is_Some (AgentFactory.active_agents f' !! id)
          /\ known_to_coordinator id (AgentFactory.coordinator f'))
    /\ (forall task,
          agents task ⊆ AgentFactory.network_agent_ids network_id (length paper_ids) ->
          missing_agents_of task (AgentFactory.coordinator f') = []).
Proof.
  intros Hhash. unfold AgentFactory.create_multi_agent_network.
  destruct (network_loop_ok network_id network_config paper_ids 0 [] f Hhash)
    as (f1 & Hrun & Hfac & Hco).
  rewrite Hrun. cbn [app]. eexists. split; [reflexivity|].
  split; [apply network_agent_ids_NoDup|].
  assert (Hknown : forall id,
             id ∈ AgentFactory.network_agent_ids network_id (length paper_ids) ->
             is_Some (AgentFactory.active_agents f1 !! id)
             /\ known_to_coordinator id (AgentFactory.coordinator f1)).
  { intros id Hid. split; [apply Hfac|apply Hco]; right; exact Hid. }
  split; [exact Hknown|].
  intros task Hsub. cbn [AgentFactory.add_logged AgentFactory.coordinator].
  destruct (missing_agents_of task (AgentFactory.coordinator f1)) as [|id rest] eqn:Hmiss;
    [reflexivity|].
  assert (Hid : id ∈ missing_agents_of task (AgentFactory.coordinator f1))
    by (rewrite Hmiss; left).
  apply missing_agents_of_spec in Hid as [Hin Hnone].
  destruct (Hknown id (Hsub id Hin)) as [_ [agent Hagent]].
  rewrite Hagent in Hnone. discriminate.
Qed.

End FactoryRegistry.

Lemma factory_and_coordinator_stay_in_step_witness :
  (forall agent_id paper_data agent_config,
     AgentFactory.in_step
       (snd (AgentFactory.create_paper_agent AgentFactory.Cases.silent
               AgentFactory.default_settings
               agent_id paper_data agent_config AgentFactory.Cases.empty_factory)))
  /\ (forall agent_id paper_data specialization,
        AgentFactory.in_step
          (snd (AgentFactory.create_specialized_agent AgentFactory.Cases.silent
                  AgentFactory.default_settings
                  agent_id paper_data specialization AgentFactory.Cases.empty_factory)))
  /\ (forall network_id paper_ids network_config,
        AgentFactory.in_step
          (snd (AgentFactory.create_multi_agent_network AgentFactory.Cases.silent
                  AgentFactory.default_settings
                  network_id paper_ids network_config AgentFactory.Cases.empty_factory)))
  /\ (forall agent_id,
        AgentFactory.in_step
          (snd (AgentFactory.remove_agent agent_id AgentFactory.Cases.empty_factory))).
Proof.
  apply (factory_and_coordinator_stay_in_step AgentFactory.Cases.silent
           AgentFactory.default_settings AgentFactory.Cases.empty_factory).
  intros agent_id [agent Hagent]. cbn in Hagent. rewrite lookup_empty in Hagent.
  discriminate.
Defined.

Lemma factory_remove_undoes_create_witness :
  exists f2,
    AgentFactory.remove_agent "a1"
      (snd (AgentFactory.create_paper_agent AgentFactory.Cases.silent
              AgentFactory.default_settings "a1" ∅ None AgentFactory.Cases.empty_factory))
    = (true, f2)
    /\ AgentFactory.active_agents f2
       = AgentFactory.active_agents AgentFactory.Cases.empty_factory
    /\ active_agents (AgentFactory.coordinator f2)
       = active_agents (AgentFactory.coordinator AgentFactory.Cases.empty_factory)
    /\ active_collaborations (AgentFactory.coordinator f2)
       = active_collaborations (AgentFactory.coordinator AgentFactory.Cases.empty_factory).
Proof.
  refine (factory_remove_undoes_create AgentFactory.Cases.silent
            AgentFactory.default_settings "a1" ∅ None AgentFactory.Cases.empty_factory
            _ _ eq_refl eq_refl eq_refl).
Defined.

Lemma network_agents_can_collaborate_witness :
  exists f',
    AgentFactory.create_multi_agent_network AgentFactory.Cases.silent
      AgentFactory.default_settings "net" ["paper-1"; "paper-2"] None
      AgentFactory.Cases.empty_factory
    = (inr (AgentFactory.network_agent_ids "net" 2), f')
    /\ NoDup (AgentFactory.network_agent_ids "net" 2)
    /\ (forall id, id ∈ AgentFactory.network_agent_ids "net" 2 ->
          is_Some (AgentFactory.active_agents f' !! id)
          /\ known_to_coordinator id (AgentFactory.coordinator f'))
    /\ (forall task,
          agents task ⊆ AgentFactory.network_agent_ids "net" 2 ->
          missing_agents_of task (AgentFactory.coordinator f') = []).
Proof.
  apply (network_agents_can_collaborate AgentFactory.Cases.silent
           AgentFactory.default_settings "net" ["paper-1"; "paper-2"] None
           AgentFactory.Cases.empty_factory).
  intros cfg l Hcfg. discriminate.
Defined.

(* ===================================================================== *)
(** ** [paper_agent.py]: how much a backend agent remembers               *)
(* ===================================================================== *)

Section Memory.
Import PaperAgentMemory.

Lemma process_query_answered config history query response final_fails m :
  default (AgentFactory.Int 10) (config !! "memory_size") = AgentFactory.Int m ->
  snd (process_query config history query (HandlerReturns response final_fails))
  = if (m * 2 <? len (recorded history query response))%Z
    then slice_from (- (m * 2)) (recorded history query response)
    else recorded history query response.
Proof.
  intros Hsize. unfold process_query. rewrite Hsize. fold (recorded history query response).
  destruct final_fails; reflexivity.
Qed.

Lemma recorded_length history query response :
  length (recorded history query response) = (length history + 2)%nat.
Proof.
  unfold recorded. rewrite length_app. reflexivity.
Qed.

(** With a size of at least 1, the last [2 * m] entries are kept. *)
Lemma process_query_keeps_last config history query response final_fails m :
  default (AgentFactory.Int 10) (config !! "memory_size") = AgentFactory.Int m ->
  (1 <= m)%Z ->
  snd (process_query config history query (HandlerReturns response final_fails))
  = drop (length (recorded history query response) - Z.to_nat (2 * m))
         (recorded history query response).
Proof.
  intros Hsize Hm. rewrite (process_query_answered _ _ _ _ _ _ Hsize).
  unfold slice_from, len.
  destruct (m * 2 <? Z.of_nat (length (recorded history query response)))%Z eqn:Hcmp.
  - apply Z.ltb_lt in Hcmp.
    rewrite (proj2 (Z.ltb_lt (- (m * 2)) 0)) by lia. f_equal. lia.
  - apply Z.ltb_ge in Hcmp.
    replace (length (recorded history query response) - Z.to_nat (2 * m))%nat
      with 0%nat by lia.
    reflexivity.
Qed.

(** X29: what [memory_size] does to the history when a query has been
    answered. A size of at least 1 keeps the last [2 * memory_size] entries,
    however long the history was; a size of 0 switches the trimming off,
    because the slice [history[-0:]] is the whole list; a negative size
    drops the oldest [-2 * memory_size] entries at every answer. *)
Theorem memory_size_bounds_the_history config history query response final_fails m :
  default (AgentFactory.Int 10) (config !! "memory_size") = AgentFactory.Int m ->
  ((1 <= m)%Z ->
     length (snd (process_query config history query
                    (HandlerReturns response final_fails)))
     = Nat.min (length history + 2) (Z.to_nat (2 * m)))
  /\ (m = 0%Z ->
        snd (process_query config history query (HandlerReturns response final_fails))
        = recorded history query response)
  /\ ((m < 0)%Z ->
        snd (process_query config history query (HandlerReturns response final_fails))
        = drop (Z.to_nat (- (2 * m))) (recorded history query response)).
Proof.
  intros Hsize. split; [|split].
  - intros Hm. rewrite (process_query_keeps_last _ _ _ _ _ _ Hsize Hm).
    rewrite length_drop, recorded_length. lia.
  - intros ->. rewrite (process_query_answered _ _ _ _ _ _ Hsize).
    change (0 * 2)%Z with 0%Z. change (- 0)%Z with 0%Z.
    unfold len. rewrite recorded_length.
    rewrite (proj2 (Z.ltb_lt 0 (Z.of_nat (length history + 2)))) by lia. reflexivity.
  - intros Hm. rewrite (process_query_answered _ _ _ _ _ _ Hsize).
    unfold len, slice_from. rewrite recorded_length.
    rewrite (proj2 (Z.ltb_lt (m * 2) (Z.of_nat (length history + 2)))) by lia.
    rewrite (proj2 (Z.ltb_ge (- (m * 2)) 0)) by lia.
    f_equal. lia.
Qed.

Lemma memory_size_bounds_the_history_witness :
  ((1 <= 0)%Z ->
     length (snd (process_query {[ "memory_size" := AgentFactory.Int 0 ]}
                    [user_entry "q0"; agent_entry error_response] "q1"
                    (HandlerReturns error_response false)))
     = Nat.min (length [user_entry "q0"; agent_entry error_response] + 2)
               (Z.to_nat (2 * 0)))
  /\ (0%Z = 0%Z ->
        snd (process_query {[ "memory_size" := AgentFactory.Int 0 ]}
               [user_entry "q0"; agent_entry error_response] "q1"
               (HandlerReturns error_response false))
        = recorded [user_entry "q0"; agent_entry error_response] "q1" error_response)
  /\ ((0 < 0)%Z ->
        snd (process_query {[ "memory_size" := AgentFactory.Int 0 ]}
               [user_entry "q0"; agent_entry error_response] "q1"
               (HandlerReturns error_response false))
        = drop (Z.to_nat (- (2 * 0)))
               (recorded [user_entry "q0"; agent_entry error_response] "q1"
                         error_response)).
Proof.
  apply (memory_size_bounds_the_history {[ "memory_size" := AgentFactory.Int 0 ]}
           [user_entry "q0"; agent_entry error_response] "q1" error_response false 0).
  reflexivity.
Defined.

(** X30: an agent made by the factory remembers [2 * max_agent_memory]
    entries. When the configuration given to [create_paper_agent] does not
    set [memory_size] and the setting is at least 1, then after every
    answered query the history of the agent holds its last
    [2 * max_agent_memory] entries at most: 20 with the default setting. *)
Theorem factory_agents_remember_the_setting
        process_query_of settings agent_id paper_data agent_config f agent f1
        history query response final_fails :
  (forall cfg, AgentFactory.given agent_config = Some cfg -> cfg !! "memory_size" = None) ->
  (1 <= AgentFactory.max_agent_memory settings)%Z ->
  AgentFactory.create_paper_agent process_query_of settings
    agent_id paper_data agent_config f = (inr agent, f1) ->
  length (snd (process_query (AgentFactory.config agent) history query
                 (HandlerReturns response final_fails)))
  = Nat.min (length history + 2)
            (Z.to_nat (2 * AgentFactory.max_agent_memory settings)).
Proof.
  intros Hunset Hsetting Hrun.
  assert (Hsize : AgentFactory.config agent !! "memory_size"
                  = Some (AgentFactory.Int (AgentFactory.max_agent_memory settings))).
  { unfold AgentFactory.create_paper_agent in Hrun.
    destruct (AgentFactory._get_default_capabilities _) as [e|capabilities];
      [discriminate|].
    injection Hrun as <- _. cbn [AgentFactory.new_agent AgentFactory.config].
    destruct (AgentFactory.given agent_config) as [cfg|] eqn:Hgiven.
    - rewrite lookup_union_r by exact (Hunset cfg eq_refl). reflexivity.
    - reflexivity. }
  rewrite (process_query_keeps_last _ _ _ _ _
             (AgentFactory.max_agent_memory settings)); [|rewrite Hsize; reflexivity|exact Hsetting].
  rewrite length_drop, recorded_length. lia.
Qed.

Lemma factory_agents_remember_the_setting_witness :
  length (snd (process_query
                 (AgentFactory.config
                    (AgentFactory.new_agent "a1" ∅
                       {[ "model_name" := AgentFactory.Str "gpt-3.5-turbo";
                          "memory_size" := AgentFactory.Int 10;
                          "timeout" := AgentFactory.Int 30;
                          "capabilities" :=
                            AgentFactory.Strs ["question_answering"; "explanation";
                                               "discussion"; "clarification"] ]}))
                 (replicate 30 (user_entry "earlier")) "q" 
                 (HandlerReturns error_response false)))
  = Nat.min (length (replicate 30 (user_entry "earlier")) + 2)
            (Z.to_nat (2 * AgentFactory.max_agent_memory AgentFactory.default_settings)).
Proof.
  refine (factory_agents_remember_the_setting AgentFactory.Cases.silent
            AgentFactory.default_settings "a1" ∅ None AgentFactory.Cases.empty_factory
            _ _ (replicate 30 (user_entry "earlier")) "q" error_response false
            _ _ eq_refl).
  - intros cfg Hcfg. discriminate.
  - cbn. lia.
Defined.

End Memory.
